(** * gemi: dialog store and Gemini completion adapter

    A shallow embedding of [bot/gemini_utils.py] and [bot/database.py],
    followed by the properties of the specification that were checked
    against it. *)

From Stdlib Require Import ZArith List Ascii String Bool Lia.
From Stdlib Require QArith.
From stdpp Require Import base option list gmap strings.

Local Open Scope string_scope.
Local Open Scope list_scope.

(** ** Python values, exceptions and results *)

#[local] Set Warnings "-register-all".

(** The values a Mongo document of this program holds.  Python's [bool] is a
    subclass of [int] ([True == 1]); it is held as [PInt 1] and [PInt 0].
    A [datetime] is held as a timestamp, a [float] as the rational it
    denotes, a [dict] with string keys as an association list in insertion
    order. *)
Inductive pyval : Type :=
| PNone
| PInt (z : Z)
| PFloat (q : QArith_base.Q)
| PStr (s : string)
| PTime (t : Z)
| PDict (d : list (string * pyval)).

(** The exceptions the two modules can raise.  An f-string message is kept
    as its template and the values of its fields, in order.  [ApiError e] is
    the [ValueError("Error in Gemini API: " + str(e))] that both completion
    methods raise from their [except Exception as e] clause; it keeps the
    cause [e] instead of its text.  [BackendFailure msg] is any exception
    coming out of the generative backend, with [str(e) = msg].
    [OverflowError] is what the driver's BSON encoder raises for an integer
    that does not fit in 8 bytes. *)
Inductive exn : Type :=
| ValueError (template : string) (args : list pyval)
| KeyError (key : string)
| IndexError (what : string)
| TypeError (what : string)
| AttributeError (what : string)
| UnboundLocalError (var : string)
| OverflowError (what : string)
| DuplicateKeyError (key : pyval)
| WriteError (what : string)
| BackendFailure (msg : string)
| ApiError (cause : exn).

Inductive result (A : Type) : Type :=
| Ok (a : A)
| Raise (e : exn).
Arguments Ok {A} a.
Arguments Raise {A} e.

(** [bool(v)] *)
Definition truthy (v : pyval) : bool :=
  match v with
  | PNone => false
  | PInt z => negb (z =? 0)%Z
  | PFloat q => negb (QArith_base.Qnum q =? 0)%Z
  | PStr s => negb (String.eqb s "")
  | PTime _ => true
  | PDict d => match d with [] => false | _ => true end
  end.

(** [isinstance(v, int)] *)
Definition isinstance_int (v : pyval) : bool :=
  match v with PInt _ => true | _ => false end.

(** The integers a BSON document holds: 8 bytes, signed. *)
Definition int64 (z : Z) : bool := (- 2 ^ 63 <=? z)%Z && (z <? 2 ^ 63)%Z.

(** Can the driver encode the value to send it to the store?  It cannot
    when the value holds an integer outside 8 bytes. *)
Fixpoint bson_encodable (v : pyval) : bool :=
  match v with
  | PInt z => int64 z
  | PDict d =>
      (fix all_encodable (l : list (string * pyval)) : bool :=
         match l with
         | [] => true
         | (_, x) :: l' => bson_encodable x && all_encodable l'
         end) d
  | _ => true
  end.

Definition too_big : exn :=
  OverflowError "MongoDB can only handle up to 8-byte ints".

(** ** Text: [str.split()], [str.strip()], [str.join]

    A character is a code point below 256. *)

(** [c.isspace()]: TAB..CR, FS..US, SPACE, NEL and NBSP. *)
Definition is_space (c : ascii) : bool :=
  let n := N_of_ascii c in
  ((9 <=? n) && (n <=? 13) || (28 <=? n) && (n <=? 32)
   || (n =? 133) || (n =? 160))%N.

(** The fields between consecutive whitespace characters, empty ones kept. *)
Fixpoint fields (s : string) : list string :=
  match s with
  | EmptyString => [EmptyString]
  | String c s' =>
      if is_space c then EmptyString :: fields s'
      else match fields s' with
           | f :: fs => String c f :: fs
           | [] => [String c EmptyString]
           end
  end.

Definition nonempty (s : string) : bool :=
  match s with EmptyString => false | String _ _ => true end.

(** [s.split()]: split at runs of whitespace, no empty words. *)
Definition split (s : string) : list string := List.filter nonempty (fields s).

Fixpoint lstrip (s : string) : string :=
  match s with
  | EmptyString => EmptyString
  | String c s' => if is_space c then lstrip s' else s
  end.

Fixpoint rstrip (s : string) : string :=
  match s with
  | EmptyString => EmptyString
  | String c s' =>
      match rstrip s' with
      | EmptyString => if is_space c then EmptyString else String c EmptyString
      | r => String c r
      end
  end.

(** Is every character of [s] whitespace? *)
Fixpoint all_space (s : string) : bool :=
  match s with
  | EmptyString => true
  | String c s' => is_space c && all_space s'
  end.

(** [s.strip()] *)
Definition strip (s : string) : string := rstrip (lstrip s).

(** [sep.join(l)] *)
Fixpoint join (sep : string) (l : list string) : string :=
  match l with
  | [] => EmptyString
  | [x] => x
  | x :: rest => x +:+ sep +:+ join sep rest
  end.

(** [sum(len(x.split()) for x in l)] *)
Definition total_words (l : list string) : nat :=
  list_sum (map (fun x => length (split x)) l).

(** ** Configuration ([bot/config.py])

    The YAML tables are read-only inputs: [chat_modes] maps a mode name to
    its fields (of which the code reads ["prompt_start"]), and
    [available_text_models] is [models["available_text_models"]]. *)
Record config : Type := {
  chat_modes : gmap string (gmap string string);
  available_text_models : list string
}.

(** ** Completion adapter ([bot/gemini_utils.py]) *)

(** A prompt entry [{"role": r, "content": c}]. *)
Record entry : Type := { role : string; content : string }.

(** A stored turn [{"user": u, "bot": b}]. *)
Record turn : Type := { user : string; bot : string }.

(** What [generate_content] returns without streaming: an object whose
    [.text] is the answer, or raises. *)
Record response : Type := { text : result string }.

(** What [generate_content(..., stream=True)] returns: chunks, each with a
    [.text], until the end of the stream or an exception. *)
Inductive stream : Type :=
| EndOfStream
| StreamRaise (e : exn)
| Next (chunk_text : result string) (rest : stream).

Record backend : Type := {
  generate_content : list entry -> result response;
  generate_content_stream : list entry -> result stream
}.

Inductive status : Type := not_finished | finished.

(** One item yielded by [send_message_stream]:
    [(status, answer, (n_input_tokens, n_output_tokens), 0)]. *)
Record event : Type := {
  ev_status : status;
  ev_answer : string;
  ev_tokens : nat * nat;
  ev_cost : nat
}.

(** The outcome of a call together with the prompts handed to the backend,
    in call order. *)
Record traced (A : Type) : Type := {
  outcome : A;
  backend_calls : list (list entry)
}.
Arguments outcome {A} t.
Arguments backend_calls {A} t.

Definition _postprocess_answer (answer : string) : string := strip answer.

(** One pass of the loop over [dialog_messages]: two [messages.append]. *)
Definition append_turn (messages : list entry) (dialog_message : turn)
  : list entry :=
  (messages ++ [ {| role := "user"; content := user dialog_message |} ])
  ++ [ {| role := "model"; content := bot dialog_message |} ].

Definition _generate_prompt_messages (cfg : config) (message : string)
    (dialog_messages : list turn) (chat_mode : string)
  : result (list entry) :=
  match chat_modes cfg !! chat_mode with
  | None => Raise (KeyError chat_mode)
  | Some mode =>
      match mode !! "prompt_start" with
      | None => Raise (KeyError "prompt_start")
      | Some prompt =>
          let messages := [ {| role := "system"; content := prompt |} ] in
          let messages := fold_left append_turn dialog_messages messages in
          Ok (messages ++ [ {| role := "user"; content := message |} ])
      end
  end.

(** [len(" ".join([m["content"] for m in messages]).split())] *)
Definition count_input_tokens (messages : list entry) : nat :=
  length (split (join " " (map content messages))).

Definition unsupported (chat_mode : string) : exn :=
  ValueError "Chat mode {chat_mode} is not supported" [PStr chat_mode].

Definition send_message (cfg : config) (be : backend) (message : string)
    (dialog_messages : list turn) (chat_mode : string)
  : traced (result (string * (nat * nat) * nat)) :=
  match chat_modes cfg !! chat_mode with
  | None => {| outcome := Raise (unsupported chat_mode); backend_calls := [] |}
  | Some _ =>
      match _generate_prompt_messages cfg message dialog_messages chat_mode with
      | Raise e => {| outcome := Raise (ApiError e); backend_calls := [] |}
      | Ok messages =>
          {| backend_calls := [messages];
             outcome :=
               match generate_content be messages with
               | Raise e => Raise (ApiError e)
               | Ok response =>
                   match text response with
                   | Raise e => Raise (ApiError e)
                   | Ok answer =>
                       let n_input_tokens := count_input_tokens messages in
                       let n_output_tokens := length (split answer) in
                       Ok (_postprocess_answer answer,
                           (n_input_tokens, n_output_tokens), 0)
                   end
               end |}
      end
  end.

(** The body of [async for chunk in response] and what follows it.
    [n_output_tokens] is a local that is bound only once a chunk with text
    has arrived: it is [None] until then. *)
Fixpoint stream_loop (n_input_tokens : nat) (answer : string)
    (n_output_tokens : option nat) (resp : stream)
  : list event * option exn :=
  match resp with
  | EndOfStream =>
      match n_output_tokens with
      | Some n =>
          ([ {| ev_status := finished;
                ev_answer := _postprocess_answer answer;
                ev_tokens := (n_input_tokens, n); ev_cost := 0 |} ], None)
      | None => ([], Some (ApiError (UnboundLocalError "n_output_tokens")))
      end
  | StreamRaise e => ([], Some (ApiError e))
  | Next (Raise e) _ => ([], Some (ApiError e))
  | Next (Ok chunk_text) rest =>
      if nonempty chunk_text then
        let answer := answer +:+ chunk_text in
        let n := length (split answer) in
        let '(evs, r) := stream_loop n_input_tokens answer (Some n) rest in
        ({| ev_status := not_finished; ev_answer := answer;
            ev_tokens := (n_input_tokens, n); ev_cost := 0 |} :: evs, r)
      else stream_loop n_input_tokens answer n_output_tokens rest
  end.

(** The async generator, run to its end: the events it yields in order, and
    the exception that ends it, if any. *)
Definition send_message_stream (cfg : config) (be : backend) (message : string)
    (dialog_messages : list turn) (chat_mode : string)
  : traced (list event * option exn) :=
  match chat_modes cfg !! chat_mode with
  | None =>
      {| outcome := ([], Some (unsupported chat_mode)); backend_calls := [] |}
  | Some _ =>
      match _generate_prompt_messages cfg message dialog_messages chat_mode with
      | Raise e => {| outcome := ([], Some (ApiError e)); backend_calls := [] |}
      | Ok messages =>
          {| backend_calls := [messages];
             outcome :=
               match generate_content_stream be messages with
               | Raise e => ([], Some (ApiError e))
               | Ok resp =>
                   stream_loop (count_input_tokens messages) "" None resp
               end |}
      end
  end.

(** ** Dialog store ([bot/database.py]) *)

(** A document of the [dialog] collection; [dlg_id] is its ["_id"], the
    other fields are the keys of [dialog_dict] in [start_new_dialog]. *)
Record dialog : Type := {
  dlg_id : string;
  dlg_user_id : Z;
  dlg_chat_mode : pyval;
  dlg_start_time : Z;
  dlg_model : pyval;
  dlg_messages : list turn
}.

(** The two collections.  A user document is the dictionary of its fields
    (["_id"] included), stored under its integer ["_id"].  The dialog
    collection is held in natural order, the order of insertion, which is
    the order in which a scan of the collection goes through it. *)
Record db : Type := {
  user_collection : gmap Z (gmap string pyval);
  dialog_collection : list dialog
}.

(** Methods of [Database] read and write the store and may raise; what was
    written before an exception stays written. *)
Definition M (A : Type) : Type := db -> result A * db.

#[global] Instance M_ret : MRet M := fun A a s => (Ok a, s).
#[global] Instance M_bind : MBind M := fun A B f m s =>
  match m s with
  | (Ok a, s') => f a s'
  | (Raise e, s') => (Raise e, s')
  end.

Definition raise {A : Type} (e : exn) : M A := fun s => (Raise e, s).
Definition get_db : M db := fun s => (Ok s, s).
Definition put_db (s : db) : M unit := fun _ => (Ok tt, s).

(** *** Python dictionaries with string keys *)

(** [d.get(key)], with [None] for a missing key handled by the caller. *)
Fixpoint dict_get (key : string) (d : list (string * pyval)) : option pyval :=
  match d with
  | [] => None
  | (k, v) :: d' => if String.eqb k key then Some v else dict_get key d'
  end.

(** [d[key] = v]: in place for a key that is there, at the end otherwise. *)
Fixpoint dict_set (key : string) (v : pyval) (d : list (string * pyval))
  : list (string * pyval) :=
  match d with
  | [] => [(key, v)]
  | (k, w) :: d' =>
      if String.eqb k key then (k, v) :: d' else (k, w) :: dict_set key v d'
  end.

(** *** Field paths of [$set]

    The key of a [$set] is a path: field names separated by dots, the
    fields after the first being looked up in embedded documents. *)

Fixpoint split_dots (key : string) : list string :=
  match key with
  | EmptyString => [EmptyString]
  | String c key' =>
      if Ascii.eqb c "." then EmptyString :: split_dots key'
      else match split_dots key' with
           | f :: fs => String c f :: fs
           | [] => [String c EmptyString]
           end
  end.

(** A field name of a path is not empty and does not start with [$]. *)
Definition valid_component (c : string) : bool :=
  match c with
  | EmptyString => false
  | String a _ => negb (Ascii.eqb a "$")
  end.

Definition path_of (key : string) : option (list string) :=
  let components := split_dots key in
  if forallb valid_component components then Some components else None.

(** The embedded documents [$set] creates for a path that is not there. *)
Fixpoint nest (path : list string) (v : pyval) : pyval :=
  match path with
  | [] => v
  | c :: rest => PDict [(c, nest rest v)]
  end.

(** The new value of a field whose value is [cur] ([None]: no such field)
    when [v] is set at the path [path] below it. *)
Fixpoint set_below (path : list string) (v : pyval) (cur : option pyval)
  : result pyval :=
  match path with
  | [] => Ok v
  | c :: rest =>
      match cur with
      | None => Ok (nest path v)
      | Some (PDict d) =>
          match set_below rest v (dict_get c d) with
          | Ok x => Ok (PDict (dict_set c x d))
          | Raise e => Raise e
          end
      | Some _ => Raise (WriteError "Cannot create field in element")
      end
  end.

(** *** Collection primitives (pymongo)

    A write goes through the driver, which encodes the document or the
    update first and raises when it cannot, and then through the server,
    which applies it. *)

(** [user_collection.find_one({"_id": id})] *)
Definition users_find_one (id : pyval) (s : db) : option (gmap string pyval) :=
  match id with
  | PInt u => user_collection s !! u
  | _ => None
  end.

(** [user_collection.insert_one(user_dict)] for a dictionary with ["_id"] =
    [u].  The driver encodes the document first; the ["_id"] index is
    unique. *)
Definition users_insert_one (u : Z) (user_dict : list (string * pyval))
  : M unit :=
  fun s =>
    if negb (bson_encodable (PDict user_dict)) then (Raise too_big, s)
    else
      match user_collection s !! u with
      | Some _ => (Raise (DuplicateKeyError (PInt u)), s)
      | None =>
          (Ok tt, {| user_collection :=
                       <[u := list_to_map user_dict]> (user_collection s);
                     dialog_collection := dialog_collection s |})
      end.

(** [user_collection.update_one({"_id": id}, {"$set": {key: value}})].
    The driver encodes the update first; the store refuses a path with an
    empty or [$] field name; when no document matches nothing happens;
    ["_id"] is immutable; a path cannot go through a value that is not a
    document. *)
Definition users_update_one (id : pyval) (key : string) (value : pyval)
  : M unit :=
  fun s =>
    if negb (bson_encodable value) then (Raise too_big, s)
    else
      match path_of key with
      | Some (field :: rest) =>
          match id with
          | PInt u =>
              match user_collection s !! u with
              | None => (Ok tt, s)
              | Some doc =>
                  if String.eqb field "_id" then
                    match rest, value with
                    | [], PInt z =>
                        if (z =? u)%Z then (Ok tt, s)
                        else (Raise (WriteError "_id is immutable"), s)
                    | _, _ => (Raise (WriteError "_id is immutable"), s)
                    end
                  else
                    match set_below rest value (doc !! field) with
                    | Raise e => (Raise e, s)
                    | Ok x =>
                        (Ok tt,
                         {| user_collection :=
                              <[u := <[field := x]> doc]> (user_collection s);
                            dialog_collection := dialog_collection s |})
                    end
              end
          | _ => (Ok tt, s)
          end
      | _ => (Raise (WriteError "not a valid update path"), s)
      end.

(** Does a dialog match [{"_id": dialog_id, "user_id": user_id}]? *)
Definition dialog_matches (dialog_id user_id : pyval) (d : dialog) : bool :=
  match dialog_id, user_id with
  | PStr i, PInt u => String.eqb (dlg_id d) i && (dlg_user_id d =? u)%Z
  | _, _ => false
  end.

(** [dialog_collection.insert_one(d)]; the ["_id"] index is unique. *)
Definition dialogs_insert_one (d : dialog) : M unit :=
  fun s =>
    if existsb (fun d' => String.eqb (dlg_id d') (dlg_id d))
               (dialog_collection s)
    then (Raise (DuplicateKeyError (PStr (dlg_id d))), s)
    else (Ok tt, {| user_collection := user_collection s;
                    dialog_collection := dialog_collection s ++ [d] |}).

(** [dialog_collection.find_one({"_id": dialog_id, "user_id": user_id})] *)
Definition dialogs_find_one (dialog_id user_id : pyval) (s : db)
  : option dialog :=
  List.find (dialog_matches dialog_id user_id) (dialog_collection s).

Definition set_messages (msgs : list turn) (d : dialog) : dialog :=
  {| dlg_id := dlg_id d; dlg_user_id := dlg_user_id d;
     dlg_chat_mode := dlg_chat_mode d; dlg_start_time := dlg_start_time d;
     dlg_model := dlg_model d; dlg_messages := msgs |}.

(** [$set] of ["messages"] on the first document the filter matches. *)
Fixpoint update_first (p : dialog -> bool) (f : dialog -> dialog)
    (l : list dialog) : list dialog :=
  match l with
  | [] => []
  | d :: l' => if p d then f d :: l' else d :: update_first p f l'
  end.

(** [dialog_collection.update_one({"_id": dialog_id, "user_id": user_id},
    {"$set": {"messages": msgs}})].  No matching document: nothing happens,
    and nothing is raised. *)
Definition dialogs_update_one (dialog_id user_id : pyval) (msgs : list turn)
  : M unit :=
  fun s =>
    (Ok tt, {| user_collection := user_collection s;
               dialog_collection :=
                 update_first (dialog_matches dialog_id user_id)
                              (set_messages msgs) (dialog_collection s) |}).

(** The projection [{"_id": 1, "start_time": 1, "chat_mode": 1, "model": 1}]
    of a dialog. *)
Record dialog_meta : Type := {
  meta_id : string;
  meta_start_time : Z;
  meta_chat_mode : pyval;
  meta_model : pyval
}.

Definition project (d : dialog) : dialog_meta :=
  {| meta_id := dlg_id d; meta_start_time := dlg_start_time d;
     meta_chat_mode := dlg_chat_mode d; meta_model := dlg_model d |}.

Definition owned_by (user_id : pyval) (d : dialog) : bool :=
  match user_id with
  | PInt u => (dlg_user_id d =? u)%Z
  | _ => false
  end.

(** How the store serves a [find] that asks for no sort: by going through
    the collection, or through an index on the field of the filter.  The
    choice is the store's, not the caller's. *)
Inductive plan : Type := collection_scan | index_scan.

(** The index [("user_id", ASCENDING), ("start_time", DESCENDING)] of
    [_create_indexes], for one [user_id]: later start times first, equal
    start times in insertion order. *)
Fixpoint index_insert (d : dialog) (l : list dialog) : list dialog :=
  match l with
  | [] => [d]
  | x :: l' =>
      if (dlg_start_time x <=? dlg_start_time d)%Z then d :: l
      else x :: index_insert d l'
  end.

Definition index_order (l : list dialog) : list dialog :=
  fold_right index_insert [] l.

(** [dialog_collection.find({"user_id": user_id}, projection)], no sort:
    the owned dialogs in natural (insertion) order on a collection scan,
    in index order on an index scan. *)
Definition dialogs_find (p : plan) (user_id : pyval) (s : db)
  : list dialog_meta :=
  let owned := List.filter (owned_by user_id) (dialog_collection s) in
  map project
      match p with
      | collection_scan => owned
      | index_scan => index_order owned
      end.

(** [x + n] for an integer [n]. *)
Definition py_add (x : pyval) (n : Z) : result pyval :=
  match x with
  | PInt a => Ok (PInt (a + n))
  | PFloat q => Ok (PFloat (QArith_base.Qplus q (QArith_base.inject_Z n)))
  | _ => Raise (TypeError "unsupported operand type(s) for +=")
  end.

(** [inner[key] += n] *)
Definition iadd_item (inner : pyval) (key : string) (n : Z) : result pyval :=
  match inner with
  | PDict d =>
      match dict_get key d with
      | None => Raise (KeyError key)
      | Some x =>
          match py_add x n with
          | Ok y => Ok (PDict (dict_set key y d))
          | Raise e => Raise e
          end
      end
  | _ => Raise (TypeError "object is not subscriptable")
  end.

(** Lines 166-173 of [update_n_used_tokens]: the update of the dictionary
    read from the user document. *)
Definition add_tokens (n_used_tokens_dict : pyval) (model : string)
    (n_input_tokens n_output_tokens : Z) : result pyval :=
  match n_used_tokens_dict with
  | PDict d =>
      match dict_get model d with
      | Some inner =>
          match iadd_item inner "n_input_tokens" n_input_tokens with
          | Raise e => Raise e
          | Ok inner1 =>
              match iadd_item inner1 "n_output_tokens" n_output_tokens with
              | Raise e => Raise e
              | Ok inner2 => Ok (PDict (dict_set model inner2 d))
              end
          end
      | None =>
          Ok (PDict (dict_set model
                       (PDict [("n_input_tokens", PInt n_input_tokens);
                               ("n_output_tokens", PInt n_output_tokens)]) d))
      end
  | _ => Raise (TypeError "not a dictionary")
  end.

(** *** Methods of [Database]

    [datetime.now()] and [uuid.uuid4()] are inputs of the methods that read
    them, and so is the plan by which the store serves the unsorted [find]
    of [get_user_dialogs].  The server is taken to answer: the only store
    errors are those the data decide (a duplicate or an immutable ["_id"],
    a path that cannot be written) and the driver's refusal to encode an
    integer outside 8 bytes in a document it is given to write. *)

Definition check_if_user_exists (user_id : pyval) (raise_exception : bool)
  : M bool :=
  if negb (isinstance_int user_id) then
    raise (ValueError "user_id must be an integer" [])
  else
    s ← get_db;
    match users_find_one user_id s with
    | Some _ => mret true
    | None =>
        if raise_exception then
          raise (ValueError "User {user_id} does not exist" [user_id])
        else mret false
    end.

Definition add_new_user (cfg : config) (now_last_interaction now_first_seen : Z)
    (user_id chat_id : pyval) (username first_name last_name : string)
  : M unit :=
  if negb (isinstance_int user_id) || negb (isinstance_int chat_id) then
    raise (ValueError "user_id and chat_id must be integers" [])
  else
    present ← check_if_user_exists user_id false;
    if negb present then
      match user_id, available_text_models cfg with
      | PInt u, current_model :: _ =>
          let user_dict : list (string * pyval) :=
            [ ("_id", user_id);
              ("chat_id", chat_id);
              ("username", PStr username);
              ("first_name", PStr first_name);
              ("last_name", PStr last_name);
              ("last_interaction", PTime now_last_interaction);
              ("first_seen", PTime now_first_seen);
              ("current_dialog_id", PNone);
              ("current_chat_mode", PStr "assistant");
              ("current_model", PStr current_model);
              ("n_used_tokens", PDict []);
              ("n_generated_images", PInt 0);
              ("n_transcribed_seconds", PFloat (QArith_base.inject_Z 0)) ] in
          users_insert_one u user_dict
      | PInt _, [] => raise (IndexError "list index out of range")
      | _, _ => raise (ValueError "user_id and chat_id must be integers" [])
      end
    else mret tt.

Definition get_user_attribute (user_id : pyval) (key : string) : M pyval :=
  _ ← check_if_user_exists user_id true;
  s ← get_db;
  match users_find_one user_id s with
  | Some user_dict => mret (default PNone (user_dict !! key))
  | None => raise (AttributeError "'NoneType' object has no attribute 'get'")
  end.

Definition set_user_attribute (user_id : pyval) (key : string) (value : pyval)
  : M unit :=
  _ ← check_if_user_exists user_id true;
  users_update_one user_id key value.

Definition start_new_dialog (uuid4 : string) (now : Z) (user_id : pyval)
  : M string :=
  _ ← check_if_user_exists user_id true;
  let dialog_id := uuid4 in
  chat_mode ← get_user_attribute user_id "current_chat_mode";
  model ← get_user_attribute user_id "current_model";
  match user_id with
  | PInt u =>
      let dialog_dict :=
        {| dlg_id := dialog_id; dlg_user_id := u; dlg_chat_mode := chat_mode;
           dlg_start_time := now; dlg_model := model; dlg_messages := [] |} in
      _ ← dialogs_insert_one dialog_dict;
      _ ← users_update_one user_id "current_dialog_id" (PStr dialog_id);
      mret dialog_id
  | _ => raise (ValueError "user_id must be an integer" [])
  end.

Definition update_n_used_tokens (user_id : pyval) (model : string)
    (n_input_tokens n_output_tokens : pyval) : M unit :=
  match n_input_tokens, n_output_tokens with
  | PInt n_in, PInt n_out =>
      stored ← get_user_attribute user_id "n_used_tokens";
      let n_used_tokens_dict := if truthy stored then stored else PDict [] in
      match add_tokens n_used_tokens_dict model n_in n_out with
      | Raise e => raise e
      | Ok n_used_tokens_dict =>
          set_user_attribute user_id "n_used_tokens" n_used_tokens_dict
      end
  | _, _ =>
      raise (ValueError "n_input_tokens and n_output_tokens must be integers" [])
  end.

(** [dialog_id] when given, the user's ["current_dialog_id"] otherwise. *)
Definition resolve_dialog_id (user_id : pyval) (dialog_id : option string)
  : M pyval :=
  match dialog_id with
  | Some d => mret (PStr d)
  | None => get_user_attribute user_id "current_dialog_id"
  end.

Definition get_dialog_messages (user_id : pyval) (dialog_id : option string)
  : M (list turn) :=
  _ ← check_if_user_exists user_id true;
  dialog_id ← resolve_dialog_id user_id dialog_id;
  if negb (truthy dialog_id) then mret []
  else
    s ← get_db;
    match dialogs_find_one dialog_id user_id s with
    | None =>
        raise (ValueError "Dialog {dialog_id} not found for user {user_id}"
                          [dialog_id; user_id])
    | Some dialog_dict => mret (dlg_messages dialog_dict)
    end.

Definition set_dialog_messages (user_id : pyval) (dialog_messages : list turn)
    (dialog_id : option string) : M unit :=
  _ ← check_if_user_exists user_id true;
  dialog_id ← resolve_dialog_id user_id dialog_id;
  if negb (truthy dialog_id) then
    raise (ValueError "No current dialog found" [])
  else dialogs_update_one dialog_id user_id dialog_messages.

Definition get_user_dialogs (p : plan) (user_id : pyval)
  : M (list dialog_meta) :=
  _ ← check_if_user_exists user_id true;
  s ← get_db;
  mret (dialogs_find p user_id s).

(** The store right after [Database()] on an empty database. *)
Definition empty_db : db :=
  {| user_collection := ∅; dialog_collection := [] |}.

(** ** Vocabulary of the specification *)

(** The entries of the prior turns, oldest first: for each turn its user
    text, then its bot text under the role name [bot_role]. *)
Fixpoint turn_entries (bot_role : string) (history : list turn) : list entry :=
  match history with
  | [] => []
  | t :: rest =>
      {| role := "user"; content := user t |}
      :: {| role := bot_role; content := bot t |}
      :: turn_entries bot_role rest
  end.

(** [system:P, user:u1, bot_role:b1, ..., user:un, bot_role:bn, user:m] *)
Definition prompt_sequence (bot_role P : string) (history : list turn)
    (m : string) : list entry :=
  {| role := "system"; content := P |}
  :: turn_entries bot_role history ++ [ {| role := "user"; content := m |} ].

(** A backend stream that delivers the chunk texts [chunks] and ends. *)
Fixpoint stream_of (chunks : list string) : stream :=
  match chunks with
  | [] => EndOfStream
  | c :: rest => Next (Ok c) (stream_of rest)
  end.

(** The texts accumulated after each item of [l], starting from [acc]. *)
Fixpoint prefixes (acc : string) (l : list string) : list string :=
  match l with
  | [] => []
  | c :: rest => (acc +:+ c) :: prefixes (acc +:+ c) rest
  end.

Definition has_status (st : status) (ev : event) : bool :=
  match st, ev_status ev with
  | not_finished, not_finished | finished, finished => true
  | _, _ => false
  end.

(** The answer texts of the events with status [st], in delivery order. *)
Definition texts_with (st : status) (events : list event) : list string :=
  map ev_answer (List.filter (has_status st) events).

(** An event reports [n_input_tokens] for the prompt, the number of words of
    the answer text it carries, and cost zero. *)
Definition counts_words (n_input_tokens : nat) (ev : event) : Prop :=
  ev_tokens ev = (n_input_tokens, length (split (ev_answer ev)))
  /\ ev_cost ev = 0.


(** The dictionary [update_n_used_tokens] works on for user [u]: the stored
    ["n_used_tokens"], or the empty dictionary when that is falsy. *)
Definition tokens_dict (s : db) (u : Z) : option (list (string * pyval)) :=
  match user_collection s !! u with
  | None => None
  | Some doc =>
      let stored := default PNone (doc !! "n_used_tokens") in
      match (if truthy stored then stored else PDict []) with
      | PDict d => Some d
      | _ => None
      end
  end.

(** The two integer counters of a per-model entry. *)
Definition counters_of (inner : pyval) : option (Z * Z) :=
  match inner with
  | PDict i =>
      match dict_get "n_input_tokens" i, dict_get "n_output_tokens" i with
      | Some (PInt x), Some (PInt y) => Some (x, y)
      | _, _ => None
      end
  | _ => None
  end.

(** The stored counters of user [u] for [model], when there are any. *)
Definition used_tokens (s : db) (u : Z) (model : string) : option (Z * Z) :=
  match tokens_dict s u with
  | None => None
  | Some d =>
      match dict_get model d with
      | None => None
      | Some inner => counters_of inner
      end
  end.

(** User [u] is stored and has no entry for [model] yet. *)
Definition unused (s : db) (u : Z) (model : string) : Prop :=
  exists d, tokens_dict s u = Some d /\ dict_get model d = None.

(** Every value of a user document, and of every stored user document,
    is one the driver can encode. *)
Definition doc_encodable (doc : gmap string pyval) : Prop :=
  forall k v, doc !! k = Some v -> bson_encodable v = true.

Definition docs_encodable (s : db) : Prop :=
  forall u doc, user_collection s !! u = Some doc -> doc_encodable doc.

(** The usage dictionary of user [u] is one the driver can encode, as
    every dictionary is that was written through it. *)
Definition tokens_encodable (s : db) (u : Z) : Prop :=
  exists d, tokens_dict s u = Some d /\ bson_encodable (PDict d) = true.

(** The top-level field that a [$set] with the path [key] writes. *)
Definition field_of (key : string) : string := hd "" (split_dots key).

(** The referential invariant: a user's ["current_dialog_id"], when it is
    not [None], is the id of a stored dialog whose owner is that user. *)
Definition current_dialog_ok (s : db) : Prop :=
  forall (u : Z) (doc : gmap string pyval) (v : pyval),
    user_collection s !! u = Some doc ->
    doc !! "current_dialog_id" = Some v ->
    v <> PNone ->
    exists dlg,
      In dlg (dialog_collection s)
      /\ v = PStr (dlg_id dlg) /\ dlg_user_id dlg = u.

(** ** Sample inputs *)

Definition sample_config : config :=
  {| chat_modes := {[ "assistant" := {[ "prompt_start" := "P" ]} ]};
     available_text_models := ["gemini-1.5-flash"] |}.

Definition sample_history : list turn :=
  [ {| user := "u1"; bot := "b1" |}; {| user := "u2"; bot := "b2" |} ].

(** A backend that answers [" hi there "] at once, and ["a"], [""], ["b "]
    when streaming. *)
Definition sample_backend : backend :=
  {| generate_content := fun _ => Ok {| text := Ok " hi there " |};
     generate_content_stream := fun _ => Ok (stream_of ["a"; ""; "b "]) |}.

(** User 1, registered on an empty store. *)
Definition sample_db_user : db :=
  snd (add_new_user sample_config 10 11 (PInt 1) (PInt 100) "ann" "Ann" "A"
         empty_db).

(** User 1 after choosing another chat mode. *)
Definition sample_db_mode : db :=
  snd (set_user_attribute (PInt 1) "current_chat_mode" (PStr "code_assistant")
         sample_db_user).

(** Users 1 and 2; user 1 owns the dialog ["d1"]. *)
Definition sample_db_two_users : db :=
  snd (start_new_dialog "d1" 1 (PInt 1)
         (snd (add_new_user sample_config 20 21 (PInt 2) (PInt 200) "bob" "Bob"
                 "B" sample_db_user))).

(** User 1 with the dialogs ["d1"], started at time 1, and ["d2"], started
    at time 2. *)
Definition sample_db_two_dialogs : db :=
  snd (start_new_dialog "d2" 2 (PInt 1)
         (snd (start_new_dialog "d1" 1 (PInt 1) sample_db_user))).

Definition sample_turn : turn := {| user := "hello"; bot := "hi" |}.

(** User 1 with the counters (7, 4) for the model ["m"]. *)
Definition sample_db_tokens : db :=
  snd (update_n_used_tokens (PInt 1) "m" (PInt 7) (PInt 4) sample_db_user).

(** ** Further vocabulary *)

(** [len(s.split())] *)
Definition words (s : string) : nat := length (split s).

(** The words of the user and bot texts of a history. *)
Definition history_words (history : list turn) : nat :=
  list_sum (map (fun t => words (user t) + words (bot t)) history).

(** The event yielded for the accumulated text [answer]. *)
Definition not_finished_event (n_input_tokens : nat) (answer : string) : event :=
  {| ev_status := not_finished; ev_answer := answer;
     ev_tokens := (n_input_tokens, words answer); ev_cost := 0 |}.

(** The closing event for the accumulated text [answer]. *)
Definition finished_event (n_input_tokens : nat) (answer : string) : event :=
  {| ev_status := finished; ev_answer := strip answer;
     ev_tokens := (n_input_tokens, words answer); ev_cost := 0 |}.

(** A backend stream that delivers the chunk texts [chunks] and then
    fails with [e]. *)
Fixpoint stream_failing (chunks : list string) (e : exn) : stream :=
  match chunks with
  | [] => StreamRaise e
  | c :: rest => Next (Ok c) (stream_failing rest e)
  end.

(** No two stored dialogs have the same id. *)
Definition dialog_ids_unique (s : db) : Prop :=
  NoDup (map dlg_id (dialog_collection s)).

(** Every user document holds, under ["_id"], the id it is stored under. *)
Definition user_ids_consistent (s : db) : Prop :=
  forall (u : Z) (doc : gmap string pyval),
    user_collection s !! u = Some doc -> doc !! "_id" = Some (PInt u).

(** From [s] to [s'] the metadata of the stored dialogs is kept, in order,
    and new dialogs come after them. *)
Definition metadata_grows (s s' : db) : Prop :=
  exists extra,
    map project (dialog_collection s')
    = map project (dialog_collection s) ++ extra.

(** User 1 whose ["n_used_tokens"] was overwritten with a string. *)
Definition sample_db_bad_tokens : db :=
  snd (set_user_attribute (PInt 1) "n_used_tokens" (PStr "oops")
         sample_db_user).

(** User 1 whose entry for the model ["m"] has no output counter. *)
Definition sample_db_half_tokens : db :=
  snd (set_user_attribute (PInt 1) "n_used_tokens"
         (PDict [("m", PDict [("n_input_tokens", PInt 7)])]) sample_db_user).

(** A backend whose stream carries no text, and one whose calls fail. *)
Definition silent_backend : backend :=
  {| generate_content := fun _ => Ok {| text := Ok "" |};
     generate_content_stream := fun _ => Ok (stream_of [""; ""]) |}.

Definition failing_backend : backend :=
  {| generate_content := fun _ => Raise (BackendFailure "quota");
     generate_content_stream :=
       fun _ => Ok (Next (Ok "a") (Next (Ok "b") (StreamRaise
                                                    (BackendFailure "reset")))) |}.

(** A mode table whose mode ["bare"] has no ["prompt_start"]. *)
Definition bare_config : config :=
  {| chat_modes := {[ "bare" := {[ "name" := "Bare" ]} ]};
     available_text_models := [] |}.

(** ** Calls on the store *)

(** A call of a method of [Database] with its arguments (and, for the
    methods that read them, the clock and the id drawn). *)
Inductive call : Type :=
| Call_check_if_user_exists (user_id : pyval) (raise_exception : bool)
| Call_add_new_user (cfg : config) (t1 t2 : Z) (user_id chat_id : pyval)
    (username first_name last_name : string)
| Call_start_new_dialog (uuid4 : string) (now : Z) (user_id : pyval)
| Call_get_user_attribute (user_id : pyval) (key : string)
| Call_set_user_attribute (user_id : pyval) (key : string) (value : pyval)
| Call_update_n_used_tokens (user_id : pyval) (model : string)
    (n_input_tokens n_output_tokens : pyval)
| Call_get_dialog_messages (user_id : pyval) (dialog_id : option string)
| Call_set_dialog_messages (user_id : pyval) (dialog_messages : list turn)
    (dialog_id : option string)
| Call_get_user_dialogs (p : plan) (user_id : pyval).

(** Did the call raise? *)
Definition raised {A : Type} (r : result A * db) : bool :=
  match fst r with Ok _ => false | Raise _ => true end.

(** Whether the call raised, and the store it leaves. *)
Definition run_call (c : call) (s : db) : bool * db :=
  match c with
  | Call_check_if_user_exists user_id b =>
      let r := check_if_user_exists user_id b s in (raised r, snd r)
  | Call_add_new_user cfg t1 t2 user_id chat_id username first_name last_name =>
      let r := add_new_user cfg t1 t2 user_id chat_id
                 username first_name last_name s in
      (raised r, snd r)
  | Call_start_new_dialog uuid4 now user_id =>
      let r := start_new_dialog uuid4 now user_id s in (raised r, snd r)
  | Call_get_user_attribute user_id key =>
      let r := get_user_attribute user_id key s in (raised r, snd r)
  | Call_set_user_attribute user_id key value =>
      let r := set_user_attribute user_id key value s in (raised r, snd r)
  | Call_update_n_used_tokens user_id model n_in n_out =>
      let r := update_n_used_tokens user_id model n_in n_out s in
      (raised r, snd r)
  | Call_get_dialog_messages user_id dialog_id =>
      let r := get_dialog_messages user_id dialog_id s in (raised r, snd r)
  | Call_set_dialog_messages user_id msgs dialog_id =>
      let r := set_dialog_messages user_id msgs dialog_id s in (raised r, snd r)
  | Call_get_user_dialogs p user_id =>
      let r := get_user_dialogs p user_id s in (raised r, snd r)
  end.

(** The store after a sequence of calls, each on the store the one before
    left. *)
Definition run_calls (calls : list call) (s : db) : db :=
  fold_left (fun s c => snd (run_call c s)) calls s.

(** The stores the methods can build from the empty store. *)
Definition reachable (s : db) : Prop :=
  exists calls, s = run_calls calls empty_db.

(** What one call can do to the store: nothing; store a new user document
    that holds its id, with values the driver could encode; set one field
    other than ["_id"] of a stored user, to a value the driver could encode
    if it could encode the document; replace the messages of the first
    dialog that a filter matches; or append a dialog with a fresh id,
    owned by a stored user, and set one field of that user. *)
Definition effect (s s' : db) : Prop :=
  s' = s
  \/ (exists u doc,
         user_collection s !! u = None
         /\ doc !! "_id" = Some (PInt u)
         /\ doc_encodable doc
         /\ s' = {| user_collection := <[u := doc]> (user_collection s);
                    dialog_collection := dialog_collection s |})
  \/ (exists u doc key v,
         user_collection s !! u = Some doc
         /\ key <> "_id"
         /\ (doc_encodable doc -> bson_encodable v = true)
         /\ s' = {| user_collection :=
                      <[u := <[key := v]> doc]> (user_collection s);
                    dialog_collection := dialog_collection s |})
  \/ (exists p msgs,
         s' = {| user_collection := user_collection s;
                 dialog_collection :=
                   update_first p (set_messages msgs) (dialog_collection s) |})
  \/ (exists u doc key v dlg,
         user_collection s !! u = Some doc
         /\ key <> "_id"
         /\ (doc_encodable doc -> bson_encodable v = true)
         /\ dlg_user_id dlg = u
         /\ existsb (fun d' => String.eqb (dlg_id d') (dlg_id dlg))
                    (dialog_collection s) = false
         /\ s' = {| user_collection :=
                      <[u := <[key := v]> doc]> (user_collection s);
                    dialog_collection := dialog_collection s ++ [dlg] |}).

(** The owner of every stored dialog is a stored user. *)
Definition dialog_owners_exist (s : db) : Prop :=
  forall dlg, In dlg (dialog_collection s) ->
              is_Some (user_collection s !! dlg_user_id dlg).

(** * Properties *)

(** ** Text lemmas *)

Lemma fields_not_nil (s : string) : fields s <> [].
Proof. induction s as [|c s IH]; simpl; [easy|]. destruct (is_space c); [easy|]. destruct (fields s); easy. Qed.

Lemma fields_app_space (a b : string) (c : ascii) :
  is_space c = true ->
  fields (a +:+ String c b) = fields a ++ fields b.
Proof.
  intros Hc. induction a as [|x a IH]; simpl.
  - now rewrite Hc.
  - rewrite IH. destruct (is_space x); [reflexivity|].
    pose proof (fields_not_nil a) as Hne.
    destruct (fields a); [contradiction|reflexivity].
Qed.

Lemma split_app_space (a b : string) (c : ascii) :
  is_space c = true ->
  split (a +:+ String c b) = split a ++ split b.
Proof.
  intros Hc. unfold split. rewrite (fields_app_space _ _ _ Hc).
  apply List.filter_app.
Qed.

Lemma append_empty_r (s : string) : s +:+ "" = s.
Proof.
  induction s as [|c s IH]; [reflexivity|].
  change (String c (s +:+ "") = String c s). now f_equal.
Qed.

Lemma length_append (a b : string) :
  String.length (a +:+ b) = String.length a + String.length b.
Proof.
  induction a as [|x a IH]; [reflexivity|].
  change (S (String.length (a +:+ b)) = S (String.length a + String.length b)).
  now f_equal.
Qed.

Lemma append_assoc (a b c : string) : (a +:+ b) +:+ c = a +:+ (b +:+ c).
Proof.
  induction a as [|x a IH]; [reflexivity|].
  change (String x ((a +:+ b) +:+ c) = String x (a +:+ (b +:+ c))).
  now f_equal.
Qed.

Lemma split_all_space (t : string) : all_space t = true -> split t = [].
Proof.
  induction t as [|c t IH]; simpl; intros H; [reflexivity|].
  apply andb_prop in H as [Hc Ht]. unfold split in *. simpl.
  rewrite Hc. simpl. auto.
Qed.

Lemma split_space_suffix (a t : string) :
  all_space t = true -> split (a +:+ t) = split a.
Proof.
  destruct t as [|c t]; simpl; intros H.
  - now rewrite append_empty_r.
  - apply andb_prop in H as [Hc Ht].
    rewrite (split_app_space _ _ _ Hc), (split_all_space _ Ht).
    apply app_nil_r.
Qed.

Lemma split_lstrip (s : string) : split (lstrip s) = split s.
Proof.
  induction s as [|c s IH]; simpl; [reflexivity|].
  destruct (is_space c) eqn:Hc; [|reflexivity].
  rewrite IH. unfold split. simpl. now rewrite Hc.
Qed.

Lemma rstrip_suffix (s : string) :
  exists t, all_space t = true /\ s = rstrip s +:+ t.
Proof.
  induction s as [|c s (t & Ht & Hs)].
  - exists "". split; reflexivity.
  - cbn [rstrip]. destruct (rstrip s) as [|x r] eqn:Hr.
    + change ("" +:+ t) with t in Hs. subst s. destruct (is_space c) eqn:Hc.
      * exists (String c t). cbn [all_space]. rewrite Hc, Ht.
        split; reflexivity.
      * exists t. split; [assumption|reflexivity].
    + exists t. split; [assumption|].
      change (String c s = String c (String x r +:+ t)). now f_equal.
Qed.

Lemma split_rstrip (s : string) : split (rstrip s) = split s.
Proof.
  destruct (rstrip_suffix s) as (t & Ht & Hs).
  rewrite Hs at 2. symmetry. now apply split_space_suffix.
Qed.

(** Trimming does not change the words of a text. *)
Lemma split_strip (s : string) : split (strip s) = split s.
Proof. unfold strip. now rewrite split_rstrip, split_lstrip. Qed.

(** The words of a space-joined list are the words of its items. *)
Lemma split_join_space (l : list string) :
  split (join " " l) = concat (map split l).
Proof.
  induction l as [|x l IH]; [reflexivity|].
  destruct l as [|y l].
  - simpl. now rewrite app_nil_r.
  - change (join " " (x :: y :: l)) with (x +:+ String " " (join " " (y :: l))).
    rewrite split_app_space by reflexivity. now rewrite IH.
Qed.

Lemma length_split_join_space (l : list string) :
  length (split (join " " l)) = total_words l.
Proof.
  rewrite split_join_space. unfold total_words.
  induction l as [|x l IH]; simpl; [reflexivity|].
  now rewrite length_app, IH.
Qed.

(** ** Prompt construction *)

Lemma fold_append_turn (history : list turn) (acc : list entry) :
  fold_left append_turn history acc = acc ++ turn_entries "model" history.
Proof.
  revert acc. induction history as [|t rest IH]; intros acc; simpl.
  - now rewrite app_nil_r.
  - rewrite IH. unfold append_turn. now rewrite <- !app_assoc.
Qed.

(** C1, as the code has it.  For a chat mode of the mode table whose system
    prompt is [P], any history and any new message, the prompt is the
    system entry with [P], then for each prior turn in order a user entry
    and an entry with the bot text, then a user entry with the new
    message; the role name of the bot entries is ["model"]. *)
Theorem generate_prompt_messages_sequence
    (cfg : config) (chat_mode : string) (mode : gmap string string)
    (P : string) (history : list turn) (m : string) :
  chat_modes cfg !! chat_mode = Some mode ->
  mode !! "prompt_start" = Some P ->
  _generate_prompt_messages cfg m history chat_mode
  = Ok (prompt_sequence "model" P history m).
Proof.
  intros Hmode HP. unfold _generate_prompt_messages.
  rewrite Hmode, HP. now rewrite fold_append_turn.
Qed.

Lemma generate_prompt_messages_sequence_witness :
  _generate_prompt_messages sample_config "m3" sample_history "assistant"
  = Ok (prompt_sequence "model" "P" sample_history "m3").
Proof.
  apply (generate_prompt_messages_sequence sample_config "assistant"
           {[ "prompt_start" := "P" ]}); reflexivity.
Defined.

(** C1, as the specification words it (bot entries under the role name
    ["assistant"]), fails already on the specification's own example. *)
Lemma generate_prompt_messages_not_assistant :
  _generate_prompt_messages sample_config "m3" sample_history "assistant"
  <> Ok (prompt_sequence "assistant" "P" sample_history "m3").
Proof. vm_compute. discriminate. Qed.

(** ** Unsupported chat modes *)

(** C8.  A chat mode that is not in the mode table makes both completion
    methods raise the "not supported" [ValueError], and no prompt reaches
    the backend. *)
Theorem unsupported_mode_fails_before_backend
    (cfg : config) (be : backend) (m : string) (history : list turn)
    (chat_mode : string) :
  chat_modes cfg !! chat_mode = None ->
  send_message cfg be m history chat_mode
  = {| outcome := Raise (ValueError "Chat mode {chat_mode} is not supported"
                                    [PStr chat_mode]);
       backend_calls := [] |}
  /\ send_message_stream cfg be m history chat_mode
     = {| outcome := ([], Some (ValueError
                                  "Chat mode {chat_mode} is not supported"
                                  [PStr chat_mode]));
          backend_calls := [] |}.
Proof.
  intros Hnone. unfold send_message, send_message_stream.
  rewrite Hnone. split; reflexivity.
Qed.

Lemma unsupported_mode_fails_before_backend_witness :
  backend_calls
    (send_message sample_config sample_backend "m" [] "nonexistent_mode") = []
  /\ backend_calls
       (send_message_stream sample_config sample_backend "m" []
          "nonexistent_mode") = [].
Proof.
  destruct (unsupported_mode_fails_before_backend sample_config sample_backend
              "m" [] "nonexistent_mode") as [H1 H2]; [reflexivity|].
  rewrite H1, H2. split; reflexivity.
Defined.

(** ** The streaming loop *)

Lemma count_input_tokens_total (messages : list entry) :
  count_input_tokens messages = total_words (map content messages).
Proof. apply length_split_join_space. Qed.

Lemma join_empty_cons (x : string) (l : list string) :
  join "" (x :: l) = x +:+ join "" l.
Proof.
  destruct l as [|y l]; [|reflexivity].
  simpl. now rewrite append_empty_r.
Qed.

Lemma join_filter_nonempty (l : list string) :
  join "" (List.filter nonempty l) = join "" l.
Proof.
  induction l as [|x l IH]; [reflexivity|].
  rewrite join_empty_cons. destruct x as [|c x].
  - exact IH.
  - cbn [List.filter nonempty]. rewrite join_empty_cons. now rewrite IH.
Qed.

Lemma last_cons_default {A : Type} (l : list A) :
  forall a d : A, List.last (a :: l) d = List.last l a.
Proof.
  induction l as [|b l IH]; intros a d; [reflexivity|].
  change (List.last (b :: l) d = List.last (b :: l) a).
  now rewrite !IH.
Qed.

(** The last accumulated text is the whole concatenation. *)
Lemma last_prefixes (l : list string) :
  forall acc : string, List.last (prefixes acc l) acc = acc +:+ join "" l.
Proof.
  induction l as [|x l IH]; intros acc.
  - simpl. now rewrite append_empty_r.
  - cbn [prefixes]. rewrite last_cons_default, IH, join_empty_cons.
    apply append_assoc.
Qed.

Lemma stream_loop_counts (resp : stream) :
  forall (n_in : nat) (answer : string) (n_out : option nat),
    (forall n, n_out = Some n -> n = length (split answer)) ->
    Forall (counts_words n_in) (fst (stream_loop n_in answer n_out resp)).
Proof.
  induction resp as [|e|[c|e] rest IH]; intros n_in answer n_out Hn; simpl.
  - destruct n_out as [n|]; simpl; [|constructor].
    constructor; [|constructor]. split; simpl; [|reflexivity].
    unfold _postprocess_answer. rewrite split_strip.
    now rewrite (Hn n eq_refl).
  - constructor.
  - destruct (nonempty c).
    + specialize (IH n_in (answer +:+ c)
                     (Some (length (split (answer +:+ c))))).
      destruct (stream_loop _ _ _ rest) as [evs r]. simpl in *.
      constructor.
      * split; reflexivity.
      * apply IH. now intros n [= <-].
    + now apply IH.
  - constructor.
Qed.

(** A run of the loop that ends without an exception: the backend stream
    was a finite list of chunks, every chunk with text gave one
    [not_finished] event carrying the text accumulated so far and its
    number of words, and one [finished] event closes the run, carrying the
    trimmed accumulated text and the number of its words. *)
Lemma stream_loop_normal (resp : stream) :
  forall (n_in : nat) (acc : string) (n_out : option nat) (events : list event),
    (forall n, n_out = Some n -> n = words acc) ->
    stream_loop n_in acc n_out resp = (events, None) ->
    exists chunks,
      resp = stream_of chunks
      /\ events
         = map (not_finished_event n_in)
               (prefixes acc (List.filter nonempty chunks))
           ++ [finished_event n_in (acc +:+ join "" chunks)].
Proof.
  induction resp as [|e|[c|e] rest IH]; intros n_in acc n_out events Hn Hrun;
    simpl in Hrun; try discriminate.
  - destruct n_out as [n|]; [|discriminate].
    injection Hrun as <-. exists []. split; [reflexivity|].
    simpl. rewrite append_empty_r, (Hn n eq_refl). reflexivity.
  - destruct (nonempty c) eqn:Hc.
    + destruct (stream_loop n_in (acc +:+ c) _ rest) as [evs r] eqn:Hrest.
      injection Hrun as <- ->.
      assert (Hn' : forall n, Some (length (split (acc +:+ c))) = Some n ->
                          n = words (acc +:+ c)) by now intros n [= <-].
      destruct (IH _ _ _ _ Hn' Hrest) as (chunks & -> & ->).
      exists (c :: chunks). split; [reflexivity|].
      cbn [List.filter]. rewrite Hc. cbn [prefixes map].
      rewrite join_empty_cons, append_assoc. reflexivity.
    + destruct (IH _ _ _ _ Hn Hrun) as (chunks & -> & ->).
      destruct c; [|discriminate].
      exists ("" :: chunks). split; [reflexivity|].
      now rewrite join_empty_cons.
Qed.

(** The loop on a backend stream that delivers [chunks] and ends, when a
    chunk with text has arrived already or is among [chunks]. *)
Lemma stream_loop_of_chunks (chunks : list string) :
  forall (n_in : nat) (acc : string) (n_out : option nat),
    (forall n, n_out = Some n -> n = words acc) ->
    (n_out = None -> existsb nonempty chunks = true) ->
    stream_loop n_in acc n_out (stream_of chunks)
    = (map (not_finished_event n_in)
           (prefixes acc (List.filter nonempty chunks))
       ++ [finished_event n_in (acc +:+ join "" chunks)], None).
Proof.
  induction chunks as [|c chunks IH]; intros n_in acc n_out Hn Hsome.
  - destruct n_out as [n|]; [|now discriminate Hsome].
    simpl. rewrite append_empty_r, (Hn n eq_refl). reflexivity.
  - cbn [stream_of stream_loop List.filter]. destruct (nonempty c) eqn:Hc.
    + rewrite IH; [|now intros n [= <-]|discriminate].
      cbn [prefixes map]. rewrite join_empty_cons, append_assoc. reflexivity.
    + destruct c; [|discriminate].
      rewrite IH; [now rewrite join_empty_cons|assumption|].
      intros Hnone. apply Hsome in Hnone. exact Hnone.
Qed.

(** The prompt that [send_message] and [send_message_stream] build is
    there only for a mode of the table. *)
Lemma generate_prompt_messages_mode (cfg : config) (m : string)
    (history : list turn) (chat_mode : string) (messages : list entry) :
  _generate_prompt_messages cfg m history chat_mode = Ok messages ->
  is_Some (chat_modes cfg !! chat_mode).
Proof.
  unfold _generate_prompt_messages.
  destruct (chat_modes cfg !! chat_mode); [eauto|discriminate].
Qed.

(** ** Token accounting *)

(** C7.  When [send_message] returns, the input count it reports is the
    number of whitespace-delimited words of the prompt entries' contents
    (joined by a space, which is the sum of the words of each entry), the
    output count is the number of words of the answer, and the cost is
    zero.  When [send_message_stream] ends normally, the backend delivered
    a finite list of chunks, the events end with one [finished] event that
    reports the same input count, the number of words of the concatenated
    chunk texts as output count and cost zero, and every event reports the
    input count, the number of words of the text it carries and cost zero.
    Both calls do return with these counts: [send_message] whenever the
    backend answers with a text, [send_message_stream] whenever the
    backend's stream ends after at least one chunk with text. *)
Theorem token_counts_are_word_counts
    (cfg : config) (be : backend) (m : string) (history : list turn)
    (chat_mode : string) :
  (forall answer n_in n_out cost,
      outcome (send_message cfg be m history chat_mode)
      = Ok (answer, (n_in, n_out), cost) ->
      exists messages,
        _generate_prompt_messages cfg m history chat_mode = Ok messages
        /\ n_in = length (split (join " " (map content messages)))
        /\ n_in = total_words (map content messages)
        /\ n_out = length (split answer)
        /\ cost = 0)
  /\ (forall events,
         outcome (send_message_stream cfg be m history chat_mode)
         = (events, None) ->
         exists messages chunks nfs fin,
           _generate_prompt_messages cfg m history chat_mode = Ok messages
           /\ generate_content_stream be messages = Ok (stream_of chunks)
           /\ events = nfs ++ [fin]
           /\ ev_status fin = finished
           /\ ev_tokens fin
              = (length (split (join " " (map content messages))),
                 length (split (join "" chunks)))
           /\ ev_tokens fin
              = (total_words (map content messages),
                 length (split (ev_answer fin)))
           /\ ev_cost fin = 0
           /\ Forall (counts_words (total_words (map content messages)))
                     events)
  /\ (forall messages raw,
         _generate_prompt_messages cfg m history chat_mode = Ok messages ->
         generate_content be messages = Ok {| text := Ok raw |} ->
         outcome (send_message cfg be m history chat_mode)
         = Ok (strip raw,
               (total_words (map content messages), length (split raw)), 0))
  /\ (forall messages chunks,
         _generate_prompt_messages cfg m history chat_mode = Ok messages ->
         generate_content_stream be messages = Ok (stream_of chunks) ->
         existsb nonempty chunks = true ->
         exists nfs fin,
           outcome (send_message_stream cfg be m history chat_mode)
           = (nfs ++ [fin], None)
           /\ ev_status fin = finished
           /\ ev_tokens fin
              = (total_words (map content messages),
                 length (split (join "" chunks)))
           /\ ev_cost fin = 0).
Proof.
  split; [|split; [|split]].
  - intros answer n_in n_out cost. unfold send_message.
    destruct (chat_modes cfg !! chat_mode); [|discriminate].
    destruct (_generate_prompt_messages cfg m history chat_mode)
      as [messages|e]; [|discriminate].
    simpl. destruct (generate_content be messages) as [r|e]; [|discriminate].
    destruct (text r) as [raw|e]; [|discriminate].
    intros [= <- <- <- <-]. exists messages.
    repeat split; try reflexivity.
    + apply count_input_tokens_total.
    + unfold _postprocess_answer. now rewrite split_strip.
  - intros events. unfold send_message_stream.
    destruct (chat_modes cfg !! chat_mode); [|discriminate].
    destruct (_generate_prompt_messages cfg m history chat_mode)
      as [messages|e]; [|discriminate].
    simpl. destruct (generate_content_stream be messages) as [resp|e] eqn:Hbe;
      [|discriminate].
    intros Hrun.
    pose proof (stream_loop_counts resp (count_input_tokens messages) "" None)
      as Hall.
    rewrite Hrun in Hall.
    assert (Hn : forall n, @None nat = Some n -> n = words "") by discriminate.
    destruct (stream_loop_normal _ _ _ _ _ Hn Hrun) as (chunks & -> & Hev).
    exists messages, chunks,
      (map (not_finished_event (count_input_tokens messages))
           (prefixes "" (List.filter nonempty chunks))),
      (finished_event (count_input_tokens messages) (join "" chunks)).
    split; [reflexivity|]. split; [assumption|]. split; [exact Hev|].
    split; [reflexivity|]. split; [reflexivity|].
    split.
    { cbn [finished_event ev_tokens ev_answer]. unfold words.
      now rewrite split_strip, count_input_tokens_total. }
    split; [reflexivity|].
    rewrite <- count_input_tokens_total. apply Hall. discriminate.
  - intros messages raw Hgen Hbe. unfold send_message.
    destruct (generate_prompt_messages_mode _ _ _ _ _ Hgen) as [mode ->].
    rewrite Hgen. cbn [outcome]. rewrite Hbe. cbn [text].
    now rewrite count_input_tokens_total.
  - intros messages chunks Hgen Hbe Hsome. unfold send_message_stream.
    destruct (generate_prompt_messages_mode _ _ _ _ _ Hgen) as [mode ->].
    rewrite Hgen. cbn [outcome]. rewrite Hbe.
    rewrite stream_loop_of_chunks; [|discriminate|now intros _].
    eexists _, _. split; [reflexivity|].
    cbn [finished_event ev_status ev_tokens ev_cost]. unfold words.
    now rewrite count_input_tokens_total.
Qed.

Lemma token_counts_are_word_counts_witness :
  (exists messages,
      _generate_prompt_messages sample_config "two words" sample_history
        "assistant" = Ok messages
      /\ 7 = length (split (join " " (map content messages)))
      /\ 7 = total_words (map content messages)
      /\ 2 = length (split "hi there")
      /\ 0 = 0)
  /\ (exists messages chunks nfs fin,
         _generate_prompt_messages sample_config "two words" sample_history
           "assistant" = Ok messages
         /\ generate_content_stream sample_backend messages
            = Ok (stream_of chunks)
         /\ [ not_finished_event 7 "a"; not_finished_event 7 "ab ";
              finished_event 7 "ab " ] = nfs ++ [fin]
         /\ ev_status fin = finished
         /\ ev_tokens fin
            = (length (split (join " " (map content messages))),
               length (split (join "" chunks)))
         /\ ev_tokens fin
            = (total_words (map content messages),
               length (split (ev_answer fin)))
         /\ ev_cost fin = 0
         /\ Forall (counts_words (total_words (map content messages)))
              [ not_finished_event 7 "a"; not_finished_event 7 "ab ";
                finished_event 7 "ab " ])
  /\ outcome (send_message sample_config sample_backend "two words"
                sample_history "assistant")
     = Ok (strip " hi there ",
           (total_words
              (map content (prompt_sequence "model" "P" sample_history
                              "two words")),
            length (split " hi there ")), 0)
  /\ (exists nfs fin,
         outcome (send_message_stream sample_config sample_backend "two words"
                    sample_history "assistant")
         = (nfs ++ [fin], None)
         /\ ev_status fin = finished
         /\ ev_tokens fin
            = (total_words
                 (map content (prompt_sequence "model" "P" sample_history
                                 "two words")),
               length (split (join "" ["a"; ""; "b "])))
         /\ ev_cost fin = 0).
Proof.
  destruct (token_counts_are_word_counts sample_config sample_backend
              "two words" sample_history "assistant") as (H1 & H2 & H3 & H4).
  split; [|split; [|split]].
  - apply (H1 "hi there" 7 2 0). reflexivity.
  - apply H2. reflexivity.
  - apply H3; reflexivity.
  - apply H4; reflexivity.
Defined.

(** ** Streaming *)

(** C4, as the code has it.  In a streaming call that ends normally the
    backend delivered a finite list of chunks; each chunk with text gives
    one [not_finished] event that carries the whole text accumulated so far
    (not the increment); the [finished] event comes exactly once, last, and
    its answer is the trimmed text of the last [not_finished] event, which
    is the trimmed concatenation of the backend's chunk texts.  A call whose
    backend stream ends after at least one chunk with text does end
    normally, with these events. *)
Theorem stream_finishes_with_trimmed_accumulation
    (cfg : config) (be : backend) (m : string) (history : list turn)
    (chat_mode : string) :
  (forall events,
      outcome (send_message_stream cfg be m history chat_mode)
      = (events, None) ->
      exists messages chunks nfs fin,
        _generate_prompt_messages cfg m history chat_mode = Ok messages
        /\ generate_content_stream be messages = Ok (stream_of chunks)
        /\ events = nfs ++ [fin]
        /\ Forall (fun ev => ev_status ev = not_finished) nfs
        /\ ev_status fin = finished
        /\ map ev_answer nfs = prefixes "" (List.filter nonempty chunks)
        /\ ev_answer fin = strip (List.last (map ev_answer nfs) "")
        /\ ev_answer fin = strip (join "" chunks))
  /\ (forall messages chunks,
         _generate_prompt_messages cfg m history chat_mode = Ok messages ->
         generate_content_stream be messages = Ok (stream_of chunks) ->
         existsb nonempty chunks = true ->
         exists nfs fin,
           outcome (send_message_stream cfg be m history chat_mode)
           = (nfs ++ [fin], None)
           /\ Forall (fun ev => ev_status ev = not_finished) nfs
           /\ ev_status fin = finished
           /\ map ev_answer nfs = prefixes "" (List.filter nonempty chunks)
           /\ ev_answer fin = strip (join "" chunks)).
Proof.
  assert (Hnfs : forall n l,
             Forall (fun ev => ev_status ev = not_finished)
                    (map (not_finished_event n) l)
             /\ map ev_answer (map (not_finished_event n) l) = l).
  { intros n l. induction l as [|x l [IH1 IH2]]; simpl.
    - split; [constructor|reflexivity].
    - split; [now constructor|now rewrite IH2]. }
  split.
  - intros events. unfold send_message_stream.
    destruct (chat_modes cfg !! chat_mode); [|discriminate].
    destruct (_generate_prompt_messages cfg m history chat_mode)
      as [messages|e]; [|discriminate].
    simpl. destruct (generate_content_stream be messages) as [resp|e] eqn:Hbe;
      [|discriminate].
    intros Hrun.
    assert (Hn : forall n, @None nat = Some n -> n = words "") by discriminate.
    destruct (stream_loop_normal _ _ _ _ _ Hn Hrun) as (chunks & -> & Hev).
    destruct (Hnfs (count_input_tokens messages)
                (prefixes "" (List.filter nonempty chunks))) as [Hst Htexts].
    exists messages, chunks,
      (map (not_finished_event (count_input_tokens messages))
           (prefixes "" (List.filter nonempty chunks))),
      (finished_event (count_input_tokens messages) (join "" chunks)).
    split; [reflexivity|]. split; [assumption|]. split; [exact Hev|].
    split; [assumption|]. split; [reflexivity|]. split; [assumption|].
    split; [|reflexivity].
    rewrite Htexts, last_prefixes, join_filter_nonempty. reflexivity.
  - intros messages chunks Hgen Hbe Hsome. unfold send_message_stream.
    destruct (generate_prompt_messages_mode _ _ _ _ _ Hgen) as [mode ->].
    rewrite Hgen. cbn [outcome]. rewrite Hbe.
    rewrite stream_loop_of_chunks; [|discriminate|now intros _].
    destruct (Hnfs (count_input_tokens messages)
                (prefixes "" (List.filter nonempty chunks))) as [Hst Htexts].
    eexists _, _. split; [reflexivity|].
    split; [assumption|]. split; [reflexivity|]. split; [assumption|].
    reflexivity.
Qed.

Lemma stream_finishes_with_trimmed_accumulation_witness :
  (exists messages chunks nfs fin,
      _generate_prompt_messages sample_config "m" [] "assistant" = Ok messages
      /\ generate_content_stream sample_backend messages = Ok (stream_of chunks)
      /\ [ not_finished_event 2 "a"; not_finished_event 2 "ab ";
           finished_event 2 "ab " ] = nfs ++ [fin]
      /\ Forall (fun ev => ev_status ev = not_finished) nfs
      /\ ev_status fin = finished
      /\ map ev_answer nfs = prefixes "" (List.filter nonempty chunks)
      /\ ev_answer fin = strip (List.last (map ev_answer nfs) "")
      /\ ev_answer fin = strip (join "" chunks))
  /\ (exists nfs fin,
         outcome (send_message_stream sample_config sample_backend "m" []
                    "assistant")
         = (nfs ++ [fin], None)
         /\ Forall (fun ev => ev_status ev = not_finished) nfs
         /\ ev_status fin = finished
         /\ map ev_answer nfs
            = prefixes "" (List.filter nonempty ["a"; ""; "b "])
         /\ ev_answer fin = strip (join "" ["a"; ""; "b "])).
Proof.
  destruct (stream_finishes_with_trimmed_accumulation sample_config
              sample_backend "m" [] "assistant") as [H1 H2].
  split.
  - apply H1. reflexivity.
  - apply (H2 (prompt_sequence "model" "P" [] "m")); reflexivity.
Defined.

(** C4, as the specification words it, fails: with the chunks ["a"], [""],
    ["b "] the run ends normally, the [not_finished] events carry ["a"] and
    ["ab "], their concatenation trims to ["aab"], and the [finished] event
    carries ["ab"]. *)
Lemma stream_concatenated_events_differ :
  let run := outcome (send_message_stream sample_config sample_backend "m" []
                        "assistant") in
  snd run = None
  /\ texts_with not_finished (fst run) = ["a"; "ab "]
  /\ texts_with finished (fst run) = ["ab"]
  /\ [strip (join "" (texts_with not_finished (fst run)))]
     <> texts_with finished (fst run).
Proof. vm_compute. repeat split; discriminate. Qed.

(** ** The store: how the methods run *)

Ltac run := unfold mbind, M_bind, mret, M_ret, raise, get_db; simpl.

(** An equation between closed terms, by evaluation of both sides. *)
Ltac vm_refl :=
  lazymatch goal with |- ?a = _ => vm_cast_no_check (@eq_refl _ a) end.

Lemma check_if_user_exists_state (user_id : pyval) (b : bool) (s : db) :
  snd (check_if_user_exists user_id b s) = s.
Proof.
  unfold check_if_user_exists.
  destruct user_id; simpl; try reflexivity. run.
  destruct (user_collection s !! z); [reflexivity|]. now destruct b.
Qed.

Lemma check_if_user_exists_present (u : Z) (b : bool) (s : db)
    (doc : gmap string pyval) :
  user_collection s !! u = Some doc ->
  check_if_user_exists (PInt u) b s = (Ok true, s).
Proof. intros H. unfold check_if_user_exists. run. now rewrite H. Qed.

Lemma check_if_user_exists_ok (user_id : pyval) (b r : bool) (s s' : db) :
  check_if_user_exists user_id b s = (Ok r, s') ->
  s' = s /\ exists u, user_id = PInt u
                      /\ (r = true -> is_Some (user_collection s !! u))
                      /\ (b = true -> r = true).
Proof.
  unfold check_if_user_exists.
  destruct user_id as [|u| | | |]; simpl; try discriminate. run.
  destruct (user_collection s !! u) eqn:Hu.
  - intros [= <- <-]. split; [reflexivity|]. exists u. eauto.
  - destruct b; [discriminate|]. intros [= <- <-].
    split; [reflexivity|]. exists u. repeat split; discriminate.
Qed.

Lemma get_user_attribute_present (u : Z) (key : string) (s : db)
    (doc : gmap string pyval) :
  user_collection s !! u = Some doc ->
  get_user_attribute (PInt u) key s = (Ok (default PNone (doc !! key)), s).
Proof.
  intros H. unfold get_user_attribute. run.
  unfold check_if_user_exists. run. now repeat (rewrite H; simpl).
Qed.

Lemma get_user_attribute_state (user_id : pyval) (key : string) (s : db) :
  snd (get_user_attribute user_id key s) = s.
Proof.
  unfold get_user_attribute. run.
  pose proof (check_if_user_exists_state user_id true s) as Hc.
  destruct (check_if_user_exists user_id true s) as [[r|e] s']; simpl in Hc;
    subst s'; [|reflexivity].
  now destruct (users_find_one user_id s).
Qed.

(** *** What the driver can encode *)

Lemma bson_encodable_dict_get (k : string) (v : pyval)
    (d : list (string * pyval)) :
  bson_encodable (PDict d) = true -> dict_get k d = Some v ->
  bson_encodable v = true.
Proof.
  induction d as [|[k0 w] d IH]; simpl; [discriminate|].
  intros [Hw Hd]%andb_prop. destruct (String.eqb k0 k).
  - now intros [= <-].
  - now apply IH.
Qed.

Lemma bson_encodable_dict_set (k : string) (v : pyval)
    (d : list (string * pyval)) :
  bson_encodable (PDict d) = true -> bson_encodable v = true ->
  bson_encodable (PDict (dict_set k v d)) = true.
Proof.
  intros Hd Hv. induction d as [|[k0 w] d IH]; simpl.
  - now rewrite Hv.
  - simpl in Hd. apply andb_prop in Hd as [Hw Hd].
    destruct (String.eqb k0 k); simpl.
    + now rewrite Hv.
    + rewrite Hw. now apply IH.
Qed.

Lemma bson_encodable_dict_set_inv (k : string) (v : pyval)
    (d : list (string * pyval)) :
  bson_encodable (PDict (dict_set k v d)) = true -> bson_encodable v = true.
Proof.
  induction d as [|[k0 w] d IH]; simpl.
  - now intros [Hv _]%andb_prop.
  - destruct (String.eqb k0 k); simpl.
    + now intros [Hv _]%andb_prop.
    + intros [_ Hd]%andb_prop. now apply IH.
Qed.

Lemma list_to_map_encodable (l : list (string * pyval)) :
  bson_encodable (PDict l) = true -> doc_encodable (list_to_map l).
Proof.
  induction l as [|[k v] l IH].
  - intros _ k v H. now rewrite list_to_map_nil, lookup_empty in H.
  - intros H. cbn [bson_encodable] in H. apply andb_prop in H as [Hv Hl].
    intros k' v'. rewrite list_to_map_cons.
    destruct (decide (k = k')) as [->|Hne].
    + rewrite lookup_insert_eq. now intros [= <-].
    + rewrite lookup_insert_ne by assumption. now apply IH.
Qed.

Lemma nest_encodable (path : list string) (v : pyval) :
  bson_encodable v = true -> bson_encodable (nest path v) = true.
Proof.
  intros Hv. induction path as [|c rest IH]; [assumption|].
  cbn [nest bson_encodable]. now rewrite IH.
Qed.

Lemma set_below_encodable (path : list string) :
  forall (v : pyval) (cur : option pyval) (x : pyval),
    set_below path v cur = Ok x ->
    bson_encodable v = true ->
    (forall w, cur = Some w -> bson_encodable w = true) ->
    bson_encodable x = true.
Proof.
  induction path as [|c rest IH]; intros v cur x; cbn [set_below].
  - now intros [= <-].
  - destruct cur as [[| | | | |d]|]; try discriminate.
    + destruct (set_below rest v (dict_get c d)) as [y|] eqn:Hy;
        [|discriminate].
      intros [= <-] Hv Hcur. apply bson_encodable_dict_set.
      * now apply Hcur.
      * apply (IH _ _ _ Hy Hv). intros w Hw.
        exact (bson_encodable_dict_get _ _ _ (Hcur _ eq_refl) Hw).
    + intros [= <-] Hv _. now apply (nest_encodable (c :: rest)).
Qed.

(** The dictionary of a new user can be encoded when its two ids can. *)
Lemma user_dict_encodable (u c : Z) (a b d m : string) (t1 t2 : Z) :
  bson_encodable
    (PDict [ ("_id", PInt u); ("chat_id", PInt c); ("username", PStr a);
             ("first_name", PStr b); ("last_name", PStr d);
             ("last_interaction", PTime t1); ("first_seen", PTime t2);
             ("current_dialog_id", PNone);
             ("current_chat_mode", PStr "assistant");
             ("current_model", PStr m); ("n_used_tokens", PDict []);
             ("n_generated_images", PInt 0);
             ("n_transcribed_seconds", PFloat (QArith_base.inject_Z 0)) ])
  = int64 u && int64 c.
Proof.
  cbn [bson_encodable]. change (int64 0) with true. cbn [andb].
  now rewrite andb_true_r.
Qed.

(** *** Updates of a user document *)

(** A [$set] of a top-level field other than ["_id"], with a value the
    driver can encode, on a stored user. *)
Lemma users_update_one_field (u : Z) (key : string) (v : pyval) (s : db)
    (doc : gmap string pyval) :
  user_collection s !! u = Some doc ->
  path_of key = Some [key] ->
  String.eqb key "_id" = false ->
  bson_encodable v = true ->
  users_update_one (PInt u) key v s
  = (Ok tt, {| user_collection := <[u := <[key := v]> doc]> (user_collection s);
               dialog_collection := dialog_collection s |}).
Proof.
  intros H Hp Hk Hv. unfold users_update_one.
  now rewrite Hv, Hp, H, Hk.
Qed.

(** A value the driver cannot encode is never sent. *)
Lemma users_update_one_too_big (id : pyval) (key : string) (v : pyval)
    (s : db) :
  bson_encodable v = false ->
  users_update_one id key v s = (Raise too_big, s).
Proof. intros Hv. unfold users_update_one. now rewrite Hv. Qed.

(** What [update_one] can do: nothing, or set the first field of the path,
    which is not ["_id"], in the document of the user. *)
Lemma users_update_one_cases (id : pyval) (key : string) (v : pyval) (s : db) :
  snd (users_update_one id key v s) = s
  \/ exists (u : Z) (doc : gmap string pyval) (field : string)
            (rest : list string) (x : pyval),
       id = PInt u
       /\ user_collection s !! u = Some doc
       /\ split_dots key = field :: rest
       /\ field <> "_id"
       /\ (doc_encodable doc -> bson_encodable x = true)
       /\ users_update_one id key v s
          = (Ok tt, {| user_collection :=
                         <[u := <[field := x]> doc]> (user_collection s);
                       dialog_collection := dialog_collection s |}).
Proof.
  unfold users_update_one.
  destruct (bson_encodable v) eqn:Hv; [|now left]. cbn [negb].
  unfold path_of.
  destruct (forallb valid_component (split_dots key)); [|now left].
  destruct (split_dots key) as [|field rest] eqn:Hsplit; [now left|].
  destruct id as [|u| | | |]; try now left.
  destruct (user_collection s !! u) as [doc|] eqn:Hu; [|now left].
  destruct (String.eqb field "_id") eqn:Hf.
  { left. destruct rest; [|reflexivity].
    destruct v as [|z| | | |]; try reflexivity. now destruct (z =? u)%Z. }
  destruct (set_below rest v (doc !! field)) as [x|e] eqn:Hx; [|now left].
  right. exists u, doc, field, rest, x.
  split; [reflexivity|]. split; [assumption|]. split; [reflexivity|].
  split; [intros ->; discriminate|]. split; [|reflexivity].
  intros Hdoc. apply (set_below_encodable _ _ _ _ Hx Hv).
  intros w Hw. exact (Hdoc _ _ Hw).
Qed.

Lemma set_user_attribute_present (u : Z) (key : string) (v : pyval) (s : db)
    (doc : gmap string pyval) :
  user_collection s !! u = Some doc ->
  path_of key = Some [key] ->
  String.eqb key "_id" = false ->
  bson_encodable v = true ->
  set_user_attribute (PInt u) key v s
  = (Ok tt, {| user_collection := <[u := <[key := v]> doc]> (user_collection s);
               dialog_collection := dialog_collection s |}).
Proof.
  intros H Hp Hk Hv. unfold set_user_attribute. run.
  unfold check_if_user_exists. run. rewrite H. simpl.
  now apply users_update_one_field.
Qed.

Lemma set_user_attribute_too_big (u : Z) (key : string) (v : pyval) (s : db)
    (doc : gmap string pyval) :
  user_collection s !! u = Some doc ->
  bson_encodable v = false ->
  set_user_attribute (PInt u) key v s = (Raise too_big, s).
Proof.
  intros H Hv. unfold set_user_attribute. run.
  unfold check_if_user_exists. run. rewrite H. simpl.
  now apply users_update_one_too_big.
Qed.

(** ** Registration *)

(** C5.  Registering a user that is already stored returns normally and
    leaves the whole store as it was, so no stored field is overwritten;
    and registering twice in a row, whatever the second call's chat id and
    names, has the outcome and the store of registering once. *)
Theorem add_new_user_idempotent
    (cfg : config) (t1 t2 u chat_id : Z) (username first_name last_name : string) :
  (forall (s : db) (doc : gmap string pyval),
      user_collection s !! u = Some doc ->
      add_new_user cfg t1 t2 (PInt u) (PInt chat_id)
        username first_name last_name s = (Ok tt, s))
  /\ (forall (s : db) (t1' t2' chat_id' : Z) (username' first_name' last_name' : string),
         (add_new_user cfg t1 t2 (PInt u) (PInt chat_id)
            username first_name last_name
          ≫= fun _ => add_new_user cfg t1' t2' (PInt u) (PInt chat_id')
                        username' first_name' last_name') s
         = add_new_user cfg t1 t2 (PInt u) (PInt chat_id)
             username first_name last_name s).
Proof.
  assert (Hpresent : forall t1 t2 chat_id username first_name last_name s doc,
             user_collection s !! u = Some doc ->
             add_new_user cfg t1 t2 (PInt u) (PInt chat_id)
               username first_name last_name s = (Ok tt, s)).
  { intros ? ? ? ? ? ? s doc H. unfold add_new_user. run.
    unfold check_if_user_exists. run. now rewrite H. }
  split; [apply Hpresent|].
  intros s t1' t2' chat_id' username' first_name' last_name'.
  unfold mbind at 1. unfold M_bind at 1.
  destruct (user_collection s !! u) as [doc|] eqn:Hu.
  - rewrite (Hpresent _ _ _ _ _ _ s doc Hu). now apply Hpresent with doc.
  - unfold add_new_user at 1 3. run. unfold check_if_user_exists. run.
    rewrite Hu. simpl.
    destruct (available_text_models cfg) as [|m0 models]; [reflexivity|].
    unfold users_insert_one.
    destruct (negb (bson_encodable _)); [reflexivity|]. rewrite Hu.
    erewrite Hpresent; [reflexivity|]. simpl. apply lookup_insert_eq.
Qed.

Lemma add_new_user_idempotent_witness :
  add_new_user sample_config 30 31 (PInt 1) (PInt 999) "ann2" "Ann2" "A2"
    sample_db_mode = (Ok tt, sample_db_mode)
  /\ fst (get_user_attribute (PInt 1) "current_chat_mode" sample_db_mode)
     = Ok (PStr "code_assistant").
Proof.
  split.
  - apply (proj1 (add_new_user_idempotent sample_config 30 31 1 999
                    "ann2" "Ann2" "A2") sample_db_mode
             (default ∅ (user_collection sample_db_mode !! 1%Z))).
    vm_refl.
  - vm_refl.
Defined.

(** ** Replacing the messages of a dialog *)

Lemma update_first_no_match (p : dialog -> bool) (f : dialog -> dialog)
    (l : list dialog) :
  List.find p l = None -> update_first p f l = l.
Proof.
  induction l as [|d l IH]; simpl; [reflexivity|].
  destruct (p d); [discriminate|]. intros H. now rewrite IH.
Qed.

(** Whenever [get_dialog_messages] reports that a dialog is not there for
    the user, [set_dialog_messages] with the same arguments returns
    normally and changes nothing. *)
Lemma set_dialog_messages_no_match (u : Z) (d : string) (msgs : list turn)
    (s : db) (doc : gmap string pyval) :
  user_collection s !! u = Some doc ->
  dialogs_find_one (PStr d) (PInt u) s = None ->
  d <> "" ->
  set_dialog_messages (PInt u) msgs (Some d) s = (Ok tt, s)
  /\ get_dialog_messages (PInt u) (Some d) s
     = (Raise (ValueError "Dialog {dialog_id} not found for user {user_id}"
                          [PStr d; PInt u]), s).
Proof.
  intros Hu Hfind Hd.
  assert (Ht : String.eqb d "" = false) by now apply String.eqb_neq.
  unfold set_dialog_messages, get_dialog_messages. run.
  unfold check_if_user_exists. run. rewrite Hu. simpl. rewrite Ht. simpl.
  rewrite Hfind. split; [|reflexivity].
  unfold dialogs_update_one. unfold dialogs_find_one in Hfind.
  rewrite (update_first_no_match _ _ _ Hfind). now destruct s.
Qed.

(** C2 on the code.  For the stored user 1 and a dialog id that is not in
    the store, and for the stored user 2 and the dialog ["d1"] of user 1,
    [set_dialog_messages] returns normally and leaves the store as it was,
    where [get_dialog_messages] raises "not found". *)
Theorem set_dialog_messages_missing_dialog_is_silent :
  set_dialog_messages (PInt 1) [sample_turn] (Some "ghost") sample_db_user
  = (Ok tt, sample_db_user)
  /\ set_dialog_messages (PInt 2) [sample_turn] (Some "d1") sample_db_two_users
     = (Ok tt, sample_db_two_users)
  /\ fst (get_dialog_messages (PInt 1) (Some "ghost") sample_db_user)
     = Raise (ValueError "Dialog {dialog_id} not found for user {user_id}"
                         [PStr "ghost"; PInt 1])
  /\ fst (get_dialog_messages (PInt 2) (Some "d1") sample_db_two_users)
     = Raise (ValueError "Dialog {dialog_id} not found for user {user_id}"
                         [PStr "d1"; PInt 2]).
Proof. repeat split; vm_refl. Qed.

(** ** Listing the dialogs of a user *)

Lemma index_insert_perm (d : dialog) (l : list dialog) :
  d :: l ≡ₚ index_insert d l.
Proof.
  induction l as [|x l IH]; simpl; [reflexivity|].
  destruct (dlg_start_time x <=? dlg_start_time d)%Z; [reflexivity|].
  rewrite <- IH. apply perm_swap.
Qed.

Lemma index_order_perm (l : list dialog) : index_order l ≡ₚ l.
Proof.
  induction l as [|d l IH]; simpl; [reflexivity|].
  rewrite <- index_insert_perm. now rewrite IH.
Qed.



Lemma index_insert_project (d1 d2 : dialog) (l1 : list dialog) :
  forall l2 : list dialog,
    project d1 = project d2 ->
    map project l1 = map project l2 ->
    map project (index_insert d1 l1) = map project (index_insert d2 l2).
Proof.
  induction l1 as [|x1 l1 IH]; intros [|x2 l2] Hd Hl; try discriminate.
  - simpl. now rewrite Hd.
  - cbn [map] in Hl.
    remember (project x1) as m1 eqn:Hm1. remember (project x2) as m2 eqn:Hm2.
    injection Hl as Hx Hl. subst m1 m2. cbn [index_insert].
    pose proof (f_equal meta_start_time Hd) as Htd.
    pose proof (f_equal meta_start_time Hx) as Htx.
    cbn [project meta_start_time] in Htd, Htx. rewrite Htd, Htx.
    destruct (dlg_start_time x2 <=? dlg_start_time d2)%Z; cbn [map].
    + now rewrite Hd, Hx, Hl.
    + rewrite Hx. f_equal. now apply IH.
Qed.

(** The order of an index scan depends on the metadata only. *)
Lemma index_order_project (l1 : list dialog) :
  forall l2 : list dialog,
    map project l1 = map project l2 ->
    map project (index_order l1) = map project (index_order l2).
Proof.
  induction l1 as [|x1 l1 IH]; intros [|x2 l2] Hl; try discriminate.
  - reflexivity.
  - cbn [map] in Hl.
    remember (project x1) as m1 eqn:Hm1. remember (project x2) as m2 eqn:Hm2.
    injection Hl as Hx Hl. subst m1 m2. cbn [index_order fold_right].
    apply index_insert_project; [assumption|]. now apply IH.
Qed.

(** Whatever the plan, the records are those of a scan of the collection,
    in some order. *)
Lemma dialogs_find_perm (p : plan) (user_id : pyval) (s : db) :
  dialogs_find p user_id s ≡ₚ dialogs_find collection_scan user_id s.
Proof.
  destruct p; [reflexivity|].
  unfold dialogs_find. apply Permutation_map, index_order_perm.
Qed.





(** ** Usage counters *)

Lemma dict_get_set_eq (k : string) (v : pyval) (d : list (string * pyval)) :
  dict_get k (dict_set k v d) = Some v.
Proof.
  induction d as [|[k0 w] d IH]; simpl.
  - now rewrite String.eqb_refl.
  - destruct (String.eqb k0 k) eqn:E; simpl; now rewrite E.
Qed.

Lemma dict_get_set_ne (k k' : string) (v : pyval) (d : list (string * pyval)) :
  k' <> k -> dict_get k' (dict_set k v d) = dict_get k' d.
Proof.
  intros Hne. induction d as [|[k0 w] d IH]; simpl.
  - apply String.eqb_neq in Hne. rewrite String.eqb_sym. now rewrite Hne.
  - destruct (String.eqb k0 k) eqn:E; simpl.
    + apply String.eqb_eq in E. subst k0.
      destruct (String.eqb k k') eqn:E'; [|reflexivity].
      apply String.eqb_eq in E'. congruence.
    + now rewrite IH.
Qed.

Lemma dict_set_not_nil (k : string) (v : pyval) (d : list (string * pyval)) :
  dict_set k v d <> [].
Proof. destruct d as [|[k0 w] d]; simpl; [|destruct (String.eqb k0 k)]; discriminate. Qed.

Lemma counters_encodable (inner : pyval) (x y : Z) :
  counters_of inner = Some (x, y) ->
  bson_encodable inner = true ->
  int64 x = true /\ int64 y = true.
Proof.
  destruct inner as [| | | | |i]; try discriminate. cbn [counters_of].
  destruct (dict_get "n_input_tokens" i) as [[|x0| | | |]|] eqn:Hin;
    try discriminate.
  destruct (dict_get "n_output_tokens" i) as [[|y0| | | |]|] eqn:Hout;
    try discriminate.
  intros [= -> ->] Hi. split.
  - exact (bson_encodable_dict_get _ _ _ Hi Hin).
  - exact (bson_encodable_dict_get _ _ _ Hi Hout).
Qed.

Lemma add_tokens_fresh (d : list (string * pyval)) (model : string) (a b : Z) :
  dict_get model d = None ->
  exists inner,
    add_tokens (PDict d) model a b = Ok (PDict (dict_set model inner d))
    /\ counters_of inner = Some (a, b)
    /\ bson_encodable inner = int64 a && int64 b.
Proof.
  intros H. unfold add_tokens. rewrite H. eexists.
  split; [reflexivity|]. split; [reflexivity|].
  simpl. now rewrite andb_true_r.
Qed.

Lemma add_tokens_known (d : list (string * pyval)) (model : string)
    (inner : pyval) (x y a b : Z) :
  dict_get model d = Some inner ->
  counters_of inner = Some (x, y) ->
  exists inner',
    add_tokens (PDict d) model a b = Ok (PDict (dict_set model inner' d))
    /\ counters_of inner' = Some (x + a, y + b)%Z
    /\ (bson_encodable inner = true ->
        int64 (x + a) = true -> int64 (y + b) = true ->
        bson_encodable inner' = true).
Proof.
  intros Hd Hc. unfold add_tokens. rewrite Hd.
  destruct inner as [| | | | |i]; try discriminate. simpl in Hc.
  destruct (dict_get "n_input_tokens" i) as [[|x0| | | |]|] eqn:Hin;
    try discriminate.
  destruct (dict_get "n_output_tokens" i) as [[|y0| | | |]|] eqn:Hout;
    try discriminate.
  injection Hc as -> ->.
  unfold iadd_item at 1. rewrite Hin. cbn [py_add].
  unfold iadd_item. rewrite dict_get_set_ne by discriminate.
  rewrite Hout. cbn [py_add].
  eexists. split; [reflexivity|]. split.
  - cbn [counters_of]. rewrite dict_get_set_ne by discriminate.
    now rewrite !dict_get_set_eq.
  - intros Hi Hx Hy. now repeat apply bson_encodable_dict_set.
Qed.

(** A call with integer counts on a stored user whose dictionary [d] the
    update turns into [d']: when the driver can encode [d'], the call
    returns and [d'] is what is stored. *)
Lemma update_n_used_tokens_run (s : db) (u a b : Z) (model : string)
    (d d' : list (string * pyval)) :
  tokens_dict s u = Some d ->
  add_tokens (PDict d) model a b = Ok (PDict d') ->
  d' <> [] ->
  bson_encodable (PDict d') = true ->
  exists s',
    update_n_used_tokens (PInt u) model (PInt a) (PInt b) s = (Ok tt, s')
    /\ tokens_dict s' u = Some d'
    /\ dialog_collection s' = dialog_collection s.
Proof.
  unfold tokens_dict. destruct (user_collection s !! u) as [doc|] eqn:Hu;
    [|discriminate].
  intros Hd Hadd Hne Henc.
  set (stored := default PNone (doc !! "n_used_tokens")) in *.
  eexists. split; [|split].
  - unfold update_n_used_tokens.
    unfold mbind at 1. unfold M_bind at 1.
    rewrite (get_user_attribute_present u _ s doc Hu). fold stored.
    destruct (if truthy stored then stored else PDict []) as [| | | | |d0];
      try discriminate.
    injection Hd as ->. rewrite Hadd.
    apply (set_user_attribute_present u "n_used_tokens" _ s doc Hu);
      [reflexivity|reflexivity|assumption].
  - simpl. rewrite lookup_insert_eq, lookup_insert_eq. simpl.
    destruct d'; [contradiction|reflexivity].
  - reflexivity.
Qed.

(** When the driver cannot encode [d'], the call raises the driver's
    error and nothing is stored. *)
Lemma update_n_used_tokens_overflow (s : db) (u a b : Z) (model : string)
    (d d' : list (string * pyval)) :
  tokens_dict s u = Some d ->
  add_tokens (PDict d) model a b = Ok (PDict d') ->
  bson_encodable (PDict d') = false ->
  update_n_used_tokens (PInt u) model (PInt a) (PInt b) s = (Raise too_big, s).
Proof.
  unfold tokens_dict. destruct (user_collection s !! u) as [doc|] eqn:Hu;
    [|discriminate].
  intros Hd Hadd Henc.
  set (stored := default PNone (doc !! "n_used_tokens")) in *.
  unfold update_n_used_tokens.
  unfold mbind at 1. unfold M_bind at 1.
  rewrite (get_user_attribute_present u _ s doc Hu). fold stored.
  destruct (if truthy stored then stored else PDict []) as [| | | | |d0];
    try discriminate.
  injection Hd as ->. rewrite Hadd.
  now apply (set_user_attribute_too_big u "n_used_tokens" _ s doc Hu).
Qed.

Lemma not_encodable_dict_set (k : string) (v : pyval)
    (d : list (string * pyval)) :
  bson_encodable v = false -> bson_encodable (PDict (dict_set k v d)) = false.
Proof.
  intros Hv. destruct (bson_encodable (PDict (dict_set k v d))) eqn:H;
    [|reflexivity].
  apply bson_encodable_dict_set_inv in H. congruence.
Qed.

Lemma update_n_used_tokens_first (s : db) (u a b : Z) (model : string) :
  unused s u model ->
  tokens_encodable s u ->
  int64 a = true -> int64 b = true ->
  exists s',
    update_n_used_tokens (PInt u) model (PInt a) (PInt b) s = (Ok tt, s')
    /\ used_tokens s' u model = Some (a, b)
    /\ tokens_encodable s' u.
Proof.
  intros (d & Hd & Hnone) (d0 & Hd0 & Henc) Ha Hb.
  rewrite Hd in Hd0. injection Hd0 as <-.
  destruct (add_tokens_fresh d model a b Hnone) as (inner & Hadd & Hc & Hi).
  rewrite Ha, Hb in Hi.
  assert (Henc' : bson_encodable (PDict (dict_set model inner d)) = true)
    by now apply bson_encodable_dict_set.
  destruct (update_n_used_tokens_run s u a b model d _ Hd Hadd
              (dict_set_not_nil _ _ _) Henc') as (s' & Hrun & Hd' & _).
  exists s'. split; [assumption|]. split.
  - unfold used_tokens. now rewrite Hd', dict_get_set_eq.
  - now exists (dict_set model inner d).
Qed.

Lemma update_n_used_tokens_next (s : db) (u a b x y : Z) (model : string) :
  used_tokens s u model = Some (x, y) ->
  tokens_encodable s u ->
  int64 (x + a) = true -> int64 (y + b) = true ->
  exists s',
    update_n_used_tokens (PInt u) model (PInt a) (PInt b) s = (Ok tt, s')
    /\ used_tokens s' u model = Some (x + a, y + b)%Z
    /\ tokens_encodable s' u.
Proof.
  unfold used_tokens at 1.
  destruct (tokens_dict s u) as [d|] eqn:Hd; [|discriminate].
  destruct (dict_get model d) as [inner|] eqn:Hin; [|discriminate].
  intros Hc (d0 & Hd0 & Henc) Hx Hy.
  rewrite Hd in Hd0. injection Hd0 as <-.
  destruct (add_tokens_known d model inner x y a b Hin Hc)
    as (inner' & Hadd & Hc' & Hi).
  assert (Henc' : bson_encodable (PDict (dict_set model inner' d)) = true).
  { apply bson_encodable_dict_set; [assumption|].
    apply Hi; try assumption.
    exact (bson_encodable_dict_get _ _ _ Henc Hin). }
  destruct (update_n_used_tokens_run s u a b model d _ Hd Hadd
              (dict_set_not_nil _ _ _) Henc') as (s' & Hrun & Hd' & _).
  exists s'. split; [assumption|]. split.
  - unfold used_tokens. now rewrite Hd', dict_get_set_eq.
  - now exists (dict_set model inner' d).
Qed.

Lemma update_n_used_tokens_first_overflow (s : db) (u a b : Z)
    (model : string) :
  unused s u model ->
  int64 a && int64 b = false ->
  update_n_used_tokens (PInt u) model (PInt a) (PInt b) s = (Raise too_big, s).
Proof.
  intros (d & Hd & Hnone) Hab.
  destruct (add_tokens_fresh d model a b Hnone) as (inner & Hadd & Hc & Hi).
  rewrite Hab in Hi.
  apply (update_n_used_tokens_overflow s u a b model d _ Hd Hadd).
  now apply not_encodable_dict_set.
Qed.

Lemma update_n_used_tokens_next_overflow (s : db) (u a b x y : Z)
    (model : string) :
  used_tokens s u model = Some (x, y) ->
  int64 (x + a) && int64 (y + b) = false ->
  update_n_used_tokens (PInt u) model (PInt a) (PInt b) s = (Raise too_big, s).
Proof.
  unfold used_tokens at 1.
  destruct (tokens_dict s u) as [d|] eqn:Hd; [|discriminate].
  destruct (dict_get model d) as [inner|] eqn:Hin; [|discriminate].
  intros Hc Hxy.
  destruct (add_tokens_known d model inner x y a b Hin Hc)
    as (inner' & Hadd & Hc' & _).
  apply (update_n_used_tokens_overflow s u a b model d _ Hd Hadd).
  apply not_encodable_dict_set.
  destruct (bson_encodable inner') eqn:Hi; [|reflexivity].
  destruct (counters_encodable _ _ _ Hc' Hi) as [Hx Hy].
  now rewrite Hx, Hy in Hxy.
Qed.

(** C3, as the code has it.  [update_n_used_tokens] raises its
    [ValueError], leaving the store as it was, whenever one of the two
    counts is not an integer; integer counts of either sign are accepted:
    on a stored user the call returns and the counts are stored (first use
    of the model) or added to the stored counters, as long as the new
    counters fit the 8-byte integers of the store; when one does not, the
    driver's [OverflowError] comes out and nothing is stored. *)
Theorem update_n_used_tokens_checks_type_only :
  (forall (s : db) (user_id : pyval) (model : string) (n_in n_out : pyval),
      isinstance_int n_in && isinstance_int n_out = false ->
      update_n_used_tokens user_id model n_in n_out s
      = (Raise (ValueError
                  "n_input_tokens and n_output_tokens must be integers" []), s))
  /\ (forall (s : db) (u : Z) (model : string) (a b : Z),
         unused s u model ->
         tokens_encodable s u ->
         int64 a = true -> int64 b = true ->
         exists s',
           update_n_used_tokens (PInt u) model (PInt a) (PInt b) s = (Ok tt, s')
           /\ used_tokens s' u model = Some (a, b))
  /\ (forall (s : db) (u : Z) (model : string) (a b x y : Z),
         used_tokens s u model = Some (x, y) ->
         tokens_encodable s u ->
         int64 (x + a) = true -> int64 (y + b) = true ->
         exists s',
           update_n_used_tokens (PInt u) model (PInt a) (PInt b) s = (Ok tt, s')
           /\ used_tokens s' u model = Some (x + a, y + b)%Z)
  /\ (forall (s : db) (u : Z) (model : string) (a b : Z),
         unused s u model ->
         int64 a && int64 b = false ->
         update_n_used_tokens (PInt u) model (PInt a) (PInt b) s
         = (Raise too_big, s))
  /\ (forall (s : db) (u : Z) (model : string) (a b x y : Z),
         used_tokens s u model = Some (x, y) ->
         int64 (x + a) && int64 (y + b) = false ->
         update_n_used_tokens (PInt u) model (PInt a) (PInt b) s
         = (Raise too_big, s)).
Proof.
  split; [|split; [|split; [|split]]].
  - intros s user_id model n_in n_out H. unfold update_n_used_tokens.
    destruct n_in, n_out; try reflexivity. discriminate.
  - intros s u model a b Hun Henc Ha Hb.
    destruct (update_n_used_tokens_first s u a b model Hun Henc Ha Hb)
      as (s' & Hrun & Hused & _).
    now exists s'.
  - intros s u model a b x y Hxy Henc Hx Hy.
    destruct (update_n_used_tokens_next s u a b x y model Hxy Henc Hx Hy)
      as (s' & Hrun & Hused & _).
    now exists s'.
  - intros. now apply update_n_used_tokens_first_overflow.
  - intros. now apply update_n_used_tokens_next_overflow with x y.
Qed.

Lemma update_n_used_tokens_checks_type_only_witness :
  update_n_used_tokens (PInt 1) "m" (PStr "5") (PInt 3) sample_db_tokens
  = (Raise (ValueError
              "n_input_tokens and n_output_tokens must be integers" []),
     sample_db_tokens)
  /\ (exists s',
         update_n_used_tokens (PInt 1) "m" (PInt (-5)) (PInt 3) sample_db_user
         = (Ok tt, s')
         /\ used_tokens s' 1 "m" = Some (-5, 3)%Z)
  /\ (exists s',
         update_n_used_tokens (PInt 1) "m" (PInt (-9)) (PInt 1) sample_db_tokens
         = (Ok tt, s')
         /\ used_tokens s' 1 "m" = Some (7 + -9, 4 + 1)%Z)
  /\ update_n_used_tokens (PInt 1) "m" (PInt (2 ^ 63)) (PInt 3) sample_db_user
     = (Raise too_big, sample_db_user)
  /\ update_n_used_tokens (PInt 1) "m" (PInt (2 ^ 63 - 7)) (PInt 0)
       sample_db_tokens
     = (Raise too_big, sample_db_tokens).
Proof.
  destruct update_n_used_tokens_checks_type_only as (H1 & H2 & H3 & H4 & H5).
  split; [|split; [|split; [|split]]].
  - apply H1. reflexivity.
  - apply H2; [exists []; split; vm_refl|exists []; split; vm_refl
              |reflexivity|reflexivity].
  - apply H3; [vm_refl
              |exists [("m", PDict [("n_input_tokens", PInt 7);
                                    ("n_output_tokens", PInt 4)])];
               split; vm_refl
              |reflexivity|reflexivity].
  - apply H4; [exists []; split; vm_refl|reflexivity].
  - apply (H5 sample_db_tokens 1%Z "m" (2 ^ 63 - 7)%Z 0%Z 7%Z 4%Z);
      [vm_refl|reflexivity].
Defined.

(** C3, as the specification words it, fails: a call with the negative
    count -9 on the stored counters (7, 4) is not rejected, and it changes
    the stored counters to (-2, 5). *)
Lemma update_n_used_tokens_accepts_negative :
  used_tokens sample_db_tokens 1 "m" = Some (7, 4)%Z
  /\ exists s',
       update_n_used_tokens (PInt 1) "m" (PInt (-9)) (PInt 1) sample_db_tokens
       = (Ok tt, s')
       /\ used_tokens s' 1 "m" = Some (-2, 5)%Z
       /\ s' <> sample_db_tokens.
Proof.
  split; [vm_refl|].
  exists (snd (update_n_used_tokens (PInt 1) "m" (PInt (-9)) (PInt 1)
                 sample_db_tokens)).
  split; [vm_refl|]. split; [vm_refl|].
  intros H. apply (f_equal (fun s => used_tokens s 1 "m")) in H.
  vm_compute in H. discriminate.
Qed.

(** C9, as the code has it.  On a stored user, two calls with integer
    counts (a1, b1) and (a2, b2) for one model both return and leave the
    counters (a1 + a2, b1 + b2) when the model had no entry (the first call
    storing exactly (a1, b1)), and (x + a1 + a2, y + b1 + b2) when it had
    the counters (x, y), as long as the counters stay within the 8-byte
    integers of the store; a call whose counts are not negative never
    lowers a counter, and a call that would take a counter out of the
    8-byte integers raises and stores nothing. *)
Theorem update_n_used_tokens_additive
    (s : db) (u : Z) (model : string) (a1 b1 a2 b2 : Z) :
  tokens_encodable s u ->
  (unused s u model ->
   int64 a1 = true -> int64 b1 = true ->
   int64 (a1 + a2) = true -> int64 (b1 + b2) = true ->
   exists s1 s2,
     update_n_used_tokens (PInt u) model (PInt a1) (PInt b1) s = (Ok tt, s1)
     /\ used_tokens s1 u model = Some (a1, b1)
     /\ update_n_used_tokens (PInt u) model (PInt a2) (PInt b2) s1 = (Ok tt, s2)
     /\ used_tokens s2 u model = Some (a1 + a2, b1 + b2)%Z)
  /\ (forall x y : Z,
         used_tokens s u model = Some (x, y) ->
         int64 (x + a1) = true -> int64 (y + b1) = true ->
         int64 (x + a1 + a2) = true -> int64 (y + b1 + b2) = true ->
         exists s1 s2,
           update_n_used_tokens (PInt u) model (PInt a1) (PInt b1) s
           = (Ok tt, s1)
           /\ used_tokens s1 u model = Some (x + a1, y + b1)%Z
           /\ update_n_used_tokens (PInt u) model (PInt a2) (PInt b2) s1
              = (Ok tt, s2)
           /\ used_tokens s2 u model = Some (x + a1 + a2, y + b1 + b2)%Z)
  /\ (forall x y : Z,
         used_tokens s u model = Some (x, y) ->
         (0 <= a1)%Z -> (0 <= b1)%Z ->
         int64 (x + a1) = true -> int64 (y + b1) = true ->
         exists s1 x' y',
           update_n_used_tokens (PInt u) model (PInt a1) (PInt b1) s
           = (Ok tt, s1)
           /\ used_tokens s1 u model = Some (x', y')
           /\ (x <= x')%Z /\ (y <= y')%Z)
  /\ (forall x y : Z,
         used_tokens s u model = Some (x, y) ->
         int64 (x + a1) && int64 (y + b1) = false ->
         update_n_used_tokens (PInt u) model (PInt a1) (PInt b1) s
         = (Raise too_big, s)
         /\ used_tokens s u model = Some (x, y)).
Proof.
  intros Henc. split; [|split; [|split]].
  - intros Hun Ha Hb Ha2 Hb2.
    destruct (update_n_used_tokens_first s u a1 b1 model Hun Henc Ha Hb)
      as (s1 & Hr1 & Hu1 & Henc1).
    destruct (update_n_used_tokens_next s1 u a2 b2 _ _ model Hu1 Henc1 Ha2 Hb2)
      as (s2 & Hr2 & Hu2 & _).
    now exists s1, s2.
  - intros x y Hxy Hx Hy Hx2 Hy2.
    destruct (update_n_used_tokens_next s u a1 b1 _ _ model Hxy Henc Hx Hy)
      as (s1 & Hr1 & Hu1 & Henc1).
    destruct (update_n_used_tokens_next s1 u a2 b2 _ _ model Hu1 Henc1 Hx2 Hy2)
      as (s2 & Hr2 & Hu2 & _).
    now exists s1, s2.
  - intros x y Hxy Ha Hb Hx Hy.
    destruct (update_n_used_tokens_next s u a1 b1 _ _ model Hxy Henc Hx Hy)
      as (s1 & Hr1 & Hu1 & _).
    exists s1, (x + a1)%Z, (y + b1)%Z. repeat split; try assumption; lia.
  - intros x y Hxy Hover. split; [|assumption].
    now apply update_n_used_tokens_next_overflow with x y.
Qed.

Lemma update_n_used_tokens_additive_witness :
  (exists s1 s2,
      update_n_used_tokens (PInt 1) "m" (PInt 5) (PInt 3) sample_db_user
      = (Ok tt, s1)
      /\ used_tokens s1 1 "m" = Some (5, 3)%Z
      /\ update_n_used_tokens (PInt 1) "m" (PInt 2) (PInt 1) s1 = (Ok tt, s2)
      /\ used_tokens s2 1 "m" = Some (5 + 2, 3 + 1)%Z)
  /\ (exists s1 s2,
         update_n_used_tokens (PInt 1) "m" (PInt 5) (PInt 3) sample_db_tokens
         = (Ok tt, s1)
         /\ used_tokens s1 1 "m" = Some (7 + 5, 4 + 3)%Z
         /\ update_n_used_tokens (PInt 1) "m" (PInt 2) (PInt 1) s1 = (Ok tt, s2)
         /\ used_tokens s2 1 "m" = Some (7 + 5 + 2, 4 + 3 + 1)%Z)
  /\ (exists s1 x' y',
         update_n_used_tokens (PInt 1) "m" (PInt 5) (PInt 3) sample_db_tokens
         = (Ok tt, s1)
         /\ used_tokens s1 1 "m" = Some (x', y')
         /\ (7 <= x')%Z /\ (4 <= y')%Z)
  /\ (update_n_used_tokens (PInt 1) "m" (PInt (2 ^ 63 - 7)) (PInt 3)
        sample_db_tokens
      = (Raise too_big, sample_db_tokens)
      /\ used_tokens sample_db_tokens 1 "m" = Some (7, 4)%Z).
Proof.
  assert (Huser : tokens_encodable sample_db_user 1)
    by (exists []; split; vm_refl).
  assert (Htokens : tokens_encodable sample_db_tokens 1)
    by (exists [("m", PDict [("n_input_tokens", PInt 7);
                             ("n_output_tokens", PInt 4)])]; split; vm_refl).
  split; [|split; [|split]].
  - apply (proj1 (update_n_used_tokens_additive sample_db_user 1 "m" 5 3 2 1
                    Huser));
      [exists []; split; vm_refl|reflexivity..].
  - apply (proj1 (proj2 (update_n_used_tokens_additive sample_db_tokens 1 "m"
                           5 3 2 1 Htokens)) 7%Z 4%Z);
      [vm_refl|reflexivity..].
  - apply (proj1 (proj2 (proj2 (update_n_used_tokens_additive sample_db_tokens
                                  1 "m" 5 3 2 1 Htokens))) 7%Z 4%Z);
      [vm_refl|lia|lia|reflexivity|reflexivity].
  - apply (proj2 (proj2 (proj2 (update_n_used_tokens_additive sample_db_tokens
                                  1 "m" (2 ^ 63 - 7) 3 2 1 Htokens))) 7%Z 4%Z);
      [vm_refl|reflexivity].
Defined.

(** C9, as the specification words it, fails in "never decremented": the
    call with counts (-9, 0) on the stored counters (7, 4) returns and
    leaves (-2, 4). *)
Lemma update_n_used_tokens_can_decrement :
  used_tokens sample_db_tokens 1 "m" = Some (7, 4)%Z
  /\ exists s',
       update_n_used_tokens (PInt 1) "m" (PInt (-9)) (PInt 0) sample_db_tokens
       = (Ok tt, s')
       /\ used_tokens s' 1 "m" = Some (-2, 4)%Z
       /\ (-2 < 7)%Z.
Proof.
  split; [vm_refl|].
  exists (snd (update_n_used_tokens (PInt 1) "m" (PInt (-9)) (PInt 0)
                 sample_db_tokens)).
  split; [vm_refl|]. split; [vm_refl|lia].
Qed.

(** ** The current dialog of a user *)

Lemma snd_bind {A B : Type} (m : M A) (f : A -> M B) (s : db) :
  snd ((m ≫= f) s)
  = match m s with
    | (Ok a, s1) => snd (f a s1)
    | (Raise _, s1) => s1
    end.
Proof.
  unfold mbind, M_bind. now destruct (m s) as [[a|e] s1].
Qed.

Lemma current_dialog_ok_empty : current_dialog_ok empty_db.
Proof. intros u doc v H. simpl in H. now rewrite lookup_empty in H. Qed.

Lemma users_update_one_other (id : pyval) (key : string) (v : pyval) (s : db) :
  field_of key <> "current_dialog_id" ->
  current_dialog_ok s ->
  current_dialog_ok (snd (users_update_one id key v s)).
Proof.
  intros Hkey Hs.
  destruct (users_update_one_cases id key v s)
    as [->|(u0 & doc0 & field & rest & x & _ & Hu0 & Hsplit & _ & _ & ->)];
    [exact Hs|].
  unfold field_of in Hkey. rewrite Hsplit in Hkey. simpl in Hkey.
  intros u doc w Hu Hw Hnn. simpl in Hu |- *.
  destruct (decide (u0 = u)) as [->|Hne].
  - rewrite lookup_insert_eq in Hu. injection Hu as <-.
    rewrite lookup_insert_ne in Hw by assumption. now apply (Hs u doc0 w).
  - rewrite lookup_insert_ne in Hu by assumption. now apply (Hs u doc w).
Qed.

Lemma users_update_one_absent (u : Z) (key : string) (v : pyval) (s : db) :
  user_collection s !! u = None ->
  snd (users_update_one (PInt u) key v s) = s.
Proof.
  intros Hu.
  destruct (users_update_one_cases (PInt u) key v s)
    as [H|(u0 & doc0 & field & rest & x & [= <-] & Hu0 & _)]; [exact H|].
  congruence.
Qed.

Lemma users_update_one_current (u : Z) (dlg : dialog) (s : db) :
  In dlg (dialog_collection s) ->
  dlg_user_id dlg = u ->
  current_dialog_ok s ->
  current_dialog_ok
    (snd (users_update_one (PInt u) "current_dialog_id" (PStr (dlg_id dlg)) s)).
Proof.
  intros Hin Hown Hs.
  destruct (user_collection s !! u) as [doc0|] eqn:Hu0;
    [|now rewrite users_update_one_absent].
  rewrite (users_update_one_field u _ _ s doc0 Hu0) by reflexivity.
  simpl. intros u' doc w Hu Hw Hnn. simpl in Hu |- *.
  destruct (decide (u = u')) as [<-|Hne].
  - rewrite lookup_insert_eq in Hu. injection Hu as <-.
    rewrite lookup_insert_eq in Hw. injection Hw as <-.
    now exists dlg.
  - rewrite lookup_insert_ne in Hu by assumption. now apply (Hs u' doc w).
Qed.

Lemma dialogs_insert_one_ok (d : dialog) (s : db) :
  current_dialog_ok s -> current_dialog_ok (snd (dialogs_insert_one d s)).
Proof.
  intros Hs. unfold dialogs_insert_one.
  destruct (existsb _ _); [exact Hs|].
  intros u doc w Hu Hw Hnn. simpl in Hu |- *.
  destruct (Hs u doc w Hu Hw Hnn) as (dlg & Hin & Hv & Hown).
  exists dlg. split; [|now split]. apply in_or_app. now left.
Qed.

Lemma update_first_keeps (p : dialog -> bool) (msgs : list turn)
    (l : list dialog) (dlg : dialog) :
  In dlg l ->
  exists dlg',
    In dlg' (update_first p (set_messages msgs) l)
    /\ dlg_id dlg' = dlg_id dlg /\ dlg_user_id dlg' = dlg_user_id dlg.
Proof.
  induction l as [|d l IH]; simpl; [contradiction|].
  intros [->|Hin].
  - destruct (p dlg).
    + exists (set_messages msgs dlg). simpl. auto.
    + exists dlg. simpl. auto.
  - destruct (p d).
    + exists dlg. simpl. auto.
    + destruct (IH Hin) as (dlg' & Hin' & Hid). exists dlg'. simpl. auto.
Qed.

Lemma dialogs_update_one_ok (dialog_id user_id : pyval) (msgs : list turn)
    (s : db) :
  current_dialog_ok s ->
  current_dialog_ok (snd (dialogs_update_one dialog_id user_id msgs s)).
Proof.
  intros Hs u doc w Hu Hw Hnn. simpl in Hu |- *.
  destruct (Hs u doc w Hu Hw Hnn) as (dlg & Hin & Hv & Hown).
  destruct (update_first_keeps (dialog_matches dialog_id user_id) msgs _ _ Hin)
    as (dlg' & Hin' & Hid & Hu').
  exists dlg'. split; [assumption|]. split; congruence.
Qed.

Lemma set_user_attribute_ok (user_id : pyval) (key : string) (v : pyval)
    (s : db) :
  field_of key <> "current_dialog_id" ->
  current_dialog_ok s ->
  current_dialog_ok (snd (set_user_attribute user_id key v s)).
Proof.
  intros Hkey Hs. unfold set_user_attribute. rewrite snd_bind.
  pose proof (check_if_user_exists_state user_id true s) as Hc.
  destruct (check_if_user_exists user_id true s) as [[r|e] s1]; simpl in Hc;
    subst s1; [|exact Hs].
  now apply users_update_one_other.
Qed.

Lemma add_new_user_ok (cfg : config) (t1 t2 : Z) (user_id chat_id : pyval)
    (username first_name last_name : string) (s : db) :
  current_dialog_ok s ->
  current_dialog_ok
    (snd (add_new_user cfg t1 t2 user_id chat_id username first_name last_name
            s)).
Proof.
  intros Hs. unfold add_new_user.
  destruct (negb (isinstance_int user_id) || negb (isinstance_int chat_id));
    [exact Hs|].
  rewrite snd_bind.
  pose proof (check_if_user_exists_state user_id false s) as Hc.
  destruct (check_if_user_exists user_id false s) as [[r|e] s1]; simpl in Hc;
    subst s1; [|exact Hs].
  destruct r; [exact Hs|]. simpl.
  destruct user_id as [|u| | | |]; try exact Hs.
  destruct (available_text_models cfg) as [|m0 models]; [exact Hs|].
  unfold users_insert_one.
  destruct (negb (bson_encodable _)); [exact Hs|].
  destruct (user_collection s !! u) eqn:Hu; [exact Hs|].
  intros u' doc w Hu' Hw Hnn. simpl in Hu' |- *.
  destruct (decide (u = u')) as [<-|Hne].
  - rewrite lookup_insert_eq in Hu'. injection Hu' as <-.
    vm_compute in Hw. injection Hw as <-. contradiction.
  - rewrite lookup_insert_ne in Hu' by assumption. now apply (Hs u' doc w).
Qed.

Lemma update_n_used_tokens_ok (user_id : pyval) (model : string)
    (n_in n_out : pyval) (s : db) :
  current_dialog_ok s ->
  current_dialog_ok (snd (update_n_used_tokens user_id model n_in n_out s)).
Proof.
  intros Hs. unfold update_n_used_tokens.
  destruct n_in as [|a| | | |]; try exact Hs.
  destruct n_out as [|b| | | |]; try exact Hs.
  rewrite snd_bind.
  pose proof (get_user_attribute_state user_id "n_used_tokens" s) as Hg.
  destruct (get_user_attribute user_id "n_used_tokens" s) as [[stored|e] s1];
    simpl in Hg; subst s1; [|exact Hs].
  destruct (add_tokens _ model a b) as [d'|e]; [|exact Hs].
  now apply set_user_attribute_ok.
Qed.

Lemma resolve_dialog_id_state (user_id : pyval) (dialog_id : option string)
    (s : db) :
  snd (resolve_dialog_id user_id dialog_id s) = s.
Proof.
  destruct dialog_id; [reflexivity|]. apply get_user_attribute_state.
Qed.

Lemma set_dialog_messages_ok (user_id : pyval) (msgs : list turn)
    (dialog_id : option string) (s : db) :
  current_dialog_ok s ->
  current_dialog_ok (snd (set_dialog_messages user_id msgs dialog_id s)).
Proof.
  intros Hs. unfold set_dialog_messages. rewrite snd_bind.
  pose proof (check_if_user_exists_state user_id true s) as Hc.
  destruct (check_if_user_exists user_id true s) as [[r|e] s1]; simpl in Hc;
    subst s1; [|exact Hs].
  rewrite snd_bind.
  pose proof (resolve_dialog_id_state user_id dialog_id s) as Hr.
  destruct (resolve_dialog_id user_id dialog_id s) as [[d|e] s1]; simpl in Hr;
    subst s1; [|exact Hs].
  destruct (negb (truthy d)); [exact Hs|].
  now apply dialogs_update_one_ok.
Qed.

Lemma get_dialog_messages_state (user_id : pyval) (dialog_id : option string)
    (s : db) :
  snd (get_dialog_messages user_id dialog_id s) = s.
Proof.
  unfold get_dialog_messages. rewrite snd_bind.
  pose proof (check_if_user_exists_state user_id true s) as Hc.
  destruct (check_if_user_exists user_id true s) as [[r|e] s1]; simpl in Hc;
    subst s1; [|reflexivity].
  rewrite snd_bind.
  pose proof (resolve_dialog_id_state user_id dialog_id s) as Hr.
  destruct (resolve_dialog_id user_id dialog_id s) as [[d|e] s1]; simpl in Hr;
    subst s1; [|reflexivity].
  destruct (negb (truthy d)); [reflexivity|]. run.
  now destruct (dialogs_find_one d user_id s).
Qed.

Lemma get_user_dialogs_state (p : plan) (user_id : pyval) (s : db) :
  snd (get_user_dialogs p user_id s) = s.
Proof.
  unfold get_user_dialogs. rewrite snd_bind.
  pose proof (check_if_user_exists_state user_id true s) as Hc.
  destruct (check_if_user_exists user_id true s) as [[r|e] s1]; simpl in Hc;
    subst s1; reflexivity.
Qed.

Lemma snd_bind_ret {A B : Type} (m : M A) (b : B) (s : db) :
  snd ((m ≫= fun _ => mret b) s) = snd (m s).
Proof. rewrite snd_bind. now destruct (m s) as [[a|e] s1]. Qed.

(** What a successful [start_new_dialog] did, step by step: the dialog,
    owned by the user and holding a snapshot of the user's current mode
    and model, is inserted first, the user document being untouched; only
    then is the user's ["current_dialog_id"] set to its id. *)
Lemma start_new_dialog_steps (uuid4 : string) (now : Z) (user_id : pyval)
    (s s' : db) (d : string) :
  start_new_dialog uuid4 now user_id s = (Ok d, s') ->
  exists (u : Z) (doc : gmap string pyval) (s1 : db),
    let dlg := {| dlg_id := uuid4; dlg_user_id := u;
                  dlg_chat_mode := default PNone (doc !! "current_chat_mode");
                  dlg_start_time := now;
                  dlg_model := default PNone (doc !! "current_model");
                  dlg_messages := [] |} in
    user_id = PInt u
    /\ user_collection s !! u = Some doc
    /\ d = uuid4
    /\ dialogs_insert_one dlg s = (Ok tt, s1)
    /\ user_collection s1 = user_collection s
    /\ dialog_collection s1 = dialog_collection s ++ [dlg]
    /\ users_update_one (PInt u) "current_dialog_id" (PStr uuid4) s1
       = (Ok tt, s')
    /\ dialog_collection s' = dialog_collection s1
    /\ get_user_attribute (PInt u) "current_dialog_id" s' = (Ok (PStr uuid4), s').
Proof.
  unfold start_new_dialog. unfold mbind at 1. unfold M_bind at 1.
  destruct (check_if_user_exists user_id true s) as [[r|e] s0] eqn:Hc;
    [|discriminate].
  destruct (check_if_user_exists_ok _ _ _ _ _ Hc)
    as (-> & u & -> & Hsome & Hr).
  rewrite (Hr eq_refl) in Hsome. destruct (Hsome eq_refl) as [doc Hu].
  unfold mbind at 1. unfold M_bind at 1.
  rewrite (get_user_attribute_present u _ s doc Hu).
  unfold mbind at 1. unfold M_bind at 1.
  rewrite (get_user_attribute_present u _ s doc Hu).
  unfold mbind at 1. unfold M_bind at 1.
  unfold dialogs_insert_one at 1. cbn [dlg_id].
  destruct (existsb _ (dialog_collection s)) eqn:Hdup; [discriminate|].
  unfold mbind, M_bind.
  match goal with
  | |- context [users_update_one _ _ _ ?s1] =>
      rewrite (users_update_one_field u "current_dialog_id" (PStr uuid4) s1
                 doc Hu eq_refl eq_refl eq_refl)
  end.
  unfold mret, M_ret. intros [= <- <-].
  exists u, doc. eexists. cbn zeta.
  split; [reflexivity|]. split; [assumption|]. split; [reflexivity|].
  split; [unfold dialogs_insert_one; cbn [dlg_id]; rewrite Hdup; reflexivity|].
  split; [reflexivity|]. split; [reflexivity|].
  split.
  { match goal with
    | |- users_update_one _ _ _ ?s1 = _ =>
        exact (users_update_one_field u "current_dialog_id" (PStr uuid4) s1
                 doc Hu eq_refl eq_refl eq_refl)
    end. }
  split; [reflexivity|].
  erewrite get_user_attribute_present;
    [|cbn [user_collection]; apply lookup_insert_eq].
  now rewrite lookup_insert_eq.
Qed.

Lemma start_new_dialog_ok (uuid4 : string) (now : Z) (user_id : pyval) (s : db) :
  current_dialog_ok s ->
  current_dialog_ok (snd (start_new_dialog uuid4 now user_id s)).
Proof.
  intros Hs.
  destruct (start_new_dialog uuid4 now user_id s) as [[d|e] s'] eqn:Hrun.
  - destruct (start_new_dialog_steps _ _ _ _ _ _ Hrun)
      as (u & doc & s1 & Hid & Hu & Hd & Hins & Hus1 & Hds1 & Hupd & _).
    cbn zeta in *. simpl.
    replace s' with (snd (users_update_one (PInt u) "current_dialog_id"
                            (PStr uuid4) s1)) by now rewrite Hupd.
    set (dlg := {| dlg_id := uuid4 |}) in *.
    apply (users_update_one_current u dlg s1).
    + rewrite Hds1. apply in_or_app. right. now left.
    + reflexivity.
    + replace s1 with (snd (dialogs_insert_one dlg s)) by now rewrite Hins.
      now apply dialogs_insert_one_ok.
  - simpl. revert Hrun. unfold start_new_dialog.
    intros Hrun. apply (f_equal snd) in Hrun. simpl in Hrun. subst s'.
    rewrite snd_bind.
    pose proof (check_if_user_exists_state user_id true s) as Hc.
    destruct (check_if_user_exists user_id true s) as [[r|e0] s0] eqn:Hck;
      simpl in Hc; subst s0; [|exact Hs].
    destruct (check_if_user_exists_ok _ _ _ _ _ Hck)
      as (_ & u & -> & Hsome & Hr).
    rewrite (Hr eq_refl) in Hsome. destruct (Hsome eq_refl) as [doc Hu].
    rewrite snd_bind, (get_user_attribute_present u _ s doc Hu).
    rewrite snd_bind, (get_user_attribute_present u _ s doc Hu).
    rewrite snd_bind.
    set (dlg := {| dlg_id := uuid4 |}).
    unfold dialogs_insert_one at 1.
    destruct (existsb _ (dialog_collection s)) eqn:Hdup; [exact Hs|].
    rewrite snd_bind_ret.
    apply (users_update_one_current u dlg).
    + simpl. apply in_or_app. right. now left.
    + reflexivity.
    + intros u' doc' w Hu' Hw Hnn. simpl in Hu' |- *.
      destruct (Hs u' doc' w Hu' Hw Hnn) as (dlg' & Hin & Hv & Hown).
      exists dlg'. split; [|now split]. apply in_or_app. now left.
Qed.

Lemma add_new_user_current_dialog_null (cfg : config) (t1 t2 u chat_id : Z)
    (username first_name last_name : string) (s s' : db) :
  user_collection s !! u = None ->
  add_new_user cfg t1 t2 (PInt u) (PInt chat_id) username first_name last_name s
  = (Ok tt, s') ->
  get_user_attribute (PInt u) "current_dialog_id" s' = (Ok PNone, s')
  /\ dialog_collection s' = dialog_collection s.
Proof.
  intros Hu. unfold add_new_user. run. unfold check_if_user_exists. run.
  rewrite Hu. simpl.
  destruct (available_text_models cfg) as [|m0 models]; [discriminate|].
  unfold users_insert_one.
  destruct (negb (bson_encodable _)); [discriminate|].
  rewrite Hu. intros [= <-]. split; [|reflexivity].
  erewrite get_user_attribute_present; [|simpl; apply lookup_insert_eq].
  reflexivity.
Qed.

(** C10, as the code has it.  The invariant (a user's current dialog id,
    when not [None], names a stored dialog owned by that user) holds on
    the empty store and is kept by [add_new_user], [start_new_dialog],
    [update_n_used_tokens], [set_dialog_messages] and by
    [set_user_attribute] on every key that does not write the field
    ["current_dialog_id"]; the reading methods leave the store as it was.
    A newly registered user has current dialog id [None], and a successful
    [start_new_dialog] inserts the new dialog, owned by the user, before it
    sets the user's current dialog id to it. *)
Theorem current_dialog_ok_preserved (s : db) :
  current_dialog_ok s ->
  current_dialog_ok empty_db
  /\ (forall cfg t1 t2 user_id chat_id username first_name last_name,
         current_dialog_ok
           (snd (add_new_user cfg t1 t2 user_id chat_id
                   username first_name last_name s)))
  /\ (forall uuid4 now user_id,
         current_dialog_ok (snd (start_new_dialog uuid4 now user_id s)))
  /\ (forall user_id model n_in n_out,
         current_dialog_ok
           (snd (update_n_used_tokens user_id model n_in n_out s)))
  /\ (forall user_id msgs dialog_id,
         current_dialog_ok (snd (set_dialog_messages user_id msgs dialog_id s)))
  /\ (forall user_id key v,
         field_of key <> "current_dialog_id" ->
         current_dialog_ok (snd (set_user_attribute user_id key v s)))
  /\ (forall user_id b key dialog_id p,
         snd (check_if_user_exists user_id b s) = s
         /\ snd (get_user_attribute user_id key s) = s
         /\ snd (get_dialog_messages user_id dialog_id s) = s
         /\ snd (get_user_dialogs p user_id s) = s)
  /\ (forall cfg t1 t2 u chat_id username first_name last_name s',
         user_collection s !! u = None ->
         add_new_user cfg t1 t2 (PInt u) (PInt chat_id)
           username first_name last_name s = (Ok tt, s') ->
         get_user_attribute (PInt u) "current_dialog_id" s' = (Ok PNone, s'))
  /\ (forall uuid4 now user_id d s',
         start_new_dialog uuid4 now user_id s = (Ok d, s') ->
         exists u dlg s1,
           user_id = PInt u
           /\ dlg_id dlg = d /\ dlg_user_id dlg = u
           /\ dialogs_insert_one dlg s = (Ok tt, s1)
           /\ user_collection s1 = user_collection s
           /\ In dlg (dialog_collection s1)
           /\ current_dialog_ok s1
           /\ users_update_one (PInt u) "current_dialog_id" (PStr d) s1
              = (Ok tt, s')
           /\ get_user_attribute (PInt u) "current_dialog_id" s'
              = (Ok (PStr d), s')).
Proof.
  intros Hs.
  split; [apply current_dialog_ok_empty|].
  split; [intros; now apply add_new_user_ok|].
  split; [intros; now apply start_new_dialog_ok|].
  split; [intros; now apply update_n_used_tokens_ok|].
  split; [intros; now apply set_dialog_messages_ok|].
  split; [intros; now apply set_user_attribute_ok|].
  split.
  { intros. split; [apply check_if_user_exists_state|].
    split; [apply get_user_attribute_state|].
    split; [apply get_dialog_messages_state|apply get_user_dialogs_state]. }
  split.
  { intros cfg t1 t2 u chat_id username first_name last_name s' Hu Hrun.
    now destruct (add_new_user_current_dialog_null _ _ _ _ _ _ _ _ _ _ Hu Hrun). }
  intros uuid4 now user_id d s' Hrun.
  destruct (start_new_dialog_steps _ _ _ _ _ _ Hrun)
    as (u & doc & s1 & Hid & Hu & Hd & Hins & Hus1 & Hds1 & Hupd & _ & Hget).
  cbn zeta in *. subst d.
  match type of Hins with
  | dialogs_insert_one ?dlg s = _ => exists u, dlg, s1
  end.
  split; [assumption|]. split; [reflexivity|]. split; [reflexivity|].
  split; [exact Hins|]. split; [assumption|].
  split; [rewrite Hds1; apply in_or_app; right; now left|].
  split; [|split; assumption].
  match type of Hins with
  | dialogs_insert_one ?dlg s = _ =>
      replace s1 with (snd (dialogs_insert_one dlg s)) by now rewrite Hins
  end.
  now apply dialogs_insert_one_ok.
Qed.

(** The invariant along a run: user 1 is registered on the empty store
    (current dialog [None]), starts the dialogs ["d1"] and ["d2"], and
    changes the chat mode; in the end the current dialog of user 1 is
    ["d2"], a stored dialog of user 1. *)
Lemma current_dialog_ok_preserved_witness :
  get_user_attribute (PInt 1) "current_dialog_id" sample_db_user
  = (Ok PNone, sample_db_user)
  /\ (exists u dlg s1,
         PInt 1 = PInt u
         /\ dlg_id dlg = "d1" /\ dlg_user_id dlg = u
         /\ dialogs_insert_one dlg sample_db_user = (Ok tt, s1)
         /\ user_collection s1 = user_collection sample_db_user
         /\ In dlg (dialog_collection s1)
         /\ current_dialog_ok s1
         /\ users_update_one (PInt u) "current_dialog_id" (PStr "d1") s1
            = (Ok tt, snd (start_new_dialog "d1" 1 (PInt 1) sample_db_user))
         /\ get_user_attribute (PInt u) "current_dialog_id"
              (snd (start_new_dialog "d1" 1 (PInt 1) sample_db_user))
            = (Ok (PStr "d1"),
               snd (start_new_dialog "d1" 1 (PInt 1) sample_db_user)))
  /\ current_dialog_ok sample_db_two_dialogs
  /\ current_dialog_ok
       (snd (set_user_attribute (PInt 1) "current_chat_mode"
               (PStr "code_assistant") sample_db_two_dialogs))
  /\ (exists dlg,
         In dlg (dialog_collection sample_db_two_dialogs)
         /\ PStr "d2" = PStr (dlg_id dlg) /\ dlg_user_id dlg = 1%Z).
Proof.
  assert (Huser : current_dialog_ok sample_db_user).
  { apply (proj1 (proj2 (current_dialog_ok_preserved empty_db
                           current_dialog_ok_empty))). }
  assert (Hone : current_dialog_ok
                   (snd (start_new_dialog "d1" 1 (PInt 1) sample_db_user))).
  { apply (proj1 (proj2 (proj2 (current_dialog_ok_preserved sample_db_user
                                  Huser)))). }
  assert (Htwo : current_dialog_ok sample_db_two_dialogs).
  { apply (proj1 (proj2 (proj2 (current_dialog_ok_preserved _ Hone)))). }
  split; [|split; [|split; [|split]]].
  - apply (proj1 (proj2 (proj2 (proj2 (proj2 (proj2 (proj2 (proj2
            (current_dialog_ok_preserved empty_db current_dialog_ok_empty)))))))))
      with sample_config 10%Z 11%Z 100%Z "ann" "Ann" "A"; [reflexivity|vm_refl].
  - apply (proj2 (proj2 (proj2 (proj2 (proj2 (proj2 (proj2 (proj2
            (current_dialog_ok_preserved sample_db_user Huser))))))))
             "d1" 1%Z (PInt 1) "d1"
             (snd (start_new_dialog "d1" 1 (PInt 1) sample_db_user))).
    vm_refl.
  - exact Htwo.
  - apply (proj1 (proj2 (proj2 (proj2 (proj2 (proj2
            (current_dialog_ok_preserved sample_db_two_dialogs Htwo))))))).
    vm_compute. discriminate.
  - apply (Htwo 1%Z (default ∅ (user_collection sample_db_two_dialogs !! 1%Z))
             (PStr "d2")); [vm_refl|vm_refl|discriminate].
Defined.

(** C10, as the specification words it ("every core operation"), fails:
    [set_user_attribute] on the key ["current_dialog_id"] takes a store
    that satisfies the invariant to one in which user 1 points to a dialog
    that does not exist. *)
Lemma set_user_attribute_breaks_current_dialog :
  current_dialog_ok sample_db_user
  /\ exists s',
       set_user_attribute (PInt 1) "current_dialog_id" (PStr "ghost")
         sample_db_user = (Ok tt, s')
       /\ ~ current_dialog_ok s'.
Proof.
  split.
  - apply add_new_user_ok, current_dialog_ok_empty.
  - exists (snd (set_user_attribute (PInt 1) "current_dialog_id"
                   (PStr "ghost") sample_db_user)).
    split; [vm_refl|].
    intros H.
    destruct (H 1%Z
                (default ∅
                   (user_collection
                      (snd (set_user_attribute (PInt 1) "current_dialog_id"
                              (PStr "ghost") sample_db_user)) !! 1%Z))
                (PStr "ghost")) as (dlg & Hin & _);
      [vm_refl|vm_refl|discriminate|].
    exact Hin.
Qed.

(** * Further properties of the store *)

(** ** Users that are not stored, ids that are not integers *)

Lemma check_if_user_exists_absent (u : Z) (s : db) :
  user_collection s !! u = None ->
  check_if_user_exists (PInt u) true s
  = (Raise (ValueError "User {user_id} does not exist" [PInt u]), s)
  /\ check_if_user_exists (PInt u) false s = (Ok false, s).
Proof. intros H. unfold check_if_user_exists. run. now rewrite H. Qed.



(** A user id that is not an integer is refused by every method with a
    [ValueError], before the store is read, and the store stays as it was;
    [add_new_user] refuses a chat id that is not an integer in the same
    way, also for a user that is already stored. *)
Theorem non_integer_ids_are_rejected (s : db) (user_id : pyval) :
  isinstance_int user_id = false ->
  let bad {A : Type} : result A * db :=
    (Raise (ValueError "user_id must be an integer" []), s) in
  let bad_pair : result unit * db :=
    (Raise (ValueError "user_id and chat_id must be integers" []), s) in
  (forall b, check_if_user_exists user_id b s = bad)
  /\ (forall key, get_user_attribute user_id key s = bad)
  /\ (forall key v, set_user_attribute user_id key v s = bad)
  /\ (forall uuid4 now, start_new_dialog uuid4 now user_id s = bad)
  /\ (forall model a b,
         update_n_used_tokens user_id model (PInt a) (PInt b) s = bad)
  /\ (forall dialog_id, get_dialog_messages user_id dialog_id s = bad)
  /\ (forall msgs dialog_id, set_dialog_messages user_id msgs dialog_id s = bad)
  /\ (forall p, get_user_dialogs p user_id s = bad)
  /\ (forall cfg t1 t2 chat_id username first_name last_name,
         add_new_user cfg t1 t2 user_id chat_id username first_name last_name s
         = bad_pair)
  /\ (forall cfg t1 t2 u username first_name last_name,
         add_new_user cfg t1 t2 (PInt u) user_id username first_name last_name s
         = bad_pair).
Proof.
  intros Hid. cbn zeta.
  assert (Hc : forall b, check_if_user_exists user_id b s
                         = (Raise (ValueError "user_id must be an integer" []), s)).
  { intros b. unfold check_if_user_exists. now rewrite Hid. }
  assert (Hget : forall key,
             get_user_attribute user_id key s
             = (Raise (ValueError "user_id must be an integer" []), s)).
  { intros key. unfold get_user_attribute, mbind, M_bind. now rewrite Hc. }
  split; [assumption|]. split; [assumption|].
  split. { intros. unfold set_user_attribute, mbind, M_bind. now rewrite Hc. }
  split. { intros. unfold start_new_dialog, mbind, M_bind. now rewrite Hc. }
  split. { intros. unfold update_n_used_tokens, mbind, M_bind. now rewrite Hget. }
  split. { intros. unfold get_dialog_messages, mbind, M_bind. now rewrite Hc. }
  split. { intros. unfold set_dialog_messages, mbind, M_bind. now rewrite Hc. }
  split. { intros p. unfold get_user_dialogs, mbind, M_bind. now rewrite Hc. }
  split.
  - intros. unfold add_new_user. now rewrite Hid.
  - intros. unfold add_new_user. rewrite Hid. simpl. reflexivity.
Qed.

Lemma non_integer_ids_are_rejected_witness :
  get_user_dialogs index_scan (PStr "1") sample_db_user
  = (Raise (ValueError "user_id must be an integer" []), sample_db_user)
  /\ add_new_user sample_config 1 2 (PInt 1) PNone "ann" "Ann" "A" sample_db_user
     = (Raise (ValueError "user_id and chat_id must be integers" []),
        sample_db_user).
Proof.
  destruct (non_integer_ids_are_rejected sample_db_user (PStr "1") eq_refl)
    as (_ & _ & _ & _ & _ & _ & _ & Hlist & _).
  destruct (non_integer_ids_are_rejected sample_db_user PNone eq_refl)
    as (_ & _ & _ & _ & _ & _ & _ & _ & _ & Hadd).
  split; [apply Hlist|apply Hadd].
Defined.

(** ** User attributes *)

(** Writing an attribute of a stored user and reading it back gives the
    value written, for a key that names a field (no dot in it) other than
    ["_id"] and a value the driver can encode; the user's other
    attributes, the other users and the dialogs are as before. *)
Theorem set_then_get_user_attribute
    (s : db) (u : Z) (doc : gmap string pyval) (key : string) (v : pyval) :
  user_collection s !! u = Some doc ->
  path_of key = Some [key] ->
  key <> "_id" ->
  bson_encodable v = true ->
  exists s',
    set_user_attribute (PInt u) key v s = (Ok tt, s')
    /\ get_user_attribute (PInt u) key s' = (Ok v, s')
    /\ (forall key', key' <> key ->
           fst (get_user_attribute (PInt u) key' s')
           = fst (get_user_attribute (PInt u) key' s))
    /\ (forall u', u' <> u -> user_collection s' !! u' = user_collection s !! u')
    /\ dialog_collection s' = dialog_collection s.
Proof.
  intros Hu Hpath Hkey Hv. apply String.eqb_neq in Hkey.
  eexists.
  split; [apply (set_user_attribute_present u key v s doc Hu Hpath Hkey Hv)|].
  split; [|split; [|split]].
  - erewrite get_user_attribute_present; [|simpl; apply lookup_insert_eq].
    now rewrite lookup_insert_eq.
  - intros key' Hne.
    erewrite get_user_attribute_present; [|simpl; apply lookup_insert_eq].
    rewrite (get_user_attribute_present u key' s doc Hu).
    now rewrite lookup_insert_ne by auto.
  - intros u' Hne. simpl. now rewrite lookup_insert_ne by auto.
  - reflexivity.
Qed.

Lemma set_then_get_user_attribute_witness :
  exists s',
    set_user_attribute (PInt 1) "current_model" (PStr "gemini-pro")
      sample_db_user = (Ok tt, s')
    /\ get_user_attribute (PInt 1) "current_model" s' = (Ok (PStr "gemini-pro"), s')
    /\ (forall key', key' <> "current_model" ->
           fst (get_user_attribute (PInt 1) key' s')
           = fst (get_user_attribute (PInt 1) key' sample_db_user))
    /\ (forall u', u' <> 1%Z ->
           user_collection s' !! u' = user_collection sample_db_user !! u')
    /\ dialog_collection s' = dialog_collection sample_db_user.
Proof.
  apply (set_then_get_user_attribute sample_db_user 1
           (default ∅ (user_collection sample_db_user !! 1%Z))).
  - vm_refl.
  - reflexivity.
  - discriminate.
  - reflexivity.
Defined.

(** A key with a dot is a path into an embedded document for the write and
    a plain dictionary key for the read: after writing ["a.b"] on a user
    that has no field ["a"], reading ["a.b"] gives [None], and the value
    is found in the dictionary read under ["a"]. *)
Theorem set_user_attribute_dotted_key
    (s : db) (u : Z) (doc : gmap string pyval) (a b : string) (v : pyval) :
  user_collection s !! u = Some doc ->
  path_of (a +:+ "." +:+ b) = Some [a; b] ->
  a <> "_id" ->
  doc !! a = None ->
  doc !! (a +:+ "." +:+ b) = None ->
  bson_encodable v = true ->
  exists s',
    set_user_attribute (PInt u) (a +:+ "." +:+ b) v s = (Ok tt, s')
    /\ get_user_attribute (PInt u) (a +:+ "." +:+ b) s' = (Ok PNone, s')
    /\ get_user_attribute (PInt u) a s' = (Ok (PDict [(b, v)]), s').
Proof.
  intros Hu Hpath Ha Hfield Hflat Hv. apply String.eqb_neq in Ha.
  assert (Hne : a <> a +:+ "." +:+ b).
  { intros Heq. apply (f_equal String.length) in Heq.
    rewrite !length_append in Heq. simpl in Heq. lia. }
  eexists. split; [|split].
  - unfold set_user_attribute, mbind, M_bind.
    rewrite (check_if_user_exists_present u true s doc Hu).
    unfold users_update_one. rewrite Hv, Hpath, Hu, Ha, Hfield. reflexivity.
  - erewrite get_user_attribute_present; [|simpl; apply lookup_insert_eq].
    rewrite lookup_insert_ne by assumption. now rewrite Hflat.
  - erewrite get_user_attribute_present; [|simpl; apply lookup_insert_eq].
    now rewrite lookup_insert_eq.
Qed.

Lemma set_user_attribute_dotted_key_witness :
  exists s',
    set_user_attribute (PInt 1) "prefs.lang" (PStr "fa") sample_db_user
    = (Ok tt, s')
    /\ get_user_attribute (PInt 1) "prefs.lang" s' = (Ok PNone, s')
    /\ get_user_attribute (PInt 1) "prefs" s'
       = (Ok (PDict [("lang", PStr "fa")]), s').
Proof.
  apply (set_user_attribute_dotted_key sample_db_user 1
           (default ∅ (user_collection sample_db_user !! 1%Z))
           "prefs" "lang" (PStr "fa")).
  - vm_refl.
  - reflexivity.
  - discriminate.
  - vm_refl.
  - vm_refl.
  - reflexivity.
Defined.

(** A value that holds an integer outside 8 bytes is not stored: the
    driver raises and the store is as before. *)
Theorem set_user_attribute_too_big_value
    (s : db) (u : Z) (doc : gmap string pyval) (key : string) (v : pyval) :
  user_collection s !! u = Some doc ->
  bson_encodable v = false ->
  set_user_attribute (PInt u) key v s = (Raise too_big, s).
Proof. apply set_user_attribute_too_big. Qed.

Lemma set_user_attribute_too_big_value_witness :
  set_user_attribute (PInt 1) "n_generated_images" (PInt (2 ^ 63))
    sample_db_user
  = (Raise too_big, sample_db_user).
Proof.
  apply (set_user_attribute_too_big_value sample_db_user 1
           (default ∅ (user_collection sample_db_user !! 1%Z))).
  - vm_refl.
  - reflexivity.
Defined.

(** The ["_id"] of a stored user cannot be changed: setting it to another
    value raises a store error and changes nothing, and setting it to the
    id the user has changes nothing either. *)
Theorem user_id_attribute_is_immutable
    (s : db) (u : Z) (doc : gmap string pyval) (v : pyval) :
  user_collection s !! u = Some doc ->
  bson_encodable v = true ->
  (v = PInt u -> set_user_attribute (PInt u) "_id" v s = (Ok tt, s))
  /\ (v <> PInt u ->
      set_user_attribute (PInt u) "_id" v s
      = (Raise (WriteError "_id is immutable"), s)).
Proof.
  intros Hu Hv.
  assert (Hrun : set_user_attribute (PInt u) "_id" v s
                 = users_update_one (PInt u) "_id" v s).
  { unfold set_user_attribute, mbind, M_bind.
    now rewrite (check_if_user_exists_present u true s doc Hu). }
  rewrite Hrun. unfold users_update_one. rewrite Hv.
  change (path_of "_id") with (Some ["_id"]). rewrite Hu.
  cbn [negb String.eqb Ascii.eqb Bool.eqb]. split.
  - intros ->. now rewrite Z.eqb_refl.
  - intros Hne. destruct v as [|z| | | |]; try reflexivity.
    destruct (z =? u)%Z eqn:E; [|reflexivity].
    apply Z.eqb_eq in E. congruence.
Qed.

Lemma user_id_attribute_is_immutable_witness :
  set_user_attribute (PInt 1) "_id" (PInt 2) sample_db_user
  = (Raise (WriteError "_id is immutable"), sample_db_user).
Proof.
  apply (proj2 (user_id_attribute_is_immutable sample_db_user 1
                  (default ∅ (user_collection sample_db_user !! 1%Z))
                  (PInt 2) ltac:(vm_refl) eq_refl)).
  discriminate.
Defined.

(** ** Registration *)

(** Registering a user that is not stored, with a non-empty model list and
    ids that fit in 8 bytes, stores it with the defaults of the source: no
    current dialog, chat mode ["assistant"], the first configured model,
    empty usage, the chat id and name given; the user is found afterwards,
    the other users and the dialogs are as before. *)
Theorem add_new_user_stores_defaults
    (cfg : config) (t1 t2 u chat_id : Z)
    (username first_name last_name current_model : string)
    (models : list string) (s : db) :
  user_collection s !! u = None ->
  available_text_models cfg = current_model :: models ->
  int64 u = true -> int64 chat_id = true ->
  exists s',
    add_new_user cfg t1 t2 (PInt u) (PInt chat_id)
      username first_name last_name s = (Ok tt, s')
    /\ check_if_user_exists (PInt u) true s' = (Ok true, s')
    /\ get_user_attribute (PInt u) "current_dialog_id" s' = (Ok PNone, s')
    /\ get_user_attribute (PInt u) "current_chat_mode" s'
       = (Ok (PStr "assistant"), s')
    /\ get_user_attribute (PInt u) "current_model" s'
       = (Ok (PStr current_model), s')
    /\ get_user_attribute (PInt u) "chat_id" s' = (Ok (PInt chat_id), s')
    /\ get_user_attribute (PInt u) "username" s' = (Ok (PStr username), s')
    /\ (forall model, unused s' u model)
    /\ tokens_encodable s' u
    /\ (forall u', u' <> u -> user_collection s' !! u' = user_collection s !! u')
    /\ dialog_collection s' = dialog_collection s.
Proof.
  intros Hu Hmodels Hiu Hic.
  eexists. split.
  { unfold add_new_user. run. unfold check_if_user_exists. run.
    rewrite Hu. simpl. rewrite Hmodels.
    unfold users_insert_one. rewrite user_dict_encodable, Hiu, Hic, Hu.
    reflexivity. }
  split.
  { eapply check_if_user_exists_present. simpl. apply lookup_insert_eq. }
  split.
  { erewrite get_user_attribute_present; [|simpl; apply lookup_insert_eq].
    reflexivity. }
  split.
  { erewrite get_user_attribute_present; [|simpl; apply lookup_insert_eq].
    reflexivity. }
  split.
  { erewrite get_user_attribute_present; [|simpl; apply lookup_insert_eq].
    reflexivity. }
  split.
  { erewrite get_user_attribute_present; [|simpl; apply lookup_insert_eq].
    reflexivity. }
  split.
  { erewrite get_user_attribute_present; [|simpl; apply lookup_insert_eq].
    reflexivity. }
  split.
  { intros model. exists []. split; [|reflexivity].
    unfold tokens_dict. simpl. rewrite lookup_insert_eq. reflexivity. }
  split.
  { exists []. split; [|reflexivity].
    unfold tokens_dict. simpl. rewrite lookup_insert_eq. reflexivity. }
  split.
  { intros u' Hne. simpl. now rewrite lookup_insert_ne by auto. }
  reflexivity.
Qed.

Lemma add_new_user_stores_defaults_witness :
  exists s',
    add_new_user sample_config 10 11 (PInt 1) (PInt 100) "ann" "Ann" "A"
      empty_db = (Ok tt, s')
    /\ check_if_user_exists (PInt 1) true s' = (Ok true, s')
    /\ get_user_attribute (PInt 1) "current_chat_mode" s'
       = (Ok (PStr "assistant"), s')
    /\ get_user_attribute (PInt 1) "current_model" s'
       = (Ok (PStr "gemini-1.5-flash"), s').
Proof.
  destruct (add_new_user_stores_defaults sample_config 10 11 1 100
              "ann" "Ann" "A" "gemini-1.5-flash" [] empty_db)
    as (s' & Hrun & Hcheck & _ & Hmode & Hmodel & _);
    [reflexivity|reflexivity|reflexivity|reflexivity|].
  exists s'. repeat split; assumption.
Defined.

(** A user id or a chat id outside 8 bytes cannot be registered: the
    driver raises when it encodes the new document, and nothing is
    stored. *)
Theorem add_new_user_too_big
    (cfg : config) (t1 t2 u chat_id : Z)
    (username first_name last_name current_model : string)
    (models : list string) (s : db) :
  user_collection s !! u = None ->
  available_text_models cfg = current_model :: models ->
  int64 u && int64 chat_id = false ->
  add_new_user cfg t1 t2 (PInt u) (PInt chat_id) username first_name last_name s
  = (Raise too_big, s).
Proof.
  intros Hu Hmodels Hbig.
  unfold add_new_user. run. unfold check_if_user_exists. run.
  rewrite Hu. simpl. rewrite Hmodels.
  unfold users_insert_one. now rewrite user_dict_encodable, Hbig.
Qed.

Lemma add_new_user_too_big_witness :
  add_new_user sample_config 10 11 (PInt 1) (PInt (2 ^ 63)) "ann" "Ann" "A"
    empty_db
  = (Raise too_big, empty_db).
Proof.
  apply (add_new_user_too_big sample_config 10 11 1 (2 ^ 63) "ann" "Ann" "A"
           "gemini-1.5-flash" []); reflexivity.
Defined.



(** ** Dialogs and their messages *)

(** For a stored user without a current dialog and no dialog id given,
    reading the messages gives the empty list, and writing messages raises
    "No current dialog found"; neither changes the store. *)
Theorem no_current_dialog
    (s : db) (u : Z) (doc : gmap string pyval) (msgs : list turn) :
  user_collection s !! u = Some doc ->
  truthy (default PNone (doc !! "current_dialog_id")) = false ->
  get_dialog_messages (PInt u) None s = (Ok [], s)
  /\ set_dialog_messages (PInt u) msgs None s
     = (Raise (ValueError "No current dialog found" []), s).
Proof.
  intros Hu Hcur.
  unfold get_dialog_messages, set_dialog_messages, resolve_dialog_id,
    mbind, M_bind.
  rewrite (check_if_user_exists_present u true s doc Hu).
  rewrite (get_user_attribute_present u _ s doc Hu), Hcur.
  split; reflexivity.
Qed.

Lemma no_current_dialog_witness :
  get_dialog_messages (PInt 1) None sample_db_user = (Ok [], sample_db_user)
  /\ set_dialog_messages (PInt 1) [sample_turn] None sample_db_user
     = (Raise (ValueError "No current dialog found" []), sample_db_user).
Proof.
  apply (no_current_dialog sample_db_user 1
           (default ∅ (user_collection sample_db_user !! 1%Z)) [sample_turn]);
    vm_refl.
Defined.

Lemma start_new_dialog_state (uuid4 : string) (now : Z) (user_id : pyval)
    (s s' : db) (d : string) :
  start_new_dialog uuid4 now user_id s = (Ok d, s') ->
  exists (u : Z) (doc : gmap string pyval),
    user_id = PInt u
    /\ user_collection s !! u = Some doc
    /\ d = uuid4
    /\ existsb (fun d' => String.eqb (dlg_id d') uuid4) (dialog_collection s)
       = false
    /\ s' = {| user_collection :=
                 <[u := <["current_dialog_id" := PStr uuid4]> doc]>
                   (user_collection s);
               dialog_collection :=
                 dialog_collection s
                 ++ [ {| dlg_id := uuid4; dlg_user_id := u;
                         dlg_chat_mode :=
                           default PNone (doc !! "current_chat_mode");
                         dlg_start_time := now;
                         dlg_model := default PNone (doc !! "current_model");
                         dlg_messages := [] |} ] |}.
Proof.
  intros Hrun.
  destruct (start_new_dialog_steps _ _ _ _ _ _ Hrun)
    as (u & doc & s1 & Hid & Hu & Hd & Hins & Hus1 & Hds1 & Hupd & _).
  cbn zeta in *. exists u, doc.
  split; [assumption|]. split; [assumption|]. split; [assumption|].
  unfold dialogs_insert_one in Hins. cbn [dlg_id] in Hins.
  destruct (existsb _ (dialog_collection s)) eqn:Hdup; [discriminate|].
  split; [reflexivity|].
  injection Hins as <-.
  match type of Hupd with
  | users_update_one _ _ _ ?s1 = _ =>
      rewrite (users_update_one_field u "current_dialog_id" (PStr uuid4) s1
                 doc Hu eq_refl eq_refl eq_refl) in Hupd
  end.
  now injection Hupd as <-.
Qed.

Lemma find_fresh_last (l : list dialog) (dlg : dialog) :
  existsb (fun d' => String.eqb (dlg_id d') (dlg_id dlg)) l = false ->
  List.find (dialog_matches (PStr (dlg_id dlg)) (PInt (dlg_user_id dlg)))
            (l ++ [dlg])
  = Some dlg.
Proof.
  induction l as [|x l IH]; simpl.
  - intros _. now rewrite String.eqb_refl, Z.eqb_refl.
  - intros H. apply orb_false_elim in H as [Hx Hl]. rewrite Hx. simpl.
    now apply IH.
Qed.

(** Right after a successful [start_new_dialog] the history of the user's
    current dialog, and of the dialog whose id was returned, is empty. *)
Theorem start_new_dialog_history_empty
    (uuid4 : string) (now : Z) (user_id : pyval) (s s' : db) (d : string) :
  start_new_dialog uuid4 now user_id s = (Ok d, s') ->
  get_dialog_messages user_id None s' = (Ok [], s')
  /\ get_dialog_messages user_id (Some d) s' = (Ok [], s').
Proof.
  intros Hrun.
  destruct (start_new_dialog_state _ _ _ _ _ _ Hrun)
    as (u & doc & -> & Hu & -> & Hdup & Hs').
  set (dlg := {| dlg_id := uuid4; dlg_user_id := u |}) in Hs'.
  assert (Hu' : user_collection s' !! u
                = Some (<["current_dialog_id" := PStr uuid4]> doc)).
  { rewrite Hs'. simpl. apply lookup_insert_eq. }
  assert (Hfind : dialogs_find_one (PStr uuid4) (PInt u) s' = Some dlg).
  { unfold dialogs_find_one. rewrite Hs'. simpl.
    apply (find_fresh_last (dialog_collection s) dlg Hdup). }
  unfold get_dialog_messages, resolve_dialog_id, mbind, M_bind.
  rewrite (check_if_user_exists_present u true s' _ Hu').
  rewrite (get_user_attribute_present u _ s' _ Hu').
  rewrite lookup_insert_eq. unfold mret, M_ret, get_db. simpl.
  destruct (negb (negb (String.eqb uuid4 ""))); [split; reflexivity|].
  now rewrite Hfind.
Qed.

Lemma start_new_dialog_history_empty_witness :
  get_dialog_messages (PInt 1) None sample_db_two_dialogs
  = (Ok [], sample_db_two_dialogs)
  /\ get_dialog_messages (PInt 1) (Some "d2") sample_db_two_dialogs
     = (Ok [], sample_db_two_dialogs).
Proof.
  apply (start_new_dialog_history_empty "d2" 2 (PInt 1)
           (snd (start_new_dialog "d1" 1 (PInt 1) sample_db_user))
           sample_db_two_dialogs "d2").
  vm_refl.
Defined.

Lemma dialog_matches_set_messages (a b : pyval) (msgs : list turn) (d : dialog) :
  dialog_matches a b (set_messages msgs d) = dialog_matches a b d.
Proof. now destruct a, b. Qed.

Lemma find_update_first_same (p : dialog -> bool) (f : dialog -> dialog)
    (l : list dialog) (x : dialog) :
  (forall d, p (f d) = p d) ->
  List.find p l = Some x ->
  List.find p (update_first p f l) = Some (f x).
Proof.
  intros Hpf. induction l as [|d l IH]; simpl; [discriminate|].
  destruct (p d) eqn:Hd.
  - intros [= <-]. simpl. now rewrite Hpf, Hd.
  - intros H. simpl. rewrite Hd. now apply IH.
Qed.

Lemma find_update_first_other (p q : dialog -> bool) (f : dialog -> dialog)
    (l : list dialog) :
  (forall d, p d = true -> q d = false) ->
  (forall d, q (f d) = q d) ->
  List.find q (update_first p f l) = List.find q l.
Proof.
  intros Hpq Hqf. induction l as [|d l IH]; simpl; [reflexivity|].
  destruct (p d) eqn:Hd; simpl.
  - now rewrite Hqf, (Hpq d Hd).
  - now rewrite IH.
Qed.

(** Writing the messages of a dialog the user owns and reading them back
    gives the messages written, whether the dialog is named or is the
    user's current dialog; the user documents are as before. *)
Theorem set_then_get_dialog_messages
    (s : db) (u : Z) (doc : gmap string pyval) (d : string) (dlg : dialog)
    (msgs : list turn) (dialog_id : option string) :
  user_collection s !! u = Some doc ->
  dialog_id = Some d
  \/ (dialog_id = None /\ doc !! "current_dialog_id" = Some (PStr d)) ->
  d <> "" ->
  dialogs_find_one (PStr d) (PInt u) s = Some dlg ->
  exists s',
    set_dialog_messages (PInt u) msgs dialog_id s = (Ok tt, s')
    /\ get_dialog_messages (PInt u) dialog_id s' = (Ok msgs, s')
    /\ user_collection s' = user_collection s.
Proof.
  intros Hu Hid Hd Hfind. apply String.eqb_neq in Hd.
  assert (Hres : forall s0,
             user_collection s0 = user_collection s ->
             resolve_dialog_id (PInt u) dialog_id s0 = (Ok (PStr d), s0)).
  { intros s0 Hs0. destruct Hid as [->|[-> Hcur]]; [reflexivity|].
    unfold resolve_dialog_id.
    rewrite (get_user_attribute_present u _ s0 doc) by now rewrite Hs0.
    now rewrite Hcur. }
  eexists. split; [|split].
  - unfold set_dialog_messages, mbind, M_bind.
    rewrite (check_if_user_exists_present u true s doc Hu).
    rewrite (Hres s eq_refl). simpl. rewrite Hd. simpl. reflexivity.
  - unfold get_dialog_messages, mbind, M_bind.
    erewrite check_if_user_exists_present by exact Hu.
    rewrite Hres by reflexivity. simpl. rewrite Hd. simpl.
    unfold dialogs_find_one in *. simpl.
    rewrite (find_update_first_same _ _ _ dlg
               (dialog_matches_set_messages _ _ msgs) Hfind).
    reflexivity.
  - reflexivity.
Qed.

Lemma set_then_get_dialog_messages_witness :
  exists s',
    set_dialog_messages (PInt 1) [sample_turn] None sample_db_two_dialogs
    = (Ok tt, s')
    /\ get_dialog_messages (PInt 1) None s' = (Ok [sample_turn], s')
    /\ user_collection s' = user_collection sample_db_two_dialogs.
Proof.
  apply (set_then_get_dialog_messages sample_db_two_dialogs 1
           (default ∅ (user_collection sample_db_two_dialogs !! 1%Z)) "d2"
           {| dlg_id := "d2"; dlg_user_id := 1; dlg_start_time := 2;
              dlg_chat_mode := PStr "assistant";
              dlg_model := PStr "gemini-1.5-flash"; dlg_messages := [] |}
           [sample_turn] None).
  - vm_refl.
  - right. split; [reflexivity|vm_refl].
  - discriminate.
  - vm_refl.
Defined.

Lemma map_project_update_first (p : dialog -> bool) (msgs : list turn)
    (l : list dialog) :
  map project (update_first p (set_messages msgs) l) = map project l.
Proof.
  induction l as [|d l IH]; simpl; [reflexivity|].
  destruct (p d); simpl; [reflexivity|now rewrite IH].
Qed.

Lemma filter_owned_update_first (p : dialog -> bool) (msgs : list turn)
    (user_id : pyval) (l : list dialog) :
  map project (List.filter (owned_by user_id)
                 (update_first p (set_messages msgs) l))
  = map project (List.filter (owned_by user_id) l).
Proof.
  induction l as [|d l IH]; simpl; [reflexivity|].
  destruct (p d); simpl.
  - replace (owned_by user_id (set_messages msgs d)) with (owned_by user_id d)
      by now destruct user_id.
    now destruct (owned_by user_id d).
  - destruct (owned_by user_id d); simpl; now rewrite IH.
Qed.

Lemma set_dialog_messages_effect (user_id : pyval) (msgs : list turn)
    (dialog_id : option string) (s : db) :
  snd (set_dialog_messages user_id msgs dialog_id s) = s
  \/ exists resolved,
       snd (set_dialog_messages user_id msgs dialog_id s)
       = {| user_collection := user_collection s;
            dialog_collection :=
              update_first (dialog_matches resolved user_id)
                           (set_messages msgs) (dialog_collection s) |}.
Proof.
  unfold set_dialog_messages. rewrite snd_bind.
  pose proof (check_if_user_exists_state user_id true s) as Hc.
  destruct (check_if_user_exists user_id true s) as [[r|e] s1]; simpl in Hc;
    subst s1; [|now left].
  rewrite snd_bind.
  pose proof (resolve_dialog_id_state user_id dialog_id s) as Hr.
  destruct (resolve_dialog_id user_id dialog_id s) as [[d|e] s1]; simpl in Hr;
    subst s1; [|now left].
  destruct (negb (truthy d)); [now left|].
  right. now exists d.
Qed.

Lemma check_if_user_exists_same_users (user_id : pyval) (b : bool) (s s' : db) :
  user_collection s' = user_collection s ->
  fst (check_if_user_exists user_id b s') = fst (check_if_user_exists user_id b s).
Proof.
  intros H. unfold check_if_user_exists.
  destruct user_id; simpl; try reflexivity. run. rewrite H.
  destruct (user_collection s !! z); [reflexivity|]. now destruct b.
Qed.

(** [set_dialog_messages] changes messages only: whatever its arguments,
    the user documents and the metadata of every dialog (id, owner's
    listing, start time, chat mode, model) are as before, so
    [get_user_dialogs] answers the same for every user. *)
Theorem set_dialog_messages_keeps_metadata
    (user_id : pyval) (msgs : list turn) (dialog_id : option string) (s : db) :
  let s' := snd (set_dialog_messages user_id msgs dialog_id s) in
  user_collection s' = user_collection s
  /\ map project (dialog_collection s') = map project (dialog_collection s)
  /\ map dlg_user_id (dialog_collection s')
     = map dlg_user_id (dialog_collection s)
  /\ forall p user_id',
       fst (get_user_dialogs p user_id' s')
       = fst (get_user_dialogs p user_id' s).
Proof.
  cbn zeta.
  destruct (set_dialog_messages_effect user_id msgs dialog_id s)
    as [->|[resolved ->]]; [repeat split; reflexivity|].
  simpl. split; [reflexivity|]. split; [apply map_project_update_first|].
  split.
  - induction (dialog_collection s) as [|d l IH]; simpl; [reflexivity|].
    destruct (dialog_matches resolved user_id d); simpl;
      [reflexivity|now rewrite IH].
  - intros p user_id'. unfold get_user_dialogs, mbind, M_bind.
    pose proof (check_if_user_exists_same_users user_id' true s
                  {| user_collection := user_collection s;
                     dialog_collection :=
                       update_first (dialog_matches resolved user_id)
                         (set_messages msgs) (dialog_collection s) |}
                  eq_refl) as Hc.
    pose proof (check_if_user_exists_state user_id' true s) as Hs.
    pose proof (check_if_user_exists_state user_id' true
                  {| user_collection := user_collection s;
                     dialog_collection :=
                       update_first (dialog_matches resolved user_id)
                         (set_messages msgs) (dialog_collection s) |}) as Hs'.
    destruct (check_if_user_exists user_id' true s) as [[r|e] s1];
      destruct (check_if_user_exists user_id' true _) as [[r'|e'] s2];
      simpl in *; try discriminate; subst; [|congruence].
    unfold dialogs_find. simpl. f_equal.
    destruct p; [apply filter_owned_update_first|].
    apply index_order_project, filter_owned_update_first.
Qed.

Lemma get_dialog_messages_congr (u : Z) (d : string) (s s' : db) :
  user_collection s' = user_collection s ->
  dialogs_find_one (PStr d) (PInt u) s' = dialogs_find_one (PStr d) (PInt u) s ->
  fst (get_dialog_messages (PInt u) (Some d) s')
  = fst (get_dialog_messages (PInt u) (Some d) s).
Proof.
  intros Hus Hfind. unfold get_dialog_messages, check_if_user_exists. run.
  rewrite Hus. destruct (user_collection s !! u); simpl; [|reflexivity].
  destruct (negb (negb (String.eqb d ""))); [reflexivity|].
  rewrite Hfind. now destruct (dialogs_find_one (PStr d) (PInt u) s).
Qed.

(** Writing the messages of one dialog leaves the messages of every other
    dialog as they were: for another dialog id or another user,
    [get_dialog_messages] answers after the write what it answered
    before. *)
Theorem set_dialog_messages_spares_other_dialogs
    (s : db) (u u' : Z) (d d' : string) (msgs : list turn) :
  d' <> d \/ u' <> u ->
  fst (get_dialog_messages (PInt u') (Some d')
         (snd (set_dialog_messages (PInt u) msgs (Some d) s)))
  = fst (get_dialog_messages (PInt u') (Some d') s).
Proof.
  intros Hne.
  assert (Hs' : snd (set_dialog_messages (PInt u) msgs (Some d) s) = s
                \/ snd (set_dialog_messages (PInt u) msgs (Some d) s)
                   = {| user_collection := user_collection s;
                        dialog_collection :=
                          update_first (dialog_matches (PStr d) (PInt u))
                            (set_messages msgs) (dialog_collection s) |}).
  { unfold set_dialog_messages. rewrite snd_bind.
    pose proof (check_if_user_exists_state (PInt u) true s) as Hc.
    destruct (check_if_user_exists (PInt u) true s) as [[r|e] s1]; simpl in Hc;
      subst s1; [|now left].
    rewrite snd_bind. simpl.
    destruct (negb (negb (String.eqb d ""))); [now left|now right]. }
  destruct Hs' as [->|Hs']; [reflexivity|].
  rewrite Hs'. apply get_dialog_messages_congr; [reflexivity|].
  unfold dialogs_find_one. simpl. apply find_update_first_other.
  - intros x Hx. simpl in Hx |- *.
    apply andb_prop in Hx as [Hi Ho].
    apply String.eqb_eq in Hi. apply Z.eqb_eq in Ho.
    destruct Hne as [Hd|Hu].
    + rewrite Hi. apply String.eqb_neq in Hd. rewrite String.eqb_sym.
      now rewrite Hd.
    + rewrite Ho. apply Z.eqb_neq in Hu.
      rewrite Z.eqb_sym, Hu. apply andb_false_r.
  - intros x. apply dialog_matches_set_messages.
Qed.

Lemma set_dialog_messages_spares_other_dialogs_witness :
  fst (get_dialog_messages (PInt 1) (Some "d1")
         (snd (set_dialog_messages (PInt 1) [sample_turn] (Some "d2")
                 sample_db_two_dialogs)))
  = fst (get_dialog_messages (PInt 1) (Some "d1") sample_db_two_dialogs).
Proof.
  apply set_dialog_messages_spares_other_dialogs. left. discriminate.
Defined.

(** A dialog id that is already stored is refused: [start_new_dialog]
    raises the store's duplicate-key error and changes nothing, so the
    user's current dialog stays what it was. *)
Theorem start_new_dialog_duplicate_id
    (s : db) (u : Z) (doc : gmap string pyval) (dlg : dialog)
    (uuid4 : string) (now : Z) :
  user_collection s !! u = Some doc ->
  In dlg (dialog_collection s) ->
  dlg_id dlg = uuid4 ->
  start_new_dialog uuid4 now (PInt u) s
  = (Raise (DuplicateKeyError (PStr uuid4)), s).
Proof.
  intros Hu Hin Hid.
  unfold start_new_dialog, mbind, M_bind.
  rewrite (check_if_user_exists_present u true s doc Hu).
  rewrite !(get_user_attribute_present u _ s doc Hu).
  unfold dialogs_insert_one. cbn [dlg_id].
  replace (existsb _ (dialog_collection s)) with true; [reflexivity|].
  symmetry. apply existsb_exists. exists dlg. split; [assumption|].
  now apply String.eqb_eq.
Qed.

Lemma start_new_dialog_duplicate_id_witness :
  start_new_dialog "d1" 3 (PInt 1) sample_db_two_dialogs
  = (Raise (DuplicateKeyError (PStr "d1")), sample_db_two_dialogs).
Proof.
  apply (start_new_dialog_duplicate_id sample_db_two_dialogs 1
           (default ∅ (user_collection sample_db_two_dialogs !! 1%Z))
           {| dlg_id := "d1"; dlg_user_id := 1; dlg_start_time := 1;
              dlg_chat_mode := PStr "assistant";
              dlg_model := PStr "gemini-1.5-flash"; dlg_messages := [] |}).
  - vm_refl.
  - left. vm_refl.
  - reflexivity.
Defined.

(** A successful [start_new_dialog] returns the id it drew, makes it the
    user's current dialog, and adds one dialog to the user's list: its
    metadata are the id, the time of the call and the chat mode and model
    the user had at that moment.  On a scan of the collection it comes
    last; whatever the plan, the list is the old one and the new record,
    in some order.  The lists of the other users are as before. *)
Theorem start_new_dialog_appends
    (uuid4 : string) (now u : Z) (s s' : db) (d : string) :
  start_new_dialog uuid4 now (PInt u) s = (Ok d, s') ->
  exists doc,
    let meta := {| meta_id := uuid4; meta_start_time := now;
                   meta_chat_mode := default PNone (doc !! "current_chat_mode");
                   meta_model := default PNone (doc !! "current_model") |} in
    user_collection s !! u = Some doc
    /\ d = uuid4
    /\ get_user_attribute (PInt u) "current_dialog_id" s' = (Ok (PStr d), s')
    /\ get_user_dialogs collection_scan (PInt u) s'
       = (Ok (dialogs_find collection_scan (PInt u) s ++ [meta]), s')
    /\ (forall p,
           get_user_dialogs p (PInt u) s' = (Ok (dialogs_find p (PInt u) s'), s')
           /\ dialogs_find p (PInt u) s' ≡ₚ dialogs_find p (PInt u) s ++ [meta])
    /\ forall p u', u' <> u ->
         dialogs_find p (PInt u') s' = dialogs_find p (PInt u') s.
Proof.
  intros Hrun.
  destruct (start_new_dialog_state _ _ _ _ _ _ Hrun)
    as (u0 & doc & [= <-] & Hu & -> & Hdup & Hs').
  exists doc. cbn zeta. split; [assumption|]. split; [reflexivity|].
  assert (Hu' : user_collection s' !! u
                = Some (<["current_dialog_id" := PStr uuid4]> doc)).
  { rewrite Hs'. simpl. apply lookup_insert_eq. }
  assert (Hget : forall p,
             get_user_dialogs p (PInt u) s' = (Ok (dialogs_find p (PInt u) s'), s')).
  { intros p. unfold get_user_dialogs, mbind, M_bind.
    now rewrite (check_if_user_exists_present u true s' _ Hu'). }
  assert (Hscan : dialogs_find collection_scan (PInt u) s'
                  = dialogs_find collection_scan (PInt u) s
                    ++ [ {| meta_id := uuid4; meta_start_time := now;
                            meta_chat_mode :=
                              default PNone (doc !! "current_chat_mode");
                            meta_model :=
                              default PNone (doc !! "current_model") |} ]).
  { unfold dialogs_find. rewrite Hs'. simpl.
    rewrite List.filter_app, map_app. simpl. now rewrite Z.eqb_refl. }
  split; [|split; [|split]].
  - rewrite (get_user_attribute_present u _ s' _ Hu').
    now rewrite lookup_insert_eq.
  - now rewrite Hget, Hscan.
  - intros p. split; [apply Hget|].
    rewrite (dialogs_find_perm p (PInt u) s'), Hscan.
    now rewrite (dialogs_find_perm p (PInt u) s).
  - intros p u' Hne. unfold dialogs_find. rewrite Hs'. simpl.
    rewrite List.filter_app. simpl.
    apply Z.eqb_neq in Hne. rewrite Z.eqb_sym in Hne. rewrite Hne. simpl.
    now rewrite app_nil_r.
Qed.

Lemma start_new_dialog_appends_witness :
  exists doc,
    let meta := {| meta_id := "d3"; meta_start_time := 0;
                   meta_chat_mode := default PNone (doc !! "current_chat_mode");
                   meta_model := default PNone (doc !! "current_model") |} in
    let s' := snd (start_new_dialog "d3" 0 (PInt 1) sample_db_two_dialogs) in
    user_collection sample_db_two_dialogs !! 1%Z = Some doc
    /\ "d3" = "d3"
    /\ get_user_attribute (PInt 1) "current_dialog_id" s' = (Ok (PStr "d3"), s')
    /\ get_user_dialogs collection_scan (PInt 1) s'
       = (Ok (dialogs_find collection_scan (PInt 1) sample_db_two_dialogs
              ++ [meta]), s')
    /\ (forall p,
           get_user_dialogs p (PInt 1) s' = (Ok (dialogs_find p (PInt 1) s'), s')
           /\ dialogs_find p (PInt 1) s'
              ≡ₚ dialogs_find p (PInt 1) sample_db_two_dialogs ++ [meta])
    /\ forall p u', u' <> 1%Z ->
         dialogs_find p (PInt u') s'
         = dialogs_find p (PInt u') sample_db_two_dialogs.
Proof.
  apply (start_new_dialog_appends "d3" 0 1 sample_db_two_dialogs
           (snd (start_new_dialog "d3" 0 (PInt 1) sample_db_two_dialogs)) "d3").
  vm_refl.
Defined.

(** ** Calls that raise, and what a call can change *)


Lemma users_update_one_effect (id : pyval) (key : string) (v : pyval) (s : db) :
  effect s (snd (users_update_one id key v s)).
Proof.
  destruct (users_update_one_cases id key v s)
    as [->|(u & doc & field & rest & x & _ & Hu & _ & Hf & Henc & ->)];
    [now left|].
  right. right. left. now exists u, doc, field, x.
Qed.


Lemma set_user_attribute_effect (user_id : pyval) (key : string) (v : pyval)
    (s : db) :
  effect s (snd (set_user_attribute user_id key v s)).
Proof.
  unfold set_user_attribute. rewrite snd_bind.
  pose proof (check_if_user_exists_state user_id true s) as Hc.
  destruct (check_if_user_exists user_id true s) as [[r|e0] s1]; simpl in Hc;
    subst s1; [|now left].
  apply users_update_one_effect.
Qed.

Lemma add_new_user_cases (cfg : config) (t1 t2 : Z) (user_id chat_id : pyval)
    (username first_name last_name : string) (s : db) :
  let r := add_new_user cfg t1 t2 user_id chat_id
             username first_name last_name s in
  snd r = s
  \/ (fst r = Ok tt
      /\ exists u doc,
           user_collection s !! u = None
           /\ doc !! "_id" = Some (PInt u)
           /\ doc_encodable doc
           /\ snd r = {| user_collection := <[u := doc]> (user_collection s);
                         dialog_collection := dialog_collection s |}).
Proof.
  cbn zeta. unfold add_new_user.
  destruct (negb (isinstance_int user_id) || negb (isinstance_int chat_id));
    [now left|].
  unfold mbind, M_bind.
  pose proof (check_if_user_exists_state user_id false s) as Hc.
  destruct (check_if_user_exists user_id false s) as [[r|e] s1]; simpl in Hc;
    subst s1; [|now left].
  destruct r; [now left|]. simpl.
  destruct user_id as [|u| | | |]; try now left.
  destruct (available_text_models cfg) as [|m0 models]; [now left|].
  unfold users_insert_one.
  destruct (bson_encodable _) eqn:Henc; [|now left]. cbn [negb].
  destruct (user_collection s !! u) eqn:Hu; [now left|].
  right. split; [reflexivity|].
  match goal with
  | |- context [<[u := ?d]> (user_collection s)] => exists u, d
  end.
  split; [assumption|]. split; [reflexivity|].
  split; [exact (list_to_map_encodable _ Henc)|reflexivity].
Qed.

Lemma start_new_dialog_raise (uuid4 : string) (now : Z) (user_id : pyval)
    (s s' : db) (e : exn) :
  start_new_dialog uuid4 now user_id s = (Raise e, s') -> s' = s.
Proof.
  unfold start_new_dialog. unfold mbind at 1. unfold M_bind at 1.
  destruct (check_if_user_exists user_id true s) as [[r|e0] s0] eqn:Hc.
  - destruct (check_if_user_exists_ok _ _ _ _ _ Hc)
      as (-> & u & -> & Hsome & Hr).
    rewrite (Hr eq_refl) in Hsome. destruct (Hsome eq_refl) as [doc Hu].
    unfold mbind at 1. unfold M_bind at 1.
    rewrite (get_user_attribute_present u _ s doc Hu).
    unfold mbind at 1. unfold M_bind at 1.
    rewrite (get_user_attribute_present u _ s doc Hu).
    unfold mbind at 1. unfold M_bind at 1.
    unfold dialogs_insert_one at 1. cbn [dlg_id].
    destruct (existsb _ (dialog_collection s)); [now intros [= _ <-]|].
    unfold mbind, M_bind.
    match goal with
    | |- context [users_update_one _ _ _ ?s1] =>
        rewrite (users_update_one_field u "current_dialog_id" (PStr uuid4) s1
                   doc Hu eq_refl eq_refl eq_refl)
    end.
    discriminate.
  - pose proof (check_if_user_exists_state user_id true s) as Hs.
    rewrite Hc in Hs. simpl in Hs. now intros [= _ <-].
Qed.


Lemma update_n_used_tokens_effect (user_id : pyval) (model : string)
    (n_in n_out : pyval) (s : db) :
  effect s (snd (update_n_used_tokens user_id model n_in n_out s)).
Proof.
  unfold update_n_used_tokens.
  destruct n_in as [|a| | | |]; try now left.
  destruct n_out as [|b| | | |]; try now left.
  rewrite snd_bind.
  pose proof (get_user_attribute_state user_id "n_used_tokens" s) as Hg.
  destruct (get_user_attribute user_id "n_used_tokens" s) as [[stored|e0] s1];
    simpl in Hg; subst s1; [|now left].
  destruct (add_tokens _ model a b) as [d'|e0]; [|now left].
  apply set_user_attribute_effect.
Qed.




Lemma run_call_effect (c : call) (s : db) : effect s (snd (run_call c s)).
Proof.
  destruct c; simpl.
  - left. apply check_if_user_exists_state.
  - destruct (add_new_user_cases cfg t1 t2 user_id chat_id
                username first_name last_name s)
      as [Hs|[_ (u & doc & Hu & Hid & Henc & Hs)]]; cbn zeta in Hs; rewrite Hs.
    + now left.
    + right. left. now exists u, doc.
  - destruct (start_new_dialog uuid4 now user_id s) as [[d|e] s'] eqn:Hrun;
      simpl.
    + destruct (start_new_dialog_state _ _ _ _ _ _ Hrun)
        as (u & doc & _ & Hu & _ & Hdup & ->).
      do 4 right.
      exists u, doc, "current_dialog_id", (PStr uuid4),
        {| dlg_id := uuid4; dlg_user_id := u;
           dlg_chat_mode := default PNone (doc !! "current_chat_mode");
           dlg_start_time := now;
           dlg_model := default PNone (doc !! "current_model");
           dlg_messages := [] |}.
      split; [exact Hu|]. split; [discriminate|]. split; [reflexivity|].
      split; [reflexivity|]. split; [exact Hdup|reflexivity].
    + left. now apply (start_new_dialog_raise _ _ _ _ _ _ Hrun).
  - left. apply get_user_attribute_state.
  - apply set_user_attribute_effect.
  - apply update_n_used_tokens_effect.
  - left. apply get_dialog_messages_state.
  - destruct (set_dialog_messages_effect user_id dialog_messages dialog_id s)
      as [->|[resolved ->]]; [now left|].
    do 3 right. left. now eexists _, _.
  - left. apply get_user_dialogs_state.
Qed.

Lemma map_dlg_id_update_first (p : dialog -> bool) (msgs : list turn)
    (l : list dialog) :
  map dlg_id (update_first p (set_messages msgs) l) = map dlg_id l.
Proof.
  induction l as [|d l IH]; simpl; [reflexivity|].
  destruct (p d); simpl; [reflexivity|now rewrite IH].
Qed.

Lemma effect_metadata_grows (s s' : db) : effect s s' -> metadata_grows s s'.
Proof.
  intros [->|[(u & doc & _ & _ & _ & ->)|[(u & doc & key & v & _ & _ & _ & ->)
         |[(p & msgs & ->)
          |(u & doc & key & v & dlg & _ & _ & _ & _ & _ & ->)]]]];
    unfold metadata_grows; simpl.
  - exists []. now rewrite app_nil_r.
  - exists []. now rewrite app_nil_r.
  - exists []. now rewrite app_nil_r.
  - exists []. now rewrite app_nil_r, map_project_update_first.
  - exists [project dlg]. now rewrite map_app.
Qed.

Lemma effect_users_kept (s s' : db) (u : Z) :
  effect s s' ->
  is_Some (user_collection s !! u) -> is_Some (user_collection s' !! u).
Proof.
  intros [->|[(u0 & doc & _ & _ & _ & ->)|[(u0 & doc & key & v & _ & _ & _ & ->)
         |[(p & msgs & ->)
          |(u0 & doc & key & v & dlg & _ & _ & _ & _ & _ & ->)]]]];
    simpl; try easy; intros H;
    (destruct (decide (u0 = u)) as [->|Hne];
     [rewrite lookup_insert_eq; eauto|now rewrite lookup_insert_ne]).
Qed.

(** No call removes or rewrites what identifies a dialog: after any call
    the metadata of the dialogs stored before are still there, unchanged
    and in the same order, followed by those of new dialogs; and no call
    removes a user. *)
Theorem calls_only_add (c : call) (s : db) :
  metadata_grows s (snd (run_call c s))
  /\ forall u, is_Some (user_collection s !! u) ->
               is_Some (user_collection (snd (run_call c s)) !! u).
Proof.
  split.
  - apply effect_metadata_grows, run_call_effect.
  - intros u. apply effect_users_kept, run_call_effect.
Qed.

Lemma effect_dialog_ids_unique (s s' : db) :
  effect s s' -> dialog_ids_unique s -> dialog_ids_unique s'.
Proof.
  unfold dialog_ids_unique.
  intros [->|[(u & doc & _ & _ & _ & ->)|[(u & doc & key & v & _ & _ & _ & ->)
         |[(p & msgs & ->)
          |(u & doc & key & v & dlg & _ & _ & _ & _ & Hdup & ->)]]]];
    simpl; try easy.
  - now rewrite map_dlg_id_update_first.
  - intros Hnd. rewrite map_app. apply NoDup_app.
    split; [assumption|]. split; [|apply NoDup_singleton].
    intros i Hi Hi'. apply list_elem_of_In in Hi, Hi'.
    destruct Hi' as [<-|[]]. apply in_map_iff in Hi as (d' & Hid & Hin).
    assert (Hex : existsb (fun d' => String.eqb (dlg_id d') (dlg_id dlg))
                    (dialog_collection s) = true).
    { apply existsb_exists. exists d'. split; [assumption|].
      now apply String.eqb_eq. }
    congruence.
Qed.

Lemma effect_user_ids_consistent (s s' : db) :
  effect s s' -> user_ids_consistent s -> user_ids_consistent s'.
Proof.
  unfold user_ids_consistent.
  intros [->|[(u & doc & _ & Hid & _ & ->)|[(u & doc & key & v & Hu & Hk & _ & ->)
         |[(p & msgs & ->)
          |(u & doc & key & v & dlg & Hu & Hk & _ & _ & _ & ->)]]]]
    Hs u' doc'; simpl; try apply Hs.
  - destruct (decide (u = u')) as [<-|Hne].
    + rewrite lookup_insert_eq. now intros [= <-].
    + rewrite lookup_insert_ne by assumption. apply Hs.
  - destruct (decide (u = u')) as [<-|Hne].
    + rewrite lookup_insert_eq. intros [= <-].
      rewrite lookup_insert_ne by assumption. now apply Hs.
    + rewrite lookup_insert_ne by assumption. apply Hs.
  - destruct (decide (u = u')) as [<-|Hne].
    + rewrite lookup_insert_eq. intros [= <-].
      rewrite lookup_insert_ne by assumption. now apply Hs.
    + rewrite lookup_insert_ne by assumption. apply Hs.
Qed.

Lemma in_update_first_owner (p : dialog -> bool) (msgs : list turn)
    (l : list dialog) (dlg : dialog) :
  In dlg (update_first p (set_messages msgs) l) ->
  exists dlg0, In dlg0 l /\ dlg_user_id dlg0 = dlg_user_id dlg.
Proof.
  induction l as [|d l IH]; simpl; [contradiction|].
  destruct (p d); simpl.
  - intros [<-|Hin]; [exists d|exists dlg]; simpl; auto.
  - intros [<-|Hin]; [exists d; auto|].
    destruct (IH Hin) as (dlg0 & Hin0 & Ho). exists dlg0. auto.
Qed.

Lemma effect_dialog_owners_exist (s s' : db) :
  effect s s' -> dialog_owners_exist s -> dialog_owners_exist s'.
Proof.
  intros Heff Hs dlg Hin.
  assert (Hold : forall dlg0, In dlg0 (dialog_collection s) ->
                   is_Some (user_collection s' !! dlg_user_id dlg0)).
  { intros dlg0 Hin0. apply (effect_users_kept s s' _ Heff). now apply Hs. }
  destruct Heff as [->|[(u & doc & _ & _ & _ & ->)
         |[(u & doc & key & v & _ & _ & _ & ->)
         |[(p & msgs & ->)
          |(u & doc & key & v & dlg1 & Hu & _ & _ & Ho & _ & ->)]]]];
    simpl in *; try now apply Hold.
  - destruct (in_update_first_owner _ _ _ _ Hin) as (dlg0 & Hin0 & <-).
    now apply Hold.
  - apply in_app_or in Hin as [Hin|[<-|[]]]; [now apply Hold|].
    rewrite Ho, lookup_insert_eq. eauto.
Qed.

Lemma reachable_ind_inv (P : db -> Prop) :
  P empty_db ->
  (forall s s', effect s s' -> P s -> P s') ->
  forall s, reachable s -> P s.
Proof.
  intros H0 Hstep s [calls ->]. unfold run_calls.
  assert (Hgen : forall s0, P s0 ->
                   P (fold_left (fun s c => snd (run_call c s)) calls s0)).
  { induction calls as [|c calls IH]; intros s0 Hs0; simpl; [assumption|].
    apply IH. apply (Hstep s0); [apply run_call_effect|assumption]. }
  now apply Hgen.
Qed.

(** In every store that calls of the methods build from the empty store,
    no two dialogs have the same id. *)
Theorem reachable_dialog_ids_unique (s : db) :
  reachable s -> dialog_ids_unique s.
Proof.
  apply reachable_ind_inv.
  - constructor.
  - apply effect_dialog_ids_unique.
Qed.

Lemma reachable_dialog_ids_unique_witness :
  dialog_ids_unique sample_db_two_dialogs.
Proof.
  apply reachable_dialog_ids_unique.
  exists [ Call_add_new_user sample_config 10 11 (PInt 1) (PInt 100)
             "ann" "Ann" "A";
           Call_start_new_dialog "d1" 1 (PInt 1);
           Call_start_new_dialog "d2" 2 (PInt 1) ].
  vm_refl.
Defined.

(** In every store that calls of the methods build from the empty store,
    every user document holds under ["_id"] the id it is stored under,
    and the owner of every dialog is a stored user. *)
Theorem reachable_ids_consistent (s : db) :
  reachable s -> user_ids_consistent s /\ dialog_owners_exist s.
Proof.
  intros Hr. split; revert s Hr; apply reachable_ind_inv.
  - intros u doc H. simpl in H. now rewrite lookup_empty in H.
  - apply effect_user_ids_consistent.
  - intros dlg [].
  - apply effect_dialog_owners_exist.
Qed.

Lemma reachable_ids_consistent_witness :
  user_ids_consistent sample_db_two_dialogs
  /\ dialog_owners_exist sample_db_two_dialogs.
Proof.
  apply reachable_ids_consistent.
  exists [ Call_add_new_user sample_config 10 11 (PInt 1) (PInt 100)
             "ann" "Ann" "A";
           Call_start_new_dialog "d1" 1 (PInt 1);
           Call_start_new_dialog "d2" 2 (PInt 1) ].
  vm_refl.
Defined.

Lemma effect_docs_encodable (s s' : db) :
  effect s s' -> docs_encodable s -> docs_encodable s'.
Proof.
  intros [->|[(u & doc & _ & _ & Henc & ->)
         |[(u & doc & key & v & Hu & _ & Henc & ->)
         |[(p & msgs & ->)
          |(u & doc & key & v & dlg & Hu & _ & Henc & _ & _ & ->)]]]]
    Hs u' doc'; simpl; try apply Hs.
  - destruct (decide (u = u')) as [<-|Hne].
    + rewrite lookup_insert_eq. now intros [= <-].
    + rewrite lookup_insert_ne by assumption. apply Hs.
  - destruct (decide (u = u')) as [<-|Hne].
    + rewrite lookup_insert_eq. intros [= <-] k w.
      destruct (decide (key = k)) as [<-|Hk].
      * rewrite lookup_insert_eq. intros [= <-]. apply Henc, (Hs u doc Hu).
      * rewrite lookup_insert_ne by assumption. apply (Hs u doc Hu).
    + rewrite lookup_insert_ne by assumption. apply Hs.
  - destruct (decide (u = u')) as [<-|Hne].
    + rewrite lookup_insert_eq. intros [= <-] k w.
      destruct (decide (key = k)) as [<-|Hk].
      * rewrite lookup_insert_eq. intros [= <-]. apply Henc, (Hs u doc Hu).
      * rewrite lookup_insert_ne by assumption. apply (Hs u doc Hu).
    + rewrite lookup_insert_ne by assumption. apply Hs.
Qed.

(** In every store that calls of the methods build from the empty store,
    every value of every user document is one the driver can encode: no
    integer outside 8 bytes is stored.  So the usage dictionary that
    [update_n_used_tokens] reads is one it can encode. *)
Theorem reachable_documents_encodable (s : db) :
  reachable s ->
  docs_encodable s
  /\ (forall u d, tokens_dict s u = Some d -> tokens_encodable s u).
Proof.
  intros Hr.
  assert (Hdocs : docs_encodable s).
  { revert s Hr. apply reachable_ind_inv.
    - intros u doc H. simpl in H. now rewrite lookup_empty in H.
    - apply effect_docs_encodable. }
  split; [assumption|].
  intros u d Hd. exists d. split; [assumption|].
  unfold tokens_dict in Hd.
  destruct (user_collection s !! u) as [doc|] eqn:Hu; [|discriminate].
  cbn zeta in Hd.
  destruct (doc !! "n_used_tokens") as [stored|] eqn:Hstored; simpl in Hd.
  - destruct (truthy stored).
    + destruct stored as [| | | | |d0]; try discriminate.
      injection Hd as <-. exact (Hdocs u doc Hu _ _ Hstored).
    + now injection Hd as <-.
  - now injection Hd as <-.
Qed.

Lemma reachable_documents_encodable_witness :
  docs_encodable sample_db_tokens
  /\ (forall u d, tokens_dict sample_db_tokens u = Some d ->
                  tokens_encodable sample_db_tokens u).
Proof.
  apply reachable_documents_encodable.
  exists [ Call_add_new_user sample_config 10 11 (PInt 1) (PInt 100)
             "ann" "Ann" "A";
           Call_update_n_used_tokens (PInt 1) "m" (PInt 7) (PInt 4) ].
  vm_refl.
Defined.

Lemma calls_only_add_witness :
  metadata_grows sample_db_user
    (snd (run_call (Call_start_new_dialog "d1" 1 (PInt 1)) sample_db_user))
  /\ is_Some (user_collection
                (snd (run_call (Call_start_new_dialog "d1" 1 (PInt 1))
                        sample_db_user)) !! 1%Z).
Proof.
  destruct (calls_only_add (Call_start_new_dialog "d1" 1 (PInt 1))
              sample_db_user) as [Hgrow Hkeep].
  split; [exact Hgrow|]. apply Hkeep.
  exists (default ∅ (user_collection sample_db_user !! 1%Z)). vm_refl.
Defined.

(** ** Usage counters: what a call leaves alone, and malformed counters *)

Lemma add_tokens_ok_inv (v : pyval) (model : string) (a b : Z) (x : pyval) :
  add_tokens v model a b = Ok x ->
  exists d inner, v = PDict d /\ x = PDict (dict_set model inner d).
Proof.
  unfold add_tokens. destruct v as [| | | | |d]; try discriminate.
  destruct (dict_get model d) as [inner|].
  - destruct (iadd_item inner "n_input_tokens" a) as [i1|]; [|discriminate].
    destruct (iadd_item i1 "n_output_tokens" b) as [i2|]; [|discriminate].
    intros [= <-]. now exists d, i2.
  - intros [= <-]. now eexists d, _.
Qed.

(** A successful [update_n_used_tokens] for one model of one user changes
    nothing else: the counters of the user's other models, the user's
    other attributes, the other users and the dialogs are as before. *)
Theorem update_n_used_tokens_frame
    (s s' : db) (u a b : Z) (model : string) :
  update_n_used_tokens (PInt u) model (PInt a) (PInt b) s = (Ok tt, s') ->
  (forall model', model' <> model ->
     used_tokens s' u model' = used_tokens s u model')
  /\ (forall key, key <> "n_used_tokens" ->
        fst (get_user_attribute (PInt u) key s')
        = fst (get_user_attribute (PInt u) key s))
  /\ (forall u', u' <> u -> user_collection s' !! u' = user_collection s !! u')
  /\ dialog_collection s' = dialog_collection s.
Proof.
  unfold update_n_used_tokens. unfold mbind at 1. unfold M_bind at 1.
  destruct (user_collection s !! u) as [doc|] eqn:Hu.
  2:{ unfold get_user_attribute, mbind, M_bind.
      destruct (check_if_user_exists_absent u s Hu) as [-> _]. discriminate. }
  rewrite (get_user_attribute_present u _ s doc Hu).
  set (stored := default PNone (doc !! "n_used_tokens")).
  destruct (add_tokens (if truthy stored then stored else PDict []) model a b)
    as [x|e] eqn:Hadd; [|discriminate].
  destruct (add_tokens_ok_inv _ _ _ _ _ Hadd) as (d & inner & Hd & ->).
  destruct (bson_encodable (PDict (dict_set model inner d))) eqn:Henc.
  2:{ now rewrite (set_user_attribute_too_big u "n_used_tokens" _ s doc Hu Henc). }
  rewrite (set_user_attribute_present u "n_used_tokens" _ s doc Hu
             eq_refl eq_refl Henc).
  intros [= <-]. split; [|split; [|split]].
  - intros model' Hne. unfold used_tokens, tokens_dict. simpl.
    rewrite lookup_insert_eq, Hu, lookup_insert_eq. simpl. fold stored.
    rewrite Hd.
    destruct (dict_set model inner d) eqn:Hset;
      [now apply dict_set_not_nil in Hset|].
    rewrite <- Hset. now rewrite dict_get_set_ne.
  - intros key Hne.
    erewrite get_user_attribute_present; [|simpl; apply lookup_insert_eq].
    rewrite (get_user_attribute_present u key s doc Hu).
    now rewrite lookup_insert_ne by auto.
  - intros u' Hne. simpl. now rewrite lookup_insert_ne by auto.
  - reflexivity.
Qed.

Lemma update_n_used_tokens_frame_witness :
  let s' := snd (update_n_used_tokens (PInt 1) "other" (PInt 2) (PInt 1)
                   sample_db_tokens) in
  (forall model', model' <> "other" ->
     used_tokens s' 1 model' = used_tokens sample_db_tokens 1 model')
  /\ (forall key, key <> "n_used_tokens" ->
        fst (get_user_attribute (PInt 1) key s')
        = fst (get_user_attribute (PInt 1) key sample_db_tokens))
  /\ (forall u', u' <> 1%Z ->
        user_collection s' !! u' = user_collection sample_db_tokens !! u')
  /\ dialog_collection s' = dialog_collection sample_db_tokens.
Proof.
  apply (update_n_used_tokens_frame sample_db_tokens
           (snd (update_n_used_tokens (PInt 1) "other" (PInt 2) (PInt 1)
                   sample_db_tokens)) 1 2 1 "other").
  vm_refl.
Defined.

(** Stored counters that are not what the method wrote make the call
    raise and leave the store as it was: a stored ["n_used_tokens"] that is
    truthy and not a dictionary gives [TypeError], and an entry for the
    model that lacks its output counter gives [KeyError], although the
    input counter had already been added in the method's own copy. *)
Theorem update_n_used_tokens_malformed
    (s : db) (u a b : Z) (model : string) (doc : gmap string pyval) :
  user_collection s !! u = Some doc ->
  (forall v, doc !! "n_used_tokens" = Some v ->
             truthy v = true -> (forall d, v <> PDict d) ->
             exists what,
               update_n_used_tokens (PInt u) model (PInt a) (PInt b) s
               = (Raise (TypeError what), s))
  /\ (forall d i x,
         tokens_dict s u = Some d ->
         dict_get model d = Some (PDict i) ->
         dict_get "n_input_tokens" i = Some (PInt x) ->
         dict_get "n_output_tokens" i = None ->
         update_n_used_tokens (PInt u) model (PInt a) (PInt b) s
         = (Raise (KeyError "n_output_tokens"), s)).
Proof.
  intros Hu. split.
  - intros v Hv Ht Hnd. unfold update_n_used_tokens, mbind, M_bind.
    rewrite (get_user_attribute_present u _ s doc Hu), Hv. simpl. rewrite Ht.
    destruct v as [| | | | |d]; try (eexists; reflexivity).
    now destruct (Hnd d).
  - intros d i x Hd Hm Hin Hout.
    unfold update_n_used_tokens, mbind, M_bind.
    rewrite (get_user_attribute_present u _ s doc Hu).
    unfold tokens_dict in Hd. rewrite Hu in Hd. cbn zeta in Hd.
    destruct (if truthy (default PNone (doc !! "n_used_tokens"))
              then default PNone (doc !! "n_used_tokens") else PDict [])
      as [| | | | |d0]; try discriminate.
    injection Hd as ->. unfold add_tokens. rewrite Hm.
    unfold iadd_item at 1. rewrite Hin. cbn [py_add].
    unfold iadd_item. rewrite dict_get_set_ne by discriminate.
    now rewrite Hout.
Qed.

Lemma update_n_used_tokens_malformed_witness :
  (exists what,
      update_n_used_tokens (PInt 1) "m" (PInt 1) (PInt 1) sample_db_bad_tokens
      = (Raise (TypeError what), sample_db_bad_tokens))
  /\ update_n_used_tokens (PInt 1) "m" (PInt 1) (PInt 1) sample_db_half_tokens
     = (Raise (KeyError "n_output_tokens"), sample_db_half_tokens).
Proof.
  split.
  - apply (proj1 (update_n_used_tokens_malformed sample_db_bad_tokens 1 1 1
                    "m" (default ∅ (user_collection sample_db_bad_tokens !! 1%Z))
                    ltac:(vm_refl)) (PStr "oops"));
      [vm_refl|reflexivity|].
    intros d. discriminate.
  - apply (proj2 (update_n_used_tokens_malformed sample_db_half_tokens 1 1 1
                    "m" (default ∅ (user_collection sample_db_half_tokens !! 1%Z))
                    ltac:(vm_refl))
             [("m", PDict [("n_input_tokens", PInt 7)])]
             [("n_input_tokens", PInt 7)] 7%Z); vm_refl.
Defined.

(** * Further properties of the completion adapter *)

(** ** Trimming *)

Lemma rstrip_head (c : ascii) (s : string) :
  is_space c = false -> rstrip (String c s) = String c (rstrip s).
Proof.
  intros Hc. cbn [rstrip]. rewrite Hc. now destruct (rstrip s).
Qed.

Lemma rstrip_idem (s : string) : rstrip (rstrip s) = rstrip s.
Proof.
  induction s as [|c s IH]; [reflexivity|].
  cbn [rstrip]. destruct (rstrip s) as [|d r] eqn:Hr.
  - destruct (is_space c) eqn:Hc; [reflexivity|].
    cbn [rstrip]. now rewrite Hc.
  - cbn [rstrip]. cbn [rstrip] in IH.
    destruct (rstrip r) as [|d' r'].
    + destruct (is_space d); [discriminate|]. now rewrite IH.
    + now rewrite IH.
Qed.

Lemma lstrip_head (s : string) :
  lstrip s = "" \/ exists c t, lstrip s = String c t /\ is_space c = false.
Proof.
  induction s as [|c s IH]; [now left|].
  cbn [lstrip]. destruct (is_space c) eqn:Hc; [exact IH|].
  right. now exists c, s.
Qed.

Lemma lstrip_all_space (s : string) : all_space s = true -> lstrip s = "".
Proof.
  induction s as [|c s IH]; [reflexivity|].
  cbn [all_space lstrip]. intros [Hc Hs]%andb_prop. rewrite Hc. now apply IH.
Qed.

(** [_postprocess_answer] trims: its result neither starts nor ends with
    whitespace, so trimming again changes nothing; it keeps the words of
    the answer; and an answer of whitespace only becomes the empty
    string. *)
Theorem postprocess_answer_trims (answer : string) :
  lstrip (_postprocess_answer answer) = _postprocess_answer answer
  /\ rstrip (_postprocess_answer answer) = _postprocess_answer answer
  /\ _postprocess_answer (_postprocess_answer answer)
     = _postprocess_answer answer
  /\ split (_postprocess_answer answer) = split answer
  /\ (all_space answer = true -> _postprocess_answer answer = "").
Proof.
  unfold _postprocess_answer.
  assert (Hl : lstrip (strip answer) = strip answer).
  { unfold strip.
    destruct (lstrip_head answer) as [->|(c & t & -> & Hc)]; [reflexivity|].
    rewrite (rstrip_head c t Hc). cbn [lstrip]. now rewrite Hc. }
  assert (Hr : rstrip (strip answer) = strip answer)
    by apply rstrip_idem.
  split; [assumption|]. split; [assumption|].
  split; [unfold strip at 1; now rewrite Hl|].
  split; [apply split_strip|].
  intros Hall. unfold strip. now rewrite lstrip_all_space.
Qed.

Lemma postprocess_answer_trims_witness :
  _postprocess_answer "   " = ""
  /\ _postprocess_answer (_postprocess_answer " hi there ") = "hi there".
Proof.
  split.
  - apply (proj2 (proj2 (proj2 (proj2 (postprocess_answer_trims "   "))))).
    reflexivity.
  - rewrite (proj1 (proj2 (proj2 (postprocess_answer_trims " hi there ")))).
    reflexivity.
Defined.

(** ** The input count *)

Lemma total_words_app (l1 l2 : list string) :
  total_words (l1 ++ l2) = total_words l1 + total_words l2.
Proof.
  unfold total_words. rewrite map_app.
  induction (map (fun x => length (split x)) l1) as [|n l IH]; simpl; [reflexivity|].
  rewrite IH. lia.
Qed.

Lemma total_words_turn_entries (bot_role : string) (history : list turn) :
  total_words (map content (turn_entries bot_role history))
  = history_words history.
Proof.
  unfold total_words, history_words, words.
  induction history as [|t rest IH]; simpl; [reflexivity|].
  rewrite IH. lia.
Qed.

(** The input count that both methods report is the number of words of
    the system prompt, of the user and bot texts of the history and of the
    new message. *)
Theorem input_tokens_count
    (cfg : config) (be : backend) (chat_mode : string)
    (mode : gmap string string) (P : string) (history : list turn)
    (m : string) :
  chat_modes cfg !! chat_mode = Some mode ->
  mode !! "prompt_start" = Some P ->
  (forall answer n_in n_out cost,
      outcome (send_message cfg be m history chat_mode)
      = Ok (answer, (n_in, n_out), cost) ->
      n_in = words P + history_words history + words m)
  /\ (forall events r,
         outcome (send_message_stream cfg be m history chat_mode)
         = (events, r) ->
         Forall (fun ev => fst (ev_tokens ev)
                           = words P + history_words history + words m)
                events).
Proof.
  intros Hmode HP.
  assert (Hgen : _generate_prompt_messages cfg m history chat_mode
                 = Ok (prompt_sequence "model" P history m)).
  { unfold _generate_prompt_messages.
    rewrite Hmode, HP. now rewrite fold_append_turn. }
  assert (Hn : count_input_tokens (prompt_sequence "model" P history m)
               = words P + history_words history + words m).
  { rewrite count_input_tokens_total. unfold prompt_sequence.
    cbn [map]. rewrite map_app.
    change (total_words (?x :: ?l)) with (length (split x) + total_words l).
    rewrite total_words_app, total_words_turn_entries.
    unfold total_words, words. simpl. lia. }
  split.
  - intros answer n_in n_out cost. unfold send_message.
    rewrite Hmode, Hgen. cbn [outcome].
    destruct (generate_content be _) as [r|e]; [|discriminate].
    destruct (text r) as [raw|e]; [|discriminate].
    now intros [= _ <- _ _].
  - intros events r. unfold send_message_stream.
    rewrite Hmode, Hgen. cbn [outcome].
    destruct (generate_content_stream be _) as [resp|e].
    + intros Hrun.
      pose proof (stream_loop_counts resp
                    (count_input_tokens (prompt_sequence "model" P history m))
                    "" None ltac:(discriminate)) as Hall.
      rewrite Hrun in Hall. cbn [fst] in Hall.
      eapply Forall_impl; [exact Hall|].
      intros ev [Htok _]. now rewrite Htok, <- Hn.
    + intros [= <- _]. constructor.
Qed.

Lemma input_tokens_count_witness :
  7 = words "P" + history_words sample_history + words "two words".
Proof.
  apply (proj1 (input_tokens_count sample_config sample_backend "assistant"
                  {[ "prompt_start" := "P" ]} "P" sample_history "two words"
                  eq_refl eq_refl) "hi there" 7 2 0).
  reflexivity.
Defined.

(** ** Failures *)

Lemma stream_loop_no_text (chunks : list string) :
  forall (n_in : nat) (acc : string),
    existsb nonempty chunks = false ->
    stream_loop n_in acc None (stream_of chunks)
    = ([], Some (ApiError (UnboundLocalError "n_output_tokens"))).
Proof.
  induction chunks as [|c chunks IH]; intros n_in acc H; [reflexivity|].
  cbn [existsb] in H. apply orb_false_elim in H as [Hc H].
  cbn [stream_of stream_loop]. rewrite Hc. now apply IH.
Qed.

(** A stream that ends without any text makes [send_message_stream] fail
    after the backend call, with no event: the closing event reads the
    output count, which only a chunk with text binds.  [send_message]
    returns the empty answer with output count zero for a backend that
    answers with the empty text. *)
Theorem stream_without_text_fails
    (cfg : config) (be : backend) (m : string) (history : list turn)
    (chat_mode : string) (messages : list entry) (chunks : list string) :
  _generate_prompt_messages cfg m history chat_mode = Ok messages ->
  generate_content_stream be messages = Ok (stream_of chunks) ->
  existsb nonempty chunks = false ->
  send_message_stream cfg be m history chat_mode
  = {| outcome := ([], Some (ApiError (UnboundLocalError "n_output_tokens")));
       backend_calls := [messages] |}
  /\ (generate_content be messages = Ok {| text := Ok "" |} ->
      send_message cfg be m history chat_mode
      = {| outcome := Ok ("", (total_words (map content messages), 0), 0);
           backend_calls := [messages] |}).
Proof.
  intros Hgen Hbe Hnone.
  destruct (generate_prompt_messages_mode _ _ _ _ _ Hgen) as [mode Hmode].
  split.
  - unfold send_message_stream. rewrite Hmode, Hgen, Hbe.
    now rewrite stream_loop_no_text.
  - intros Hone. unfold send_message. rewrite Hmode, Hgen, Hone.
    cbn [text]. now rewrite count_input_tokens_total.
Qed.

Lemma stream_without_text_fails_witness :
  send_message_stream sample_config silent_backend "m" [] "assistant"
  = {| outcome := ([], Some (ApiError (UnboundLocalError "n_output_tokens")));
       backend_calls := [prompt_sequence "model" "P" [] "m"] |}
  /\ send_message sample_config silent_backend "m" [] "assistant"
     = {| outcome :=
            Ok ("", (total_words
                       (map content (prompt_sequence "model" "P" [] "m")), 0),
                0);
          backend_calls := [prompt_sequence "model" "P" [] "m"] |}.
Proof.
  destruct (stream_without_text_fails sample_config silent_backend "m" []
              "assistant" (prompt_sequence "model" "P" [] "m") [""; ""]
              eq_refl eq_refl eq_refl) as [H1 H2].
  split; [exact H1|apply H2; reflexivity].
Defined.

(** What the backend raises comes out as the adapter's "Error in Gemini
    API" error, after the one backend call: from the call itself, from
    reading the answer's text, and from opening the stream. *)
Theorem backend_errors_are_wrapped
    (cfg : config) (be : backend) (m : string) (history : list turn)
    (chat_mode : string) (messages : list entry) (e : exn) :
  _generate_prompt_messages cfg m history chat_mode = Ok messages ->
  (generate_content be messages = Raise e ->
   send_message cfg be m history chat_mode
   = {| outcome := Raise (ApiError e); backend_calls := [messages] |})
  /\ (generate_content be messages = Ok {| text := Raise e |} ->
      send_message cfg be m history chat_mode
      = {| outcome := Raise (ApiError e); backend_calls := [messages] |})
  /\ (generate_content_stream be messages = Raise e ->
      send_message_stream cfg be m history chat_mode
      = {| outcome := ([], Some (ApiError e)); backend_calls := [messages] |}).
Proof.
  intros Hgen.
  destruct (generate_prompt_messages_mode _ _ _ _ _ Hgen) as [mode Hmode].
  unfold send_message, send_message_stream. rewrite Hmode, Hgen.
  split; [|split]; now intros ->.
Qed.

Lemma backend_errors_are_wrapped_witness :
  send_message sample_config failing_backend "m" [] "assistant"
  = {| outcome := Raise (ApiError (BackendFailure "quota"));
       backend_calls := [prompt_sequence "model" "P" [] "m"] |}.
Proof.
  apply (proj1 (backend_errors_are_wrapped sample_config failing_backend "m" []
                  "assistant" (prompt_sequence "model" "P" [] "m")
                  (BackendFailure "quota") eq_refl)).
  reflexivity.
Defined.

Lemma stream_loop_failing (chunks : list string) (e : exn) :
  forall (n_in : nat) (acc : string) (n_out : option nat),
    stream_loop n_in acc n_out (stream_failing chunks e)
    = (map (not_finished_event n_in)
           (prefixes acc (List.filter nonempty chunks)),
       Some (ApiError e)).
Proof.
  induction chunks as [|c chunks IH]; intros n_in acc n_out; [reflexivity|].
  cbn [stream_failing stream_loop List.filter].
  destruct (nonempty c); [|apply IH].
  now rewrite IH.
Qed.

(** When the stream fails after some chunks, the events of the chunks with
    text have been yielded, each with the text accumulated so far; then the
    adapter's error comes, and no closing event. *)
Theorem stream_error_keeps_events
    (cfg : config) (be : backend) (m : string) (history : list turn)
    (chat_mode : string) (messages : list entry) (chunks : list string)
    (e : exn) :
  _generate_prompt_messages cfg m history chat_mode = Ok messages ->
  generate_content_stream be messages = Ok (stream_failing chunks e) ->
  outcome (send_message_stream cfg be m history chat_mode)
  = (map (not_finished_event (total_words (map content messages)))
         (prefixes "" (List.filter nonempty chunks)),
     Some (ApiError e)).
Proof.
  intros Hgen Hbe.
  destruct (generate_prompt_messages_mode _ _ _ _ _ Hgen) as [mode Hmode].
  unfold send_message_stream. rewrite Hmode, Hgen. cbn [outcome].
  now rewrite Hbe, stream_loop_failing, count_input_tokens_total.
Qed.

Lemma stream_error_keeps_events_witness :
  outcome (send_message_stream sample_config failing_backend "m" [] "assistant")
  = ([ not_finished_event 2 "a"; not_finished_event 2 "ab" ],
     Some (ApiError (BackendFailure "reset"))).
Proof.
  apply (stream_error_keeps_events sample_config failing_backend "m" []
           "assistant" (prompt_sequence "model" "P" [] "m") ["a"; "b"]
           (BackendFailure "reset")); reflexivity.
Defined.

(** A mode of the table that has no ["prompt_start"] passes the mode check;
    the [KeyError] of the prompt construction then comes out as the
    adapter's "Error in Gemini API" error, although the backend was not
    called. *)
Theorem mode_without_prompt_start
    (cfg : config) (be : backend) (m : string) (history : list turn)
    (chat_mode : string) (mode : gmap string string) :
  chat_modes cfg !! chat_mode = Some mode ->
  mode !! "prompt_start" = None ->
  send_message cfg be m history chat_mode
  = {| outcome := Raise (ApiError (KeyError "prompt_start"));
       backend_calls := [] |}
  /\ send_message_stream cfg be m history chat_mode
     = {| outcome := ([], Some (ApiError (KeyError "prompt_start")));
          backend_calls := [] |}.
Proof.
  intros Hmode HP.
  unfold send_message, send_message_stream, _generate_prompt_messages.
  now rewrite Hmode, HP.
Qed.

Lemma mode_without_prompt_start_witness :
  send_message bare_config sample_backend "m" [] "bare"
  = {| outcome := Raise (ApiError (KeyError "prompt_start"));
       backend_calls := [] |}
  /\ send_message_stream bare_config sample_backend "m" [] "bare"
     = {| outcome := ([], Some (ApiError (KeyError "prompt_start")));
          backend_calls := [] |}.
Proof.
  apply (mode_without_prompt_start bare_config sample_backend "m" [] "bare"
           {[ "name" := "Bare" ]}); reflexivity.
Defined.
